(** * Social interaction engine of daily-novel

    A shallow embedding of [app/models.py], [app/services/social_service.py]
    and the two writers of [app/services/entry_service.py], followed by the
    properties of the like / contact-request / conversation / message
    protocol.  The readers of the entry service, the store functions of
    [app/services/wikipedia_service.py] and [app/services/auth_service.py]
    come after them, with their own properties at the end.

    The relational store is a record of tables; a table is the list of its
    rows in insertion order.  Every service call opens a session, works on
    the store and commits, so a call is a function from the store (and the
    reading of the clock, since the source stamps rows with
    [datetime.utcnow()]) to the new store and the returned value.
    Python's [int] is [Z]; a [datetime] is a [Z] number of clock ticks;
    [Optional[T]] is [option T].  A stored row always has its primary key,
    so the [id] of a row is a [Z] and the source's
    [x.id if x.id is not None else 0] is [x.id].  A query without
    [order_by] yields the rows in table order. *)

From Stdlib Require Import Ascii String ZArith List Bool Lia Permutation Sorted.
Import ListNotations.
Local Open Scope Z_scope.

(** ** Rows (app/models.py) *)

Inductive MessageStatus : Type := PENDING | ACCEPTED | DECLINED.

Inductive ConversationStatus : Type := ACTIVE | ARCHIVED | BLOCKED.

Module User.
Record t : Type := mk {
  id : Z;
  username : string;
  email : string;
  password_hash : string;
  display_name : string;
  is_active : bool;
  created_at : Z;
  last_login : option Z
}.
End User.

Module DailyEntry.
Record t : Type := mk {
  id : Z;
  author_id : Z;
  wikipedia_image_id : Z;
  entry_date : Z;
  reflection_text : string;
  is_shared : bool;
  created_at : Z;
  updated_at : Z
}.
End DailyEntry.

Module ReflectionLike.
Record t : Type := mk {
  id : Z;
  user_id : Z;
  daily_entry_id : Z;
  created_at : Z
}.
End ReflectionLike.

Module ContactRequest.
Record t : Type := mk {
  id : Z;
  sender_id : Z;
  recipient_id : Z;
  daily_entry_id : Z;
  message : string;
  status : MessageStatus;
  created_at : Z;
  responded_at : option Z
}.
End ContactRequest.

Module Conversation.
Record t : Type := mk {
  id : Z;
  user1_id : Z;
  user2_id : Z;
  status : ConversationStatus;
  created_at : Z;
  last_message_at : option Z
}.
End Conversation.

Module DirectMessage.
Record t : Type := mk {
  id : Z;
  conversation_id : Z;
  sender_id : Z;
  message_text : string;
  created_at : Z;
  is_read : bool
}.
End DirectMessage.

(** ** Request and response schemas (app/models.py, [table=False]) *)

Module DailyEntryCreate.
Record t : Type := mk {
  reflection_text : string;
  is_shared : bool
}.
End DailyEntryCreate.

Module DailyEntryUpdate.
Record t : Type := mk {
  reflection_text : option string;
  is_shared : option bool
}.
End DailyEntryUpdate.

Module ContactRequestCreate.
Record t : Type := mk {
  recipient_id : Z;
  daily_entry_id : Z;
  message : string
}.
End ContactRequestCreate.

Module DirectMessageCreate.
Record t : Type := mk {
  conversation_id : Z;
  message_text : string
}.
End DirectMessageCreate.

(** [created_at] of a response is the row's time stamp; the source renders
    it with [isoformat()], which is left out here. *)
Module DirectMessageResponse.
Record t : Type := mk {
  id : Z;
  sender_display_name : string;
  message_text : string;
  created_at : Z;
  is_read : bool
}.
End DirectMessageResponse.

Module ConversationResponse.
Record t : Type := mk {
  id : Z;
  other_user_display_name : string;
  last_message_at : option Z;
  unread_count : nat
}.
End ConversationResponse.

(** ** The store *)

Record Store : Type := mkStore {
  users : list User.t;
  daily_entries : list DailyEntry.t;
  reflection_likes : list ReflectionLike.t;
  contact_requests : list ContactRequest.t;
  conversations : list Conversation.t;
  direct_messages : list DirectMessage.t
}.

Definition set_daily_entries (st : Store) (t : list DailyEntry.t) : Store :=
  mkStore (users st) t (reflection_likes st) (contact_requests st)
          (conversations st) (direct_messages st).

Definition set_reflection_likes (st : Store) (t : list ReflectionLike.t) : Store :=
  mkStore (users st) (daily_entries st) t (contact_requests st)
          (conversations st) (direct_messages st).

Definition set_contact_requests (st : Store) (t : list ContactRequest.t) : Store :=
  mkStore (users st) (daily_entries st) (reflection_likes st) t
          (conversations st) (direct_messages st).

Definition set_conversations (st : Store) (t : list Conversation.t) : Store :=
  mkStore (users st) (daily_entries st) (reflection_likes st)
          (contact_requests st) t (direct_messages st).

Definition set_direct_messages (st : Store) (t : list DirectMessage.t) : Store :=
  mkStore (users st) (daily_entries st) (reflection_likes st)
          (contact_requests st) (conversations st) t.

(** ** Session primitives

    [first] is [.first()] on a query result, [session_get] is
    [session.get(Model, key)], [session_update] is [session.add] of a row
    that is already persistent followed by the commit (an UPDATE by primary
    key), [session_delete] is [session.delete] (a DELETE by primary key) and
    [next_id] is the key the database assigns to a new row: one more than
    every key of the table. *)

Definition first {A : Type} (l : list A) : option A := hd_error l.

Definition session_get {A : Type} (key : A -> Z) (table : list A) (k : Z) : option A :=
  find (fun r => key r =? k) table.

Definition session_update {A : Type} (key : A -> Z) (row : A) (table : list A) : list A :=
  map (fun r => if key r =? key row then row else r) table.

Definition session_delete {A : Type} (key : A -> Z) (row : A) (table : list A) : list A :=
  filter (fun r => negb (key r =? key row)) table.

Definition next_id {A : Type} (key : A -> Z) (table : list A) : Z :=
  1 + fold_right Z.max 0 (map key table).

(** [order_by(desc(key))]: a stable insertion sort, greatest key first. *)
Fixpoint insert_desc {A : Type} (key : A -> Z) (x : A) (l : list A) : list A :=
  match l with
  | [] => [x]
  | y :: l' => if key x <? key y then y :: insert_desc key x l' else x :: l
  end.

Definition order_by_desc {A : Type} (key : A -> Z) (l : list A) : list A :=
  fold_right (insert_desc key) [] l.

(** [.limit(n)] for a count that is not negative. *)
Definition limit {A : Type} (n : Z) (l : list A) : list A := firstn (Z.to_nat n) l.

(** ** EntryService (app/services/entry_service.py), the two writers *)

Definition create_entry (st : Store) (user_id wikipedia_image_id : Z)
    (entry_data : DailyEntryCreate.t) (entry_date : Z) (now : Z)
    : Store * option DailyEntry.t :=
  match first (filter (fun e => (DailyEntry.author_id e =? user_id)
                                && (DailyEntry.entry_date e =? entry_date))
                      (daily_entries st)) with
  | Some _ => (st, None)
  | None =>
      let entry := DailyEntry.mk (next_id DailyEntry.id (daily_entries st))
                     user_id wikipedia_image_id entry_date
                     (DailyEntryCreate.reflection_text entry_data)
                     (DailyEntryCreate.is_shared entry_data) now now in
      (set_daily_entries st (daily_entries st ++ [entry]), Some entry)
  end.

Definition update_entry (st : Store) (entry_id user_id : Z)
    (update_data : DailyEntryUpdate.t) (now : Z) : Store * option DailyEntry.t :=
  match session_get DailyEntry.id (daily_entries st) entry_id with
  | None => (st, None)
  | Some entry =>
      if negb (DailyEntry.author_id entry =? user_id) then (st, None)
      else
        let text := match DailyEntryUpdate.reflection_text update_data with
                    | Some t => t
                    | None => DailyEntry.reflection_text entry
                    end in
        let shared := match DailyEntryUpdate.is_shared update_data with
                      | Some b => b
                      | None => DailyEntry.is_shared entry
                      end in
        let entry' := DailyEntry.mk (DailyEntry.id entry) (DailyEntry.author_id entry)
                        (DailyEntry.wikipedia_image_id entry) (DailyEntry.entry_date entry)
                        text shared (DailyEntry.created_at entry) now in
        (set_daily_entries st (session_update DailyEntry.id entry' (daily_entries st)),
         Some entry')
  end.

(** ** SocialService (app/services/social_service.py) *)

(** *** Likes *)

Definition like_of (user_id entry_id : Z) (l : ReflectionLike.t) : bool :=
  (ReflectionLike.user_id l =? user_id) && (ReflectionLike.daily_entry_id l =? entry_id).

Definition toggle_like (st : Store) (user_id entry_id : Z) (now : Z) : Store * bool :=
  match session_get DailyEntry.id (daily_entries st) entry_id with
  | None => (st, false)
  | Some entry =>
      if negb (DailyEntry.is_shared entry) || (DailyEntry.author_id entry =? user_id)
      then (st, false)
      else
        match first (filter (like_of user_id entry_id) (reflection_likes st)) with
        | Some existing_like =>
            (set_reflection_likes st
               (session_delete ReflectionLike.id existing_like (reflection_likes st)),
             false)
        | None =>
            let like := ReflectionLike.mk (next_id ReflectionLike.id (reflection_likes st))
                          user_id entry_id now in
            (set_reflection_likes st (reflection_likes st ++ [like]), true)
        end
  end.

Definition get_entry_likes_count (st : Store) (entry_id : Z) : nat :=
  length (filter (fun l => ReflectionLike.daily_entry_id l =? entry_id)
                 (reflection_likes st)).

Definition user_has_liked_entry (st : Store) (user_id entry_id : Z) : bool :=
  match first (filter (like_of user_id entry_id) (reflection_likes st)) with
  | Some _ => true
  | None => false
  end.

(** *** Contact requests *)

Definition request_of (sender_id recipient_id entry_id : Z) (r : ContactRequest.t) : bool :=
  (ContactRequest.sender_id r =? sender_id)
  && (ContactRequest.recipient_id r =? recipient_id)
  && (ContactRequest.daily_entry_id r =? entry_id).

Definition send_contact_request (st : Store) (sender_id : Z)
    (request_data : ContactRequestCreate.t) (now : Z)
    : Store * option ContactRequest.t :=
  let recipient_id := ContactRequestCreate.recipient_id request_data in
  let entry_id := ContactRequestCreate.daily_entry_id request_data in
  match session_get DailyEntry.id (daily_entries st) entry_id with
  | None => (st, None)
  | Some entry =>
      if negb (DailyEntry.is_shared entry)
         || negb (DailyEntry.author_id entry =? recipient_id)
      then (st, None)
      else if negb (user_has_liked_entry st sender_id entry_id) then (st, None)
      else
        match first (filter (request_of sender_id recipient_id entry_id)
                            (contact_requests st)) with
        | Some existing_request => (st, Some existing_request)
        | None =>
            let contact_request :=
              ContactRequest.mk (next_id ContactRequest.id (contact_requests st))
                sender_id recipient_id entry_id
                (ContactRequestCreate.message request_data) PENDING now None in
            (set_contact_requests st (contact_requests st ++ [contact_request]),
             Some contact_request)
        end
  end.

(** *** Conversations *)

Definition conversation_of (user1_id user2_id : Z) (c : Conversation.t) : bool :=
  (Conversation.user1_id c =? user1_id) && (Conversation.user2_id c =? user2_id).

Definition _create_conversation (st : Store) (user1_id user2_id : Z) (now : Z)
    : Store * Conversation.t :=
  let '(user1_id, user2_id) :=
    if user1_id >? user2_id then (user2_id, user1_id) else (user1_id, user2_id) in
  match first (filter (conversation_of user1_id user2_id) (conversations st)) with
  | Some existing => (st, existing)
  | None =>
      let conversation := Conversation.mk (next_id Conversation.id (conversations st))
                            user1_id user2_id ACTIVE now None in
      (set_conversations st (conversations st ++ [conversation]), conversation)
  end.

Definition respond_to_contact_request (st : Store) (request_id recipient_id : Z)
    (accept : bool) (now : Z) : Store * option ContactRequest.t :=
  match session_get ContactRequest.id (contact_requests st) request_id with
  | None => (st, None)
  | Some request =>
      if negb (ContactRequest.recipient_id request =? recipient_id) then (st, None)
      else
        let request' :=
          ContactRequest.mk (ContactRequest.id request) (ContactRequest.sender_id request)
            (ContactRequest.recipient_id request) (ContactRequest.daily_entry_id request)
            (ContactRequest.message request)
            (if accept then ACCEPTED else DECLINED)
            (ContactRequest.created_at request) (Some now) in
        let st1 := set_contact_requests st
                     (session_update ContactRequest.id request' (contact_requests st)) in
        let st2 := if accept
                   then fst (_create_conversation st1 (ContactRequest.sender_id request)
                               recipient_id now)
                   else st1 in
        (st2, Some request')
  end.

(** The count of the conversation summary: messages of the conversation
    that the user did not send and that are not read. *)
Definition unread_by (conv_id user_id : Z) (m : DirectMessage.t) : bool :=
  (DirectMessage.conversation_id m =? conv_id)
  && negb (DirectMessage.sender_id m =? user_id)
  && negb (DirectMessage.is_read m).

Definition participant (user_id : Z) (c : Conversation.t) : bool :=
  (Conversation.user1_id c =? user_id) || (Conversation.user2_id c =? user_id).

Definition other_user_id (user_id : Z) (conv : Conversation.t) : Z :=
  if Conversation.user1_id conv =? user_id
  then Conversation.user2_id conv else Conversation.user1_id conv.

Definition conversation_summary (st : Store) (user_id : Z) (conv : Conversation.t)
    : list ConversationResponse.t :=
  match session_get User.id (users st) (other_user_id user_id conv) with
  | None => []
  | Some other_user =>
      let conv_id := Conversation.id conv in
      let unread_count := length (filter (unread_by conv_id user_id) (direct_messages st)) in
      [ ConversationResponse.mk (Conversation.id conv) (User.display_name other_user)
          (Conversation.last_message_at conv) unread_count ]
  end.

Definition get_user_conversations (st : Store) (user_id : Z)
    : list ConversationResponse.t :=
  flat_map (conversation_summary st user_id)
           (filter (participant user_id) (conversations st)).

(** *** Messages *)

Definition is_member (user_id : Z) (conversation : Conversation.t) : bool :=
  existsb (Z.eqb user_id)
          [Conversation.user1_id conversation; Conversation.user2_id conversation].

Definition send_message (st : Store) (sender_id : Z)
    (message_data : DirectMessageCreate.t) (now : Z)
    : Store * option DirectMessage.t :=
  let conversation_id := DirectMessageCreate.conversation_id message_data in
  match session_get Conversation.id (conversations st) conversation_id with
  | None => (st, None)
  | Some conversation =>
      if negb (is_member sender_id conversation) then (st, None)
      else
        let message := DirectMessage.mk (next_id DirectMessage.id (direct_messages st))
                         conversation_id sender_id
                         (DirectMessageCreate.message_text message_data) now false in
        let conversation' :=
          Conversation.mk (Conversation.id conversation) (Conversation.user1_id conversation)
            (Conversation.user2_id conversation) (Conversation.status conversation)
            (Conversation.created_at conversation) (Some now) in
        (mkStore (users st) (daily_entries st) (reflection_likes st) (contact_requests st)
           (session_update Conversation.id conversation' (conversations st))
           (direct_messages st ++ [message]),
         Some message)
  end.

(** [select(DirectMessage, User).join(User)]: the inner join of the message
    rows with the user rows on [sender_id = users.id]. *)
Definition join_sender (st : Store) (messages : list DirectMessage.t)
    : list (DirectMessage.t * User.t) :=
  flat_map (fun m => map (pair m)
                       (filter (fun u => User.id u =? DirectMessage.sender_id m) (users st)))
           messages.

Definition message_response (row : DirectMessage.t * User.t) : DirectMessageResponse.t :=
  let '(message, sender) := row in
  DirectMessageResponse.mk (DirectMessage.id message) (User.display_name sender)
    (DirectMessage.message_text message) (DirectMessage.created_at message)
    (DirectMessage.is_read message).

Definition row_created_at (row : DirectMessage.t * User.t) : Z :=
  DirectMessage.created_at (fst row).

Definition conversation_rows (st : Store) (conversation_id : Z)
    : list (DirectMessage.t * User.t) :=
  filter (fun row => DirectMessage.conversation_id (fst row) =? conversation_id)
         (join_sender st (direct_messages st)).

Definition get_conversation_messages (st : Store) (conversation_id user_id : Z)
    (lim : Z) : list DirectMessageResponse.t :=
  match session_get Conversation.id (conversations st) conversation_id with
  | None => []
  | Some conversation =>
      if negb (is_member user_id conversation) then []
      else
        let results := limit lim (order_by_desc row_created_at
                                    (conversation_rows st conversation_id)) in
        rev (map message_response results)
  end.

Definition read (m : DirectMessage.t) : DirectMessage.t :=
  DirectMessage.mk (DirectMessage.id m) (DirectMessage.conversation_id m)
    (DirectMessage.sender_id m) (DirectMessage.message_text m)
    (DirectMessage.created_at m) true.

Definition mark_messages_as_read (st : Store) (conversation_id user_id : Z)
    : Store * bool :=
  match session_get Conversation.id (conversations st) conversation_id with
  | None => (st, false)
  | Some conversation =>
      if negb (is_member user_id conversation) then (st, false)
      else
        let messages := filter (unread_by conversation_id user_id) (direct_messages st) in
        (set_direct_messages st
           (fold_left (fun table message => session_update DirectMessage.id (read message) table)
                      messages (direct_messages st)),
         true)
  end.

(** ** Well-formed stores

    The primary keys of a table are distinct.  The conversation table keeps
    every pair of participants in one order, lower id first, and holds a pair
    at most once. *)

Definition canonical (c : Conversation.t) : Prop :=
  Conversation.user1_id c <= Conversation.user2_id c.

Definition pair_of (c : Conversation.t) : Z * Z :=
  (Conversation.user1_id c, Conversation.user2_id c).

Definition conversations_ok (table : list Conversation.t) : Prop :=
  NoDup (map Conversation.id table)
  /\ Forall canonical table
  /\ NoDup (map pair_of table).

(** The conversation rows between two users, in either order. *)
Definition between (a b : Z) (c : Conversation.t) : bool :=
  conversation_of a b c || conversation_of b a c.

(** ** Runs of the engine

    A step is one call of a writer of the two services; a store is reachable
    when a run of the engine leads to it from a store whose engine tables
    are empty (users and entries may be there already). *)

Inductive step (st : Store) : Store -> Prop :=
| step_create_entry user_id image_id entry_data entry_date now :
    step st (fst (create_entry st user_id image_id entry_data entry_date now))
| step_update_entry entry_id user_id update_data now :
    step st (fst (update_entry st entry_id user_id update_data now))
| step_toggle_like user_id entry_id now :
    step st (fst (toggle_like st user_id entry_id now))
| step_send_contact_request sender_id request_data now :
    step st (fst (send_contact_request st sender_id request_data now))
| step_respond_to_contact_request request_id recipient_id accept now :
    step st (fst (respond_to_contact_request st request_id recipient_id accept now))
| step_send_message sender_id message_data now :
    step st (fst (send_message st sender_id message_data now))
| step_mark_messages_as_read conversation_id user_id :
    step st (fst (mark_messages_as_read st conversation_id user_id)).

Definition initial (st : Store) : Prop :=
  reflection_likes st = [] /\ contact_requests st = []
  /\ conversations st = [] /\ direct_messages st = [].

Inductive reachable : Store -> Prop :=
| reachable_initial st : initial st -> reachable st
| reachable_step st st' : reachable st -> step st st' -> reachable st'.

(** Every like is for an existing entry of somebody else. *)
Definition likes_of_others (st : Store) : Prop :=
  forall l, In l (reflection_likes st) ->
    exists entry,
      session_get DailyEntry.id (daily_entries st) (ReflectionLike.daily_entry_id l) = Some entry
      /\ DailyEntry.author_id entry <> ReflectionLike.user_id l.

Definition no_self_request (st : Store) : Prop :=
  forall r, In r (contact_requests st) ->
    ContactRequest.sender_id r <> ContactRequest.recipient_id r.

(** What every run of the engine maintains. *)
Definition engine_inv (st : Store) : Prop :=
  conversations_ok (conversations st)
  /\ NoDup (map DirectMessage.id (direct_messages st))
  /\ likes_of_others st
  /\ no_self_request st.

(** ** Two sentences of the specification, as they are written

    Responding to a request that is no longer pending is rejected and
    changes nothing. *)
Definition second_response_rejected (st : Store) (request_id responder_id : Z)
    (accept : bool) (now : Z) : Prop :=
  forall request,
    session_get ContactRequest.id (contact_requests st) request_id = Some request ->
    ContactRequest.status request <> PENDING ->
    respond_to_contact_request st request_id responder_id accept now = (st, None).

(** Toggling twice a like of somebody else's shared entry: liked, then
    unliked, the count restored and the like absent. *)
Definition toggle_twice_restores (st : Store) (user_id entry_id : Z) (t1 t2 : Z) : Prop :=
  forall entry,
    session_get DailyEntry.id (daily_entries st) entry_id = Some entry ->
    DailyEntry.is_shared entry = true ->
    DailyEntry.author_id entry <> user_id ->
    let (st1, liked1) := toggle_like st user_id entry_id t1 in
    let (st2, liked2) := toggle_like st1 user_id entry_id t2 in
    liked1 = true /\ liked2 = false
    /\ get_entry_likes_count st2 entry_id = get_entry_likes_count st entry_id
    /\ user_has_liked_entry st2 user_id entry_id = false.

(** What [mark_messages_as_read] does to one row: an unread message of
    the conversation from the other side becomes read, any other row stays. *)
Definition mark_row (conversation_id user_id : Z) (m : DirectMessage.t) : DirectMessage.t :=
  if unread_by conversation_id user_id m then read m else m.

(** The foreign key [direct_messages.sender_id -> users.id] of models.py. *)
Definition senders_exist (st : Store) : Prop :=
  forall m, In m (direct_messages st) ->
    In (DirectMessage.sender_id m) (map User.id (users st)).

Definition in_conversation (conversation_id : Z) (m : DirectMessage.t) : bool :=
  DirectMessage.conversation_id m =? conversation_id.

(** Rows of the join in chronological order, oldest first. *)
Definition oldest_first (rows : list (DirectMessage.t * User.t)) : Prop :=
  StronglySorted (fun a b => row_created_at a <= row_created_at b) rows.

(** ** A running example: the scenario of the test suite

    Alice (user 1) shares an entry; Bob (user 2) likes it at time 5 and asks
    for contact at time 6; Alice accepts at time 10. *)

Definition alice : User.t :=
  User.mk 1 "alice" "alice@example.com" "salt:hash" "Alice Smith" true 0 None.

Definition bob : User.t :=
  User.mk 2 "bob" "bob@example.com" "salt:hash" "Bob Johnson" true 0 None.

Definition forest_entry : DailyEntry.t :=
  DailyEntry.mk 1 1 1 0 "Nature brings me peace and clarity." true 0 0.

Definition st_fresh : Store := mkStore [alice; bob] [forest_entry] [] [] [] [].

Definition st_liked : Store := fst (toggle_like st_fresh 2 1 5).

Definition st_requested : Store :=
  fst (send_contact_request st_liked 2 (ContactRequestCreate.mk 1 1 "Hello!") 6).

Definition st_accepted : Store := fst (respond_to_contact_request st_requested 1 1 true 10).

Definition st_hello : Store :=
  fst (send_message st_accepted 2 (DirectMessageCreate.mk 1 "Hello Alice!") 11).

(** Alice answers Bob at time 12 and Bob writes again at time 13. *)
Definition st_chat : Store :=
  fst (send_message
         (fst (send_message st_hello 1 (DirectMessageCreate.mk 1 "Hi Bob!") 12))
         2 (DirectMessageCreate.mk 1 "Would love to discuss more!") 13).

(** The same three messages with the rows of the table in another order. *)
Definition st_shuffled : Store :=
  set_direct_messages st_chat
    [ DirectMessage.mk 3 1 2 "Would love to discuss more!" 13 false;
      DirectMessage.mk 1 1 2 "Hello Alice!" 11 false;
      DirectMessage.mk 2 1 1 "Hi Bob!" 12 false ].

(** A second request between the same two users, the other way round: Bob
    shares an entry at time 20, Alice likes it, asks for contact and Bob
    accepts at time 23. *)
Definition st_second_accepted : Store :=
  let st1 := fst (create_entry st_accepted 2 1
                    (DailyEntryCreate.mk "A quiet morning." true) 1 20) in
  let st2 := fst (toggle_like st1 1 2 21) in
  let st3 := fst (send_contact_request st2 1 (ContactRequestCreate.mk 2 2 "Hi Bob!") 22) in
  fst (respond_to_contact_request st3 2 2 true 23).

(** Bob's user record is gone from the identity store. *)
Definition st_bob_gone : Store :=
  mkStore [alice] (daily_entries st_accepted) (reflection_likes st_accepted)
          (contact_requests st_accepted) (conversations st_accepted)
          (direct_messages st_accepted).

(** ** The rest of the services

    *** SocialService: the pending requests of a user

    The loop of the source over the result only touches [request.sender] to
    have it loaded; it does not change the list. *)

Definition is_pending (s : MessageStatus) : bool :=
  match s with
  | PENDING => true
  | _ => false
  end.

Definition pending_for (user_id : Z) (r : ContactRequest.t) : bool :=
  (ContactRequest.recipient_id r =? user_id) && is_pending (ContactRequest.status r).

Definition get_pending_contact_requests (st : Store) (user_id : Z)
    : list ContactRequest.t :=
  order_by_desc ContactRequest.created_at
    (filter (pending_for user_id) (contact_requests st)).

(** *** EntryService: the readers

    The table of the daily images is not part of [Store]; the readers that
    join it take it as an argument. *)

Module WikipediaImage.
Record t : Type := mk {
  id : Z;
  image_date : Z;
  title : string;
  description : string;
  image_url : string;
  wikipedia_url : string;
  created_at : Z
}.
End WikipediaImage.

Module WikipediaImageCreate.
Record t : Type := mk {
  date : Z;
  title : string;
  description : string;
  image_url : string;
  wikipedia_url : string
}.
End WikipediaImageCreate.

(** [entry_date] and [created_at] of a response are the row's values; the
    source renders them with [isoformat()]. *)
Module DailyEntryResponse.
Record t : Type := mk {
  id : Z;
  entry_date : Z;
  reflection_text : string;
  is_shared : bool;
  author_display_name : string;
  wikipedia_image_title : string;
  wikipedia_image_url : string;
  likes_count : nat;
  created_at : Z
}.
End DailyEntryResponse.

Definition entry_on (user_id entry_date : Z) (e : DailyEntry.t) : bool :=
  (DailyEntry.author_id e =? user_id) && (DailyEntry.entry_date e =? entry_date).


Definition get_entry_by_id (st : Store) (entry_id : Z) : option DailyEntry.t :=
  session_get DailyEntry.id (daily_entries st) entry_id.

(** [select(DailyEntry, User, WikipediaImage).join(User).join(WikipediaImage)]:
    the entries joined with their author and their image. *)
Definition join_entries (st : Store) (images : list WikipediaImage.t)
    : list (DailyEntry.t * User.t * WikipediaImage.t) :=
  flat_map
    (fun e =>
       flat_map
         (fun u =>
            map (fun i => (e, u, i))
                (filter (fun i => WikipediaImage.id i =? DailyEntry.wikipedia_image_id e)
                        images))
         (filter (fun u => User.id u =? DailyEntry.author_id e) (users st)))
    (daily_entries st).

Definition joined_entry (row : DailyEntry.t * User.t * WikipediaImage.t) : DailyEntry.t :=
  fst (fst row).

Definition entry_response (st : Store) (row : DailyEntry.t * User.t * WikipediaImage.t)
    : DailyEntryResponse.t :=
  let '(entry, user, image) := row in
  let entry_id := DailyEntry.id entry in
  let likes_count :=
    length (filter (fun l => ReflectionLike.daily_entry_id l =? entry_id)
                   (reflection_likes st)) in
  DailyEntryResponse.mk (DailyEntry.id entry) (DailyEntry.entry_date entry)
    (DailyEntry.reflection_text entry) (DailyEntry.is_shared entry)
    (User.display_name user) (WikipediaImage.title image) (WikipediaImage.image_url image)
    likes_count (DailyEntry.created_at entry).

Definition get_user_entries_history (st : Store) (images : list WikipediaImage.t)
    (user_id : Z) (lim : Z) : list DailyEntryResponse.t :=
  let results :=
    limit lim
      (order_by_desc (fun row => DailyEntry.entry_date (joined_entry row))
         (filter (fun row => DailyEntry.author_id (joined_entry row) =? user_id)
                 (join_entries st images))) in
  map (entry_response st) results.

Definition get_shared_entries (st : Store) (images : list WikipediaImage.t)
    (lim offset : Z) : list DailyEntryResponse.t :=
  let results :=
    limit lim
      (skipn (Z.to_nat offset)
         (order_by_desc (fun row => DailyEntry.created_at (joined_entry row))
            (filter (fun row => DailyEntry.is_shared (joined_entry row))
                    (join_entries st images)))) in
  map (entry_response st) results.

(** *** WikipediaService (app/services/wikipedia_service.py), the two store
    functions, on the table of the daily images *)

Definition image_on (target_date : Z) (i : WikipediaImage.t) : bool :=
  WikipediaImage.image_date i =? target_date.

Definition get_or_fetch_daily_image (images : list WikipediaImage.t) (target_date : Z)
    : option WikipediaImage.t :=
  first (filter (image_on target_date) images).

Definition store_daily_image (images : list WikipediaImage.t)
    (image_data : WikipediaImageCreate.t) (now : Z)
    : list WikipediaImage.t * option WikipediaImage.t :=
  match first (filter (image_on (WikipediaImageCreate.date image_data)) images) with
  | Some existing => (images, Some existing)
  | None =>
      let wiki_image :=
        WikipediaImage.mk (next_id WikipediaImage.id images)
          (WikipediaImageCreate.date image_data) (WikipediaImageCreate.title image_data)
          (WikipediaImageCreate.description image_data)
          (WikipediaImageCreate.image_url image_data)
          (WikipediaImageCreate.wikipedia_url image_data) now in
      (images ++ [wiki_image], Some wiki_image)
  end.

(** *** AuthService (app/services/auth_service.py)

    [pbkdf2_hex password salt] stands for
    [hashlib.pbkdf2_hmac("sha256", password, salt, 100000).hex()] and the
    salt that [hash_password] draws with [secrets.token_hex(32)] is an
    argument. *)

Module UserCreate.
Record t : Type := mk {
  username : string;
  email : string;
  password : string;
  display_name : string
}.
End UserCreate.

Module UserLogin.
Record t : Type := mk {
  username : string;
  password : string
}.
End UserLogin.

Definition set_users (st : Store) (t : list User.t) : Store :=
  mkStore t (daily_entries st) (reflection_likes st) (contact_requests st)
          (conversations st) (direct_messages st).

(** [s.split(sep)] for a separator of one character. *)
Fixpoint split (sep : Ascii.ascii) (s : string) : list string :=
  match s with
  | EmptyString => [EmptyString]
  | String c s' =>
      if Ascii.eqb c sep then EmptyString :: split sep s'
      else match split sep s' with
           | [] => [String c EmptyString]
           | piece :: pieces => String c piece :: pieces
           end
  end.

Definition colon : Ascii.ascii := ":"%char.

Fixpoint colon_free (s : string) : bool :=
  match s with
  | EmptyString => true
  | String c s' => negb (Ascii.eqb c colon) && colon_free s'
  end.

Section AuthService.

Variable pbkdf2_hex : string -> string -> string.

Definition hash_password (salt password : string) : string :=
  String.append salt (String colon (pbkdf2_hex password salt)).

(** The unpacking [salt, stored_hash = password_hash.split(":")] raises
    [ValueError] unless there are exactly two pieces, and the source answers
    [False] then. *)
Definition verify_password (password password_hash : string) : bool :=
  match split colon password_hash with
  | [salt; stored_hash] => String.eqb stored_hash (pbkdf2_hex password salt)
  | _ => false
  end.

Definition taken (user_data : UserCreate.t) (u : User.t) : bool :=
  String.eqb (User.username u) (UserCreate.username user_data)
  || String.eqb (User.email u) (UserCreate.email user_data).

Definition create_user (st : Store) (user_data : UserCreate.t) (salt : string) (now : Z)
    : Store * option User.t :=
  match first (filter (taken user_data) (users st)) with
  | Some _ => (st, None)
  | None =>
      let password_hash := hash_password salt (UserCreate.password user_data) in
      let user := User.mk (next_id User.id (users st)) (UserCreate.username user_data)
                    (UserCreate.email user_data) password_hash
                    (UserCreate.display_name user_data) true now None in
      (set_users st (users st ++ [user]), Some user)
  end.

Definition named (username : string) (u : User.t) : bool :=
  String.eqb (User.username u) username.

Definition authenticate_user (st : Store) (login_data : UserLogin.t) (now : Z)
    : Store * option User.t :=
  match first (filter (named (UserLogin.username login_data)) (users st)) with
  | None => (st, None)
  | Some user =>
      if negb (verify_password (UserLogin.password login_data) (User.password_hash user))
      then (st, None)
      else
        let user' := User.mk (User.id user) (User.username user) (User.email user)
                       (User.password_hash user) (User.display_name user)
                       (User.is_active user) (User.created_at user) (Some now) in
        (set_users st (session_update User.id user' (users st)), Some user')
  end.

End AuthService.

Definition get_user_by_id (st : Store) (user_id : Z) : option User.t :=
  session_get User.id (users st) user_id.

Definition get_user_by_username (st : Store) (username : string) : option User.t :=
  first (filter (named username) (users st)).

(** ** More of what the runs of the engine maintain *)

Definition like_pair (l : ReflectionLike.t) : Z * Z :=
  (ReflectionLike.user_id l, ReflectionLike.daily_entry_id l).

(** A user likes an entry at most once. *)
Definition likes_unique (st : Store) : Prop :=
  NoDup (map ReflectionLike.id (reflection_likes st))
  /\ NoDup (map like_pair (reflection_likes st)).

Definition request_triple (r : ContactRequest.t) : Z * Z * Z :=
  (ContactRequest.sender_id r, ContactRequest.recipient_id r,
   ContactRequest.daily_entry_id r).

(** There is at most one request per sender, recipient and entry, and a
    request is addressed to the author of its entry. *)
Definition requests_ok (st : Store) : Prop :=
  NoDup (map ContactRequest.id (contact_requests st))
  /\ NoDup (map request_triple (contact_requests st))
  /\ forall r, In r (contact_requests st) ->
       exists entry,
         session_get DailyEntry.id (daily_entries st) (ContactRequest.daily_entry_id r)
         = Some entry
         /\ DailyEntry.author_id entry = ContactRequest.recipient_id r.

(** A stored message was sent by a participant of its conversation. *)
Definition senders_are_members (st : Store) : Prop :=
  forall m, In m (direct_messages st) ->
    exists conversation,
      session_get Conversation.id (conversations st) (DirectMessage.conversation_id m)
      = Some conversation
      /\ is_member (DirectMessage.sender_id m) conversation = true.

(** A conversation is between two different users, and a request between
    the two has been answered. *)
Definition conversations_answered (st : Store) : Prop :=
  forall c, In c (conversations st) ->
    Conversation.user1_id c < Conversation.user2_id c
    /\ exists r, In r (contact_requests st)
                 /\ ContactRequest.status r <> PENDING
                 /\ between (ContactRequest.sender_id r) (ContactRequest.recipient_id r) c
                    = true.

Definition social_inv (st : Store) : Prop :=
  engine_inv st /\ likes_unique st /\ requests_ok st
  /\ senders_are_members st /\ conversations_answered st.

Definition entry_slot (e : DailyEntry.t) : Z * Z :=
  (DailyEntry.author_id e, DailyEntry.entry_date e).

(** An author has at most one entry per date. *)
Definition entries_unique (st : Store) : Prop :=
  NoDup (map DailyEntry.id (daily_entries st))
  /\ NoDup (map entry_slot (daily_entries st)).

(** What a step leaves of a message and of a conversation. *)
Definition same_message (m m' : DirectMessage.t) : Prop :=
  DirectMessage.id m' = DirectMessage.id m
  /\ DirectMessage.conversation_id m' = DirectMessage.conversation_id m
  /\ DirectMessage.sender_id m' = DirectMessage.sender_id m
  /\ DirectMessage.message_text m' = DirectMessage.message_text m
  /\ DirectMessage.created_at m' = DirectMessage.created_at m
  /\ (DirectMessage.is_read m = true -> DirectMessage.is_read m' = true).

Definition same_conversation (c c' : Conversation.t) : Prop :=
  Conversation.id c' = Conversation.id c
  /\ Conversation.user1_id c' = Conversation.user1_id c
  /\ Conversation.user2_id c' = Conversation.user2_id c
  /\ Conversation.created_at c' = Conversation.created_at c.

(** A run: any number of steps. *)
Inductive run (st : Store) : Store -> Prop :=
| run_here : run st st
| run_more st1 st2 : run st st1 -> step st1 st2 -> run st st2.

(** The foreign keys [daily_entries.author_id -> users.id] and
    [daily_entries.wikipedia_image_id -> wikipedia_images.id] of models.py,
    with the primary keys of the two tables. *)
Definition entries_joinable (st : Store) (images : list WikipediaImage.t) : Prop :=
  NoDup (map User.id (users st))
  /\ NoDup (map WikipediaImage.id images)
  /\ forall e, In e (daily_entries st) ->
       In (DailyEntry.author_id e) (map User.id (users st))
       /\ In (DailyEntry.wikipedia_image_id e) (map WikipediaImage.id images).

(** A row of the join holds an entry with its author and its image. *)
Definition joined_right (st : Store) (images : list WikipediaImage.t)
    (row : DailyEntry.t * User.t * WikipediaImage.t) : Prop :=
  let '(entry, user, image) := row in
  In entry (daily_entries st)
  /\ In user (users st) /\ User.id user = DailyEntry.author_id entry
  /\ In image images /\ WikipediaImage.id image = DailyEntry.wikipedia_image_id entry.

(** The image that both entries of the running example refer to by key 1. *)
Definition forest_image : WikipediaImage.t :=
  WikipediaImage.mk 1 0 "Beautiful Forest" "A peaceful forest scene"
    "https://example.com/forest.jpg" "https://en.wikipedia.org/wiki/Forest" 0.

(** The unique columns of [users] in models.py, with the primary key. *)
Definition users_unique (st : Store) : Prop :=
  NoDup (map User.id (users st))
  /\ NoDup (map User.username (users st))
  /\ NoDup (map User.email (users st)).

(** What a login leaves of an account. *)
Definition account (u : User.t) : Z * string * string * string * string :=
  (User.id u, User.username u, User.email u, User.password_hash u, User.display_name u).

(** A digest function for the examples; the real one is not computed here. *)
Definition toy_digest (password salt : string) : string :=
  if String.eqb password "password123" then "5e884898da28" else "d7a8fbb307d7".

Definition bob_account : UserCreate.t :=
  UserCreate.mk "bob" "bob@example.com" "password123" "Bob Johnson".

Definition st_alice_only : Store := mkStore [alice] [] [] [] [] [].

(** ** Facts about the session primitives *)

Lemma first_filter_None {A : Type} (p : A -> bool) (l : list A) :
  first (filter p l) = None -> filter p l = [].
Proof. unfold first. destruct (filter p l); [reflexivity | discriminate]. Qed.

Lemma first_filter_Some {A : Type} (p : A -> bool) (l : list A) (x : A) :
  first (filter p l) = Some x -> In x l /\ p x = true.
Proof.
  unfold first. intros H. apply filter_In.
  destruct (filter p l) as [|y t]; [discriminate|].
  injection H as ->. now left.
Qed.

Lemma session_get_Some {A : Type} (key : A -> Z) (table : list A) (k : Z) (r : A) :
  session_get key table k = Some r -> In r table /\ key r = k.
Proof.
  unfold session_get. intros H. apply find_some in H.
  destruct H as [Hin Hk]. split; [assumption | now apply Z.eqb_eq].
Qed.

Lemma session_get_app {A : Type} (key : A -> Z) (table extra : list A) (k : Z) (r : A) :
  session_get key table k = Some r -> session_get key (table ++ extra) k = Some r.
Proof.
  unfold session_get. induction table as [|x t IH]; simpl; [discriminate|].
  destruct (key x =? k); auto.
Qed.

Lemma next_id_above {A : Type} (key : A -> Z) (table : list A) (r : A) :
  In r table -> key r < next_id key table.
Proof.
  unfold next_id. induction table as [|x t IH]; [contradiction|].
  cbn [map fold_right]. intros [-> | Hin]; [lia | specialize (IH Hin); lia].
Qed.

Lemma next_id_fresh {A : Type} (key : A -> Z) (table : list A) :
  ~ In (next_id key table) (map key table).
Proof.
  intros H. apply in_map_iff in H. destruct H as [r [Hk Hin]].
  apply (next_id_above key) in Hin. lia.
Qed.

Lemma session_delete_appended {A : Type} (key : A -> Z) (table : list A) (row : A) :
  key row = next_id key table ->
  session_delete key row (table ++ [row]) = table.
Proof.
  intros Hk. unfold session_delete. rewrite filter_app. simpl.
  rewrite Z.eqb_refl. simpl. rewrite app_nil_r.
  apply forallb_filter_id. apply forallb_forall. intros x Hx.
  apply (next_id_above key) in Hx.
  apply negb_true_iff, Z.eqb_neq. lia.
Qed.

Lemma NoDup_key_eq {A : Type} (key : A -> Z) (table : list A) (a b : A) :
  NoDup (map key table) -> In a table -> In b table -> key a = key b -> a = b.
Proof.
  induction table as [|x t IH]; simpl; [contradiction|].
  intros Hnd Ha Hb Hk. inversion Hnd as [|? ? Hnot Hnd']; subst.
  destruct Ha as [-> | Ha], Hb as [-> | Hb]; auto.
  - exfalso. apply Hnot. rewrite Hk. now apply in_map.
  - exfalso. apply Hnot. rewrite <- Hk. now apply in_map.
Qed.

Lemma session_get_In {A : Type} (key : A -> Z) (table : list A) (r : A) :
  NoDup (map key table) -> In r table -> session_get key table (key r) = Some r.
Proof.
  intros Hnd Hin. unfold session_get.
  destruct (find (fun x => key x =? key r) table) as [x|] eqn:E.
  - apply find_some in E. destruct E as [Hx Hk]. apply Z.eqb_eq in Hk.
    f_equal. now apply (NoDup_key_eq key table).
  - exfalso. apply (find_none _ _ E) in Hin. rewrite Z.eqb_refl in Hin. discriminate.
Qed.

(** With unique keys a query that can only match the key of [c] returns [c] alone. *)
Lemma filter_unique {A K : Type} (key : A -> K) (p : A -> bool) (table : list A) (c : A) :
  NoDup (map key table) -> In c table -> p c = true ->
  (forall x, In x table -> p x = true -> key x = key c) ->
  filter p table = [c].
Proof.
  induction table as [|x t IH]; simpl; [contradiction|].
  intros Hnd Hin Hc Hp. inversion Hnd as [|? ? Hnot Hnd']; subst.
  assert (Hrest : forall y, In y t -> p y = true -> key y = key c) by auto.
  destruct Hin as [-> | Hin].
  - rewrite Hc. f_equal.
    destruct (filter p t) as [|y t'] eqn:E; [reflexivity|].
    exfalso. assert (Hy : In y (filter p t)) by (rewrite E; now left).
    apply filter_In in Hy. destruct Hy as [Hy Hpy].
    apply Hnot. rewrite <- (Hrest y Hy Hpy). now apply in_map.
  - destruct (p x) eqn:Hx.
    + exfalso. apply Hnot. rewrite (Hp x (or_introl eq_refl) Hx). now apply in_map.
    + now apply IH.
Qed.

Lemma store_eta (st : Store) :
  mkStore (users st) (daily_entries st) (reflection_likes st) (contact_requests st)
          (conversations st) (direct_messages st) = st.
Proof. now destruct st. Qed.

(** ** Likes *)

Lemma user_has_liked_entry_false (st : Store) (user_id entry_id : Z) :
  user_has_liked_entry st user_id entry_id = false <->
  filter (like_of user_id entry_id) (reflection_likes st) = [].
Proof.
  unfold user_has_liked_entry, first.
  destruct (filter _ _); simpl; split; intros; congruence.
Qed.

Lemma like_of_new (user_id entry_id k now : Z) :
  like_of user_id entry_id (ReflectionLike.mk k user_id entry_id now) = true.
Proof. unfold like_of. simpl. now rewrite !Z.eqb_refl. Qed.

Lemma toggle_like_then_unlike (st : Store) (user_id entry_id t1 t2 : Z) (entry : DailyEntry.t) :
  user_has_liked_entry st user_id entry_id = false ->
  session_get DailyEntry.id (daily_entries st) entry_id = Some entry ->
  DailyEntry.is_shared entry = true ->
  DailyEntry.author_id entry <> user_id ->
  exists st1, toggle_like st user_id entry_id t1 = (st1, true)
              /\ toggle_like st1 user_id entry_id t2 = (st, false).
Proof.
  intros Hno Hget Hshared Hauthor.
  apply user_has_liked_entry_false in Hno.
  apply Z.eqb_neq in Hauthor.
  unfold toggle_like at 1. rewrite Hget, Hshared, Hauthor, Hno. simpl.
  eexists. split; [reflexivity|].
  unfold toggle_like. simpl. rewrite Hget, Hshared, Hauthor. simpl.
  rewrite filter_app, Hno. simpl. rewrite like_of_new. simpl.
  rewrite (session_delete_appended ReflectionLike.id) by reflexivity.
  unfold set_reflection_likes. simpl. now rewrite store_eta.
Qed.

Lemma toggle_like_refused (st : Store) (user_id entry_id now : Z) :
  match session_get DailyEntry.id (daily_entries st) entry_id with
  | None => True
  | Some entry =>
      negb (DailyEntry.is_shared entry) || (DailyEntry.author_id entry =? user_id) = true
  end ->
  toggle_like st user_id entry_id now = (st, false).
Proof.
  unfold toggle_like.
  destruct (session_get DailyEntry.id (daily_entries st) entry_id); [|reflexivity].
  now intros ->.
Qed.

(** C3, as amended: for a shared entry and a user other than its author who
    has not liked it, the first [toggle_like] answers liked, the second
    answers unliked, and the two calls together leave the store as it was:
    the like count is restored and the user has not liked the entry. *)
Theorem toggle_like_twice_from_unliked (st : Store) (user_id entry_id t1 t2 : Z) :
  user_has_liked_entry st user_id entry_id = false ->
  toggle_twice_restores st user_id entry_id t1 t2
  /\ fst (toggle_like (fst (toggle_like st user_id entry_id t1)) user_id entry_id t2) = st.
Proof.
  intros Hno. split.
  - intros entry Hget Hshared Hauthor.
    destruct (toggle_like_then_unlike st user_id entry_id t1 t2 entry Hno Hget Hshared Hauthor)
      as [st1 [H1 H2]].
    rewrite H1, H2. auto.
  - pose proof (toggle_like_refused st user_id entry_id) as Href.
    pose proof (toggle_like_then_unlike st user_id entry_id t1 t2) as Hcalls.
    destruct (session_get DailyEntry.id (daily_entries st) entry_id) as [entry|].
    + destruct (negb (DailyEntry.is_shared entry) || (DailyEntry.author_id entry =? user_id))
        eqn:Hguard.
      * now rewrite !Href.
      * apply orb_false_iff in Hguard. destruct Hguard as [Hs Ha].
        apply negb_false_iff in Hs. apply Z.eqb_neq in Ha.
        destruct (Hcalls entry Hno eq_refl Hs Ha) as [st1 [H1 H2]].
        rewrite H1. simpl. now rewrite H2.
    + now rewrite !Href.
Qed.

Lemma toggle_like_twice_from_unliked_witness :
  user_has_liked_entry st_fresh 2 1 = false
  /\ toggle_twice_restores st_fresh 2 1 5 6
  /\ fst (toggle_like (fst (toggle_like st_fresh 2 1 5)) 2 1 6) = st_fresh.
Proof.
  split; [reflexivity | apply (toggle_like_twice_from_unliked st_fresh 2 1 5 6); reflexivity].
Defined.

(** C3 as it is written fails when the user has already liked the entry:
    Bob has liked Alice's entry, so his next call unlikes it and answers
    false, and the call after that likes it again. *)
Lemma toggle_like_twice_from_liked : ~ toggle_twice_restores st_liked 2 1 6 7.
Proof.
  intros H. specialize (H forest_entry eq_refl eq_refl).
  assert (Hne : DailyEntry.author_id forest_entry <> 2) by (simpl; lia).
  specialize (H Hne). vm_compute in H. destruct H as [H _]. discriminate.
Qed.

(** ** Contact requests *)

(** C5: a sender who has not liked the entry is refused, whatever the
    recipient and the message are, and the store is left as it was. *)
Theorem send_contact_request_requires_like (st : Store) (sender_id : Z)
    (request_data : ContactRequestCreate.t) (now : Z) :
  user_has_liked_entry st sender_id (ContactRequestCreate.daily_entry_id request_data) = false ->
  send_contact_request st sender_id request_data now = (st, None).
Proof.
  intros Hno. unfold send_contact_request.
  destruct (session_get DailyEntry.id (daily_entries st) _) as [entry|]; [|reflexivity].
  destruct (negb (DailyEntry.is_shared entry) || _); [reflexivity|].
  now rewrite Hno.
Qed.

Lemma send_contact_request_requires_like_witness :
  user_has_liked_entry st_fresh 2 1 = false
  /\ send_contact_request st_fresh 2 (ContactRequestCreate.mk 1 1 "Hello without liking!") 6
     = (st_fresh, None).
Proof.
  split; [reflexivity|].
  apply (send_contact_request_requires_like st_fresh 2
           (ContactRequestCreate.mk 1 1 "Hello without liking!") 6).
  reflexivity.
Defined.

Lemma request_of_new (sender_id recipient_id entry_id k now : Z) (m : string) :
  request_of sender_id recipient_id entry_id
    (ContactRequest.mk k sender_id recipient_id entry_id m PENDING now None) = true.
Proof. unfold request_of. simpl. now rewrite !Z.eqb_refl. Qed.

(** C4: when a request for (sender, recipient, entry) has been sent and
    answered with a record, sending for the same triple again, with whatever
    message, answers with that same record and leaves the store, and so the
    request table, as it is. *)
Theorem send_contact_request_twice (st st1 : Store) (sender_id recipient_id entry_id : Z)
    (m1 m2 : string) (t1 t2 : Z) (request : ContactRequest.t) :
  send_contact_request st sender_id (ContactRequestCreate.mk recipient_id entry_id m1) t1
    = (st1, Some request) ->
  send_contact_request st1 sender_id (ContactRequestCreate.mk recipient_id entry_id m2) t2
    = (st1, Some request).
Proof.
  unfold send_contact_request. simpl.
  destruct (session_get DailyEntry.id (daily_entries st) entry_id) as [entry|] eqn:Hget;
    [|discriminate].
  destruct (negb (DailyEntry.is_shared entry) || negb (DailyEntry.author_id entry =? recipient_id))
    eqn:Hguard; [discriminate|].
  destruct (user_has_liked_entry st sender_id entry_id) eqn:Hliked; [|discriminate].
  simpl.
  destruct (first (filter (request_of sender_id recipient_id entry_id) (contact_requests st)))
    as [existing|] eqn:Hexisting; intros H; injection H as <- <-.
  - now rewrite Hget, Hguard, Hliked, Hexisting.
  - simpl. rewrite Hget, Hguard.
    unfold user_has_liked_entry in *. simpl. rewrite Hliked. simpl.
    apply first_filter_None in Hexisting.
    now rewrite filter_app, Hexisting; simpl; rewrite request_of_new.
Qed.

Lemma send_contact_request_twice_witness :
  send_contact_request st_liked 2 (ContactRequestCreate.mk 1 1 "Hello!") 6
    = (st_requested,
       Some (ContactRequest.mk 1 2 1 1 "Hello!" PENDING 6 None))
  /\ send_contact_request st_requested 2 (ContactRequestCreate.mk 1 1 "Hello again!") 7
    = (st_requested,
       Some (ContactRequest.mk 1 2 1 1 "Hello!" PENDING 6 None)).
Proof.
  split; [reflexivity|].
  apply (send_contact_request_twice st_liked st_requested 2 1 1 "Hello!" "Hello again!" 6 7).
  reflexivity.
Defined.

(** C1, as amended: a further response to a request that is no longer
    pending is rejected, and the store left alone, when the responder is not
    the recipient of the request; when the recipient responds again the call
    goes through: it answers with the request, whose status now follows
    [accept] and whose [responded_at] is the time of this call, and that is
    the row the store holds. *)
Theorem respond_again (st : Store) (request_id responder_id : Z) (accept : bool) (now : Z)
    (request : ContactRequest.t) :
  session_get ContactRequest.id (contact_requests st) request_id = Some request ->
  ContactRequest.status request <> PENDING ->
  (responder_id <> ContactRequest.recipient_id request ->
   respond_to_contact_request st request_id responder_id accept now = (st, None))
  /\ (responder_id = ContactRequest.recipient_id request ->
      exists st' request',
        respond_to_contact_request st request_id responder_id accept now = (st', Some request')
        /\ ContactRequest.id request' = request_id
        /\ ContactRequest.status request' = (if accept then ACCEPTED else DECLINED)
        /\ ContactRequest.responded_at request' = Some now
        /\ session_get ContactRequest.id (contact_requests st') request_id = Some request').
Proof.
  intros Hget _. unfold respond_to_contact_request. rewrite Hget.
  destruct (session_get_Some _ _ _ _ Hget) as [_ Hid].
  split; intros Hr.
  - assert (E : (ContactRequest.recipient_id request =? responder_id) = false)
      by (apply Z.eqb_neq; congruence).
    now rewrite E.
  - subst responder_id. rewrite Z.eqb_refl. simpl.
    do 2 eexists. split; [reflexivity|]. simpl.
    repeat split; try assumption.
    assert (Hupd : session_get ContactRequest.id
              (session_update ContactRequest.id
                 (ContactRequest.mk (ContactRequest.id request) (ContactRequest.sender_id request)
                    (ContactRequest.recipient_id request) (ContactRequest.daily_entry_id request)
                    (ContactRequest.message request) (if accept then ACCEPTED else DECLINED)
                    (ContactRequest.created_at request) (Some now))
                 (contact_requests st)) request_id
            = Some (ContactRequest.mk (ContactRequest.id request) (ContactRequest.sender_id request)
                    (ContactRequest.recipient_id request) (ContactRequest.daily_entry_id request)
                    (ContactRequest.message request) (if accept then ACCEPTED else DECLINED)
                    (ContactRequest.created_at request) (Some now))).
    { revert Hget. unfold session_get, session_update. simpl. rewrite Hid.
      induction (contact_requests st) as [|x t IH]; simpl; [discriminate|].
      destruct (ContactRequest.id x =? request_id) eqn:E; simpl.
      - now rewrite Z.eqb_refl.
      - rewrite E. exact IH. }
    destruct accept; [|exact Hupd].
    unfold _create_conversation.
    destruct (ContactRequest.sender_id request >? ContactRequest.recipient_id request);
      match goal with
      | |- context [first ?q] => destruct (first q)
      end; exact Hupd.
Qed.

Lemma respond_again_witness :
  let request := ContactRequest.mk 1 2 1 1 "Hello!" ACCEPTED 6 (Some 10) in
  session_get ContactRequest.id (contact_requests st_accepted) 1 = Some request
  /\ ContactRequest.status request <> PENDING
  /\ (1 <> ContactRequest.recipient_id request ->
      respond_to_contact_request st_accepted 1 1 false 20 = (st_accepted, None))
  /\ (1 = ContactRequest.recipient_id request ->
      exists st' request',
        respond_to_contact_request st_accepted 1 1 false 20 = (st', Some request')
        /\ ContactRequest.id request' = 1
        /\ ContactRequest.status request' = DECLINED
        /\ ContactRequest.responded_at request' = Some 20
        /\ session_get ContactRequest.id (contact_requests st') 1 = Some request').
Proof.
  intros request.
  assert (Hget : session_get ContactRequest.id (contact_requests st_accepted) 1 = Some request)
    by reflexivity.
  assert (Hst : ContactRequest.status request <> PENDING) by discriminate.
  split; [exact Hget|]. split; [exact Hst|].
  exact (respond_again st_accepted 1 1 false 20 request Hget Hst).
Defined.

(** C1 as it is written fails: Alice has accepted Bob's request at time 10;
    when she responds again at time 20, declining, the call is not rejected
    and the stored request becomes declined, stamped 20. *)
Lemma second_response_overwrites :
  ~ second_response_rejected st_accepted 1 1 false 20
  /\ session_get ContactRequest.id (contact_requests st_accepted) 1
     = Some (ContactRequest.mk 1 2 1 1 "Hello!" ACCEPTED 6 (Some 10))
  /\ snd (respond_to_contact_request st_accepted 1 1 false 20)
     = Some (ContactRequest.mk 1 2 1 1 "Hello!" DECLINED 6 (Some 20))
  /\ session_get ContactRequest.id
       (contact_requests (fst (respond_to_contact_request st_accepted 1 1 false 20))) 1
     = Some (ContactRequest.mk 1 2 1 1 "Hello!" DECLINED 6 (Some 20)).
Proof.
  split; [|repeat split].
  intros H.
  specialize (H (ContactRequest.mk 1 2 1 1 "Hello!" ACCEPTED 6 (Some 10)) eq_refl).
  assert (Hst : ACCEPTED <> PENDING) by discriminate.
  specialize (H Hst). vm_compute in H. discriminate.
Qed.

(** ** Messages *)

Lemma is_member_false (user_id : Z) (conversation : Conversation.t) :
  user_id <> Conversation.user1_id conversation ->
  user_id <> Conversation.user2_id conversation ->
  is_member user_id conversation = false.
Proof.
  intros H1 H2. unfold is_member. simpl.
  apply Z.eqb_neq in H1, H2. now rewrite H1, H2.
Qed.

(** C6: a message from a user who is neither participant of the
    conversation is refused and the store is left as it was, so no message
    is created and the conversation keeps its messages and its
    [last_message_at]. *)
Theorem send_message_by_outsider (st : Store) (sender_id : Z)
    (message_data : DirectMessageCreate.t) (now : Z) (conversation : Conversation.t) :
  session_get Conversation.id (conversations st)
    (DirectMessageCreate.conversation_id message_data) = Some conversation ->
  sender_id <> Conversation.user1_id conversation ->
  sender_id <> Conversation.user2_id conversation ->
  send_message st sender_id message_data now = (st, None).
Proof.
  intros Hget H1 H2. unfold send_message.
  now rewrite Hget, (is_member_false _ _ H1 H2).
Qed.

Lemma send_message_by_outsider_witness :
  let conversation := Conversation.mk 1 1 2 ACTIVE 10 None in
  session_get Conversation.id (conversations st_accepted) 1 = Some conversation
  /\ 3 <> Conversation.user1_id conversation
  /\ 3 <> Conversation.user2_id conversation
  /\ send_message st_accepted 3 (DirectMessageCreate.mk 1 "Unauthorized message") 11
     = (st_accepted, None).
Proof.
  intros conversation.
  assert (Hget : session_get Conversation.id (conversations st_accepted) 1 = Some conversation)
    by reflexivity.
  assert (H1 : 3 <> Conversation.user1_id conversation) by (simpl; lia).
  assert (H2 : 3 <> Conversation.user2_id conversation) by (simpl; lia).
  split; [exact Hget|]. split; [exact H1|]. split; [exact H2|].
  exact (send_message_by_outsider st_accepted 3
           (DirectMessageCreate.mk 1 "Unauthorized message") 11 conversation Hget H1 H2).
Defined.

(** *** Marking as read *)

Lemma fold_session_update {A B : Type} (key : A -> Z) (f : B -> A) (ms : list B) (table : list A) :
  fold_left (fun tb m => session_update key (f m) tb) ms table
  = map (fun r => fold_left (fun r m => if key r =? key (f m) then f m else r) ms r) table.
Proof.
  revert table. induction ms as [|m ms IH]; intros table; simpl.
  - symmetry. apply map_id.
  - rewrite IH. unfold session_update. now rewrite map_map.
Qed.

Lemma fold_row_update {A : Type} (key : A -> Z) (f : A -> A) (ms : list A) (r c : A) :
  (forall m, key (f m) = key m) ->
  key c = key r ->
  (forall m, In m ms -> key m = key r -> f m = f r) ->
  fold_left (fun r m => if key r =? key (f m) then f m else r) ms c
  = if existsb (fun m => key m =? key r) ms then f r else c.
Proof.
  intros Hkey. revert c. induction ms as [|m ms IH]; intros c Hc Hsame; simpl; [reflexivity|].
  assert (Hrest : forall m', In m' ms -> key m' = key r -> f m' = f r)
    by (intros; apply Hsame; [now right | assumption]).
  rewrite Hkey, Hc, (Z.eqb_sym (key r) (key m)).
  destruct (key m =? key r) eqn:E; simpl.
  - apply Z.eqb_eq in E. rewrite (Hsame m (or_introl eq_refl) E).
    rewrite IH; [now destruct (existsb _ ms) | now rewrite Hkey | assumption].
  - now apply IH.
Qed.

Lemma update_selected {A : Type} (key : A -> Z) (f : A -> A) (p : A -> bool) (table : list A) :
  (forall m, key (f m) = key m) ->
  NoDup (map key table) ->
  fold_left (fun tb m => session_update key (f m) tb) (filter p table) table
  = map (fun r => if p r then f r else r) table.
Proof.
  intros Hkey Hnd. rewrite fold_session_update. apply map_ext_in. intros r Hr.
  rewrite (fold_row_update key f _ r r Hkey eq_refl).
  - destruct (p r) eqn:Hp.
    + replace (existsb _ _) with true; [reflexivity|].
      symmetry. apply existsb_exists. exists r. split.
      * apply filter_In. now split.
      * apply Z.eqb_refl.
    + destruct (existsb _ _) eqn:E; [|reflexivity].
      apply existsb_exists in E. destruct E as [m [Hm Hk]].
      apply filter_In in Hm. destruct Hm as [Hm Hpm]. apply Z.eqb_eq in Hk.
      rewrite (NoDup_key_eq key table m r Hnd Hm Hr Hk) in Hpm. congruence.
  - intros m Hm Hk. apply filter_In in Hm. destruct Hm as [Hm _].
    now rewrite (NoDup_key_eq key table m r Hnd Hm Hr Hk).
Qed.

Lemma no_unread_after_mark (conversation_id user_id : Z) (table : list DirectMessage.t) :
  filter (unread_by conversation_id user_id) (map (mark_row conversation_id user_id) table) = [].
Proof.
  induction table as [|m t IH]; simpl; [reflexivity|].
  unfold mark_row at 1. destruct (unread_by conversation_id user_id m) eqn:E.
  - unfold unread_by at 1. simpl. now rewrite andb_false_r.
  - now rewrite E.
Qed.

Lemma summary_of_conversation (st : Store) (user_id : Z) (r : ConversationResponse.t) :
  In r (get_user_conversations st user_id) ->
  exists conv other,
    In conv (conversations st) /\ participant user_id conv = true
    /\ session_get User.id (users st) (other_user_id user_id conv) = Some other
    /\ r = ConversationResponse.mk (Conversation.id conv) (User.display_name other)
             (Conversation.last_message_at conv)
             (length (filter (unread_by (Conversation.id conv) user_id) (direct_messages st))).
Proof.
  unfold get_user_conversations. intros H. apply in_flat_map in H.
  destruct H as [conv [Hconv Hr]]. apply filter_In in Hconv. destruct Hconv as [Hin Hp].
  unfold conversation_summary in Hr.
  destruct (session_get User.id (users st) (other_user_id user_id conv)) as [other|] eqn:E;
    [|contradiction].
  destruct Hr as [<- | []]. now exists conv, other.
Qed.

(** C8: for a participant, [mark_messages_as_read] answers true and turns
    into read exactly the rows of [direct_messages] that belong to the
    conversation, were sent by somebody else and were unread; every other row
    and table stays.  After it the participant's unread count of the
    conversation is 0, also in the summary of [get_user_conversations], and a
    second call changes nothing.  For a user who is no participant, or a
    conversation that does not exist, it answers false and the store stays. *)
Theorem mark_messages_as_read_exact (st : Store) (conversation_id user_id : Z) :
  (forall conversation,
     session_get Conversation.id (conversations st) conversation_id = Some conversation ->
     is_member user_id conversation = true ->
     NoDup (map DirectMessage.id (direct_messages st)) ->
     let st' := set_direct_messages st
                  (map (mark_row conversation_id user_id) (direct_messages st)) in
     mark_messages_as_read st conversation_id user_id = (st', true)
     /\ length (filter (unread_by conversation_id user_id) (direct_messages st')) = 0%nat
     /\ (forall r, In r (get_user_conversations st' user_id) ->
           ConversationResponse.id r = conversation_id ->
           ConversationResponse.unread_count r = 0%nat)
     /\ mark_messages_as_read st' conversation_id user_id = (st', true))
  /\ (forall conversation,
        session_get Conversation.id (conversations st) conversation_id = Some conversation ->
        is_member user_id conversation = false ->
        mark_messages_as_read st conversation_id user_id = (st, false))
  /\ (session_get Conversation.id (conversations st) conversation_id = None ->
      mark_messages_as_read st conversation_id user_id = (st, false)).
Proof.
  split; [|split].
  - intros conversation Hget Hmem Hnd st'.
    assert (Hzero : filter (unread_by conversation_id user_id) (direct_messages st') = [])
      by apply no_unread_after_mark.
    split; [|split; [|split]].
    + unfold mark_messages_as_read. rewrite Hget, Hmem. simpl.
      now rewrite (update_selected DirectMessage.id read).
    + now rewrite Hzero.
    + intros r Hr Hid. apply summary_of_conversation in Hr.
      destruct Hr as [conv [other [_ [_ [_ ->]]]]]. simpl in *. subst conversation_id.
      now rewrite Hzero.
    + unfold mark_messages_as_read.
      replace (conversations st') with (conversations st) by reflexivity.
      rewrite Hget, Hmem, Hzero. simpl. now destruct st.
  - intros conversation Hget Hmem. unfold mark_messages_as_read. now rewrite Hget, Hmem.
  - intros Hget. unfold mark_messages_as_read. now rewrite Hget.
Qed.

Lemma mark_messages_as_read_exact_witness :
  let conversation := Conversation.mk 1 1 2 ACTIVE 10 (Some 11) in
  let st' := set_direct_messages st_hello (map (mark_row 1 1) (direct_messages st_hello)) in
  session_get Conversation.id (conversations st_hello) 1 = Some conversation
  /\ is_member 1 conversation = true
  /\ NoDup (map DirectMessage.id (direct_messages st_hello))
  /\ map ConversationResponse.unread_count (get_user_conversations st_hello 1) = [1%nat]
  /\ mark_messages_as_read st_hello 1 1 = (st', true)
  /\ length (filter (unread_by 1 1) (direct_messages st')) = 0%nat
  /\ (forall r, In r (get_user_conversations st' 1) ->
        ConversationResponse.id r = 1 -> ConversationResponse.unread_count r = 0%nat)
  /\ mark_messages_as_read st' 1 1 = (st', true).
Proof.
  intros conversation st'.
  assert (Hget : session_get Conversation.id (conversations st_hello) 1 = Some conversation)
    by reflexivity.
  assert (Hmem : is_member 1 conversation = true) by reflexivity.
  assert (Hnd : NoDup (map DirectMessage.id (direct_messages st_hello))).
  { constructor; [intros [] | constructor]. }
  split; [exact Hget|]. split; [exact Hmem|]. split; [exact Hnd|].
  split; [reflexivity|].
  exact (proj1 (mark_messages_as_read_exact st_hello 1 1) conversation Hget Hmem Hnd).
Defined.

(** ** Conversation lists *)

Lemma summary_ids (st : Store) (user_id : Z) (table : list Conversation.t) :
  incl (map ConversationResponse.id (flat_map (conversation_summary st user_id) table))
       (map Conversation.id table).
Proof.
  induction table as [|x t IH]; simpl; [apply incl_refl|].
  rewrite map_app. apply incl_app.
  - unfold conversation_summary.
    destruct (session_get User.id (users st) (other_user_id user_id x)); simpl.
    + intros k [<- | []]. now left.
    + intros k [].
  - now apply incl_tl.
Qed.

Lemma summary_length (st : Store) (user_id : Z) (table : list Conversation.t) :
  (length (flat_map (conversation_summary st user_id) table) <= length table)%nat.
Proof.
  induction table as [|x t IH]; simpl; [lia|].
  rewrite length_app. unfold conversation_summary at 1.
  destruct (session_get User.id (users st) (other_user_id user_id x)); simpl; lia.
Qed.

(** The conversation [c] is listed as often as its other participant has a
    user record: once or not at all. *)
Lemma summary_count (st : Store) (user_id : Z) (table : list Conversation.t)
    (c : Conversation.t) :
  NoDup (map Conversation.id table) -> In c table ->
  count_occ Z.eq_dec
    (map ConversationResponse.id (flat_map (conversation_summary st user_id) table))
    (Conversation.id c)
  = match session_get User.id (users st) (other_user_id user_id c) with
    | Some _ => 1%nat
    | None => 0%nat
    end.
Proof.
  induction table as [|x t IH]; simpl; [contradiction|].
  intros Hnd Hin. inversion Hnd as [|? ? Hnot Hnd']; subst.
  rewrite map_app, count_occ_app.
  destruct Hin as [-> | Hin].
  - assert (Hrest : count_occ Z.eq_dec
              (map ConversationResponse.id (flat_map (conversation_summary st user_id) t))
              (Conversation.id c) = 0%nat).
    { apply count_occ_not_In. intros H. apply Hnot. now apply (summary_ids st user_id t). }
    rewrite Hrest. unfold conversation_summary.
    destruct (session_get User.id (users st) (other_user_id user_id c)); simpl;
      [|reflexivity].
    destruct (Z.eq_dec (Conversation.id c) (Conversation.id c)); [reflexivity | congruence].
  - rewrite (IH Hnd' Hin).
    assert (Hne : Conversation.id x <> Conversation.id c).
    { intros E. apply Hnot. rewrite E. now apply in_map. }
    unfold conversation_summary at 1.
    destruct (session_get User.id (users st) (other_user_id user_id x)); simpl;
      [|reflexivity].
    destruct (Z.eq_dec (Conversation.id x) (Conversation.id c)); [contradiction | reflexivity].
Qed.

Lemma NoDup_filter_map {A : Type} (key : A -> Z) (p : A -> bool) (table : list A) :
  NoDup (map key table) -> NoDup (map key (filter p table)).
Proof.
  induction table as [|x t IH]; simpl; [auto|].
  intros Hnd. inversion Hnd as [|? ? Hnot Hnd']; subst.
  destruct (p x); simpl; [|auto].
  constructor; [|auto].
  intros H. apply Hnot. apply in_map_iff in H. destruct H as [y [Hy Hin]].
  apply filter_In in Hin. rewrite <- Hy. apply in_map. tauto.
Qed.

(** C9: a conversation row in which the user takes part is listed by
    [get_user_conversations] exactly when the user record of the other
    participant exists, and then once; so the list is at most as long as the
    rows the user takes part in, and shorter when a record is missing. *)
Theorem get_user_conversations_lists (st : Store) (user_id : Z) (c : Conversation.t) :
  NoDup (map Conversation.id (conversations st)) ->
  In c (conversations st) ->
  participant user_id c = true ->
  (In (Conversation.id c) (map ConversationResponse.id (get_user_conversations st user_id))
   <-> exists other, session_get User.id (users st) (other_user_id user_id c) = Some other)
  /\ (session_get User.id (users st) (other_user_id user_id c) = None ->
      length (get_user_conversations st user_id)
      < length (filter (participant user_id) (conversations st)))%nat
  /\ (length (get_user_conversations st user_id)
      <= length (filter (participant user_id) (conversations st)))%nat.
Proof.
  intros Hnd Hin Hp. unfold get_user_conversations.
  assert (Hnd' := NoDup_filter_map Conversation.id (participant user_id) _ Hnd).
  assert (Hin' : In c (filter (participant user_id) (conversations st)))
    by (apply filter_In; now split).
  pose proof (summary_count st user_id _ c Hnd' Hin') as Hcount.
  split; [|split].
  - rewrite (count_occ_In Z.eq_dec), Hcount.
    destruct (session_get User.id (users st) (other_user_id user_id c)) as [other|].
    + split; [now exists other | lia].
    + split; [lia | intros [other H]; discriminate].
  - intros Hnone.
    revert Hin' Hnone. clear.
    induction (filter (participant user_id) (conversations st)) as [|x t IH];
      simpl; [contradiction|].
    intros [-> | Hin] Hnone; rewrite length_app.
    + unfold conversation_summary at 1. rewrite Hnone. simpl.
      pose proof (summary_length st user_id t). lia.
    + specialize (IH Hin Hnone). unfold conversation_summary at 1.
      destruct (session_get User.id (users st) (other_user_id user_id x)); simpl; lia.
  - apply summary_length.
Qed.

Lemma get_user_conversations_lists_witness :
  let c := Conversation.mk 1 1 2 ACTIVE 10 None in
  NoDup (map Conversation.id (conversations st_bob_gone))
  /\ In c (conversations st_bob_gone)
  /\ participant 1 c = true
  /\ get_user_conversations st_bob_gone 1 = []
  /\ (In (Conversation.id c) (map ConversationResponse.id (get_user_conversations st_bob_gone 1))
      <-> exists other, session_get User.id (users st_bob_gone) (other_user_id 1 c) = Some other)
  /\ (session_get User.id (users st_bob_gone) (other_user_id 1 c) = None ->
      length (get_user_conversations st_bob_gone 1)
      < length (filter (participant 1) (conversations st_bob_gone)))%nat
  /\ (length (get_user_conversations st_bob_gone 1)
      <= length (filter (participant 1) (conversations st_bob_gone)))%nat.
Proof.
  intros c.
  assert (Hnd : NoDup (map Conversation.id (conversations st_bob_gone))).
  { constructor; [intros [] | constructor]. }
  assert (Hin : In c (conversations st_bob_gone)) by (now left).
  assert (Hp : participant 1 c = true) by reflexivity.
  split; [exact Hnd|]. split; [exact Hin|]. split; [exact Hp|]. split; [reflexivity|].
  exact (get_user_conversations_lists st_bob_gone 1 c Hnd Hin Hp).
Defined.

(** ** Reading a conversation *)

Lemma insert_desc_perm {A : Type} (key : A -> Z) (x : A) (l : list A) :
  Permutation (insert_desc key x l) (x :: l).
Proof.
  induction l as [|y l IH]; simpl; [apply Permutation_refl|].
  destruct (key x <? key y); [|apply Permutation_refl].
  eapply perm_trans; [apply perm_skip, IH | apply perm_swap].
Qed.

Lemma order_by_desc_perm {A : Type} (key : A -> Z) (l : list A) :
  Permutation (order_by_desc key l) l.
Proof.
  induction l as [|x l IH]; simpl; [apply perm_nil|].
  eapply perm_trans; [apply insert_desc_perm | now apply perm_skip].
Qed.

Lemma insert_desc_sorted {A : Type} (key : A -> Z) (x : A) (l : list A) :
  StronglySorted (fun a b => key b <= key a) l ->
  StronglySorted (fun a b => key b <= key a) (insert_desc key x l).
Proof.
  induction l as [|y l IH]; simpl; intros Hs.
  - constructor; [constructor | constructor].
  - inversion Hs as [|? ? Hs' Hall]; subst.
    destruct (key x <? key y) eqn:E.
    + apply Z.ltb_lt in E. constructor; [now apply IH|].
      apply Forall_forall. intros z Hz.
      apply (Permutation_in _ (insert_desc_perm key x l)) in Hz.
      destruct Hz as [<- | Hz]; [lia|].
      now apply (proj1 (Forall_forall _ _) Hall).
    + apply Z.ltb_ge in E. constructor; [assumption|].
      constructor; [assumption|].
      apply Forall_forall. intros z Hz.
      pose proof (proj1 (Forall_forall _ _) Hall z Hz). simpl in *. lia.
Qed.

Lemma order_by_desc_sorted {A : Type} (key : A -> Z) (l : list A) :
  StronglySorted (fun a b => key b <= key a) (order_by_desc key l).
Proof.
  induction l as [|x l IH]; simpl; [constructor | now apply insert_desc_sorted].
Qed.

Lemma StronglySorted_app_inv {A : Type} (R : A -> A -> Prop) (l1 l2 : list A) :
  StronglySorted R (l1 ++ l2) ->
  StronglySorted R l1 /\ StronglySorted R l2
  /\ (forall a b, In a l1 -> In b l2 -> R a b).
Proof.
  induction l1 as [|x l1 IH]; simpl; intros Hs.
  - repeat split; [constructor | assumption | contradiction].
  - inversion Hs as [|? ? Hs' Hall]; subst.
    destruct (IH Hs') as [H1 [H2 H12]].
    rewrite Forall_forall in Hall.
    repeat split.
    + constructor; [assumption|]. apply Forall_forall. intros z Hz.
      apply Hall, in_or_app. now left.
    + assumption.
    + intros a b [<- | Ha] Hb; [apply Hall, in_or_app; now right | now apply H12].
Qed.

Lemma StronglySorted_app_intro {A : Type} (R : A -> A -> Prop) (l1 l2 : list A) :
  StronglySorted R l1 -> StronglySorted R l2 ->
  (forall a b, In a l1 -> In b l2 -> R a b) ->
  StronglySorted R (l1 ++ l2).
Proof.
  induction l1 as [|x l1 IH]; simpl; intros H1 H2 H12; [assumption|].
  inversion H1 as [|? ? H1' Hall]; subst. rewrite Forall_forall in Hall.
  constructor.
  - apply IH; auto.
  - apply Forall_forall. intros z Hz. apply in_app_or in Hz.
    destruct Hz as [Hz | Hz]; [now apply Hall | apply H12; auto].
Qed.

Lemma StronglySorted_rev {A : Type} (R : A -> A -> Prop) (l : list A) :
  StronglySorted R l -> StronglySorted (fun a b => R b a) (rev l).
Proof.
  induction l as [|x l IH]; simpl; intros Hs; [constructor|].
  inversion Hs as [|? ? Hs' Hall]; subst. rewrite Forall_forall in Hall.
  apply StronglySorted_app_intro.
  - now apply IH.
  - constructor; [constructor | constructor].
  - intros a b Ha [<- | []]. apply Hall. now apply in_rev.
Qed.

Lemma join_sender_row (st : Store) (messages : list DirectMessage.t)
    (row : DirectMessage.t * User.t) :
  In row (join_sender st messages) ->
  In (fst row) messages /\ In (snd row) (users st)
  /\ User.id (snd row) = DirectMessage.sender_id (fst row).
Proof.
  unfold join_sender. intros H. apply in_flat_map in H. destruct H as [m [Hm Hrow]].
  apply in_map_iff in Hrow. destruct Hrow as [u [<- Hu]].
  apply filter_In in Hu. destruct Hu as [Hu Hk]. apply Z.eqb_eq in Hk. simpl. auto.
Qed.

(** Under the key constraints the join keeps every message, once. *)
Lemma join_sender_fst (st : Store) (p : DirectMessage.t -> bool)
    (messages : list DirectMessage.t) :
  NoDup (map User.id (users st)) ->
  (forall m, In m messages -> In (DirectMessage.sender_id m) (map User.id (users st))) ->
  map fst (filter (fun row => p (fst row)) (join_sender st messages)) = filter p messages.
Proof.
  intros Hnd. induction messages as [|m t IH]; intros Hfk; [reflexivity|].
  cbn [join_sender flat_map]. rewrite filter_app, map_app.
  fold (join_sender st t). rewrite IH by (intros; apply Hfk; now right).
  destruct (proj1 (in_map_iff _ _ _) (Hfk m (or_introl eq_refl))) as [u [Hk Hu]].
  rewrite (filter_unique User.id _ (users st) u Hnd Hu).
  - simpl. now destruct (p m).
  - now apply Z.eqb_eq.
  - intros x _ Hx. apply Z.eqb_eq in Hx. congruence.
Qed.

(** C7: for a participant, with the key constraints of the schema on the
    message senders and a limit that is not negative,
    [get_conversation_messages] answers with the responses of the [limit]
    most recent messages of the conversation (all of them when there are
    fewer), oldest first, whatever the order of the rows in the table: the
    messages of the conversation split into the ones answered and the ones
    left out, none of the latter is more recent than any of the former, and
    every response carries the display name of the sender's user record.
    For a user who is no participant, or a conversation that does not exist,
    the answer is the empty list. *)
Theorem get_conversation_messages_recent (st : Store) (conversation_id user_id lim : Z) :
  (forall conversation,
     session_get Conversation.id (conversations st) conversation_id = Some conversation ->
     is_member user_id conversation = true ->
     NoDup (map User.id (users st)) ->
     senders_exist st ->
     0 <= lim ->
     exists taken dropped : list (DirectMessage.t * User.t),
       get_conversation_messages st conversation_id user_id lim = map message_response taken
       /\ Permutation (filter (in_conversation conversation_id) (direct_messages st))
                      (map fst (taken ++ dropped))
       /\ (forall row, In row taken ->
             session_get User.id (users st) (DirectMessage.sender_id (fst row))
             = Some (snd row))
       /\ length taken
          = Nat.min (Z.to_nat lim)
              (length (filter (in_conversation conversation_id) (direct_messages st)))
       /\ oldest_first taken
       /\ (forall a b, In a taken -> In b dropped -> row_created_at b <= row_created_at a))
  /\ (forall conversation,
        session_get Conversation.id (conversations st) conversation_id = Some conversation ->
        is_member user_id conversation = false ->
        get_conversation_messages st conversation_id user_id lim = [])
  /\ (session_get Conversation.id (conversations st) conversation_id = None ->
      get_conversation_messages st conversation_id user_id lim = []).
Proof.
  split; [|split].
  - intros conversation Hget Hmem Hnd Hfk _.
    unfold get_conversation_messages. rewrite Hget, Hmem. simpl.
    set (rows := conversation_rows st conversation_id).
    set (sorted := order_by_desc row_created_at rows).
    unfold limit. set (n := Z.to_nat lim).
    assert (Hrows : map fst rows = filter (in_conversation conversation_id) (direct_messages st))
      by (apply (join_sender_fst st (in_conversation conversation_id)); assumption).
    assert (Hperm : Permutation sorted rows) by apply order_by_desc_perm.
    assert (Hsorted : StronglySorted (fun a b => row_created_at b <= row_created_at a)
                        (firstn n sorted ++ skipn n sorted))
      by (rewrite firstn_skipn; apply order_by_desc_sorted).
    apply StronglySorted_app_inv in Hsorted. destruct Hsorted as [Htaken [_ Hcut]].
    exists (rev (firstn n sorted)), (skipn n sorted).
    split; [now rewrite map_rev|].
    split; [|split; [|split; [|split]]].
    + rewrite <- Hrows. apply Permutation_map.
      eapply perm_trans; [apply Permutation_sym, Hperm|].
      rewrite <- (firstn_skipn n sorted) at 1.
      apply Permutation_app_tail, Permutation_rev.
    + intros row Hrow. apply in_rev in Hrow.
      assert (Hin : In row sorted)
        by (rewrite <- (firstn_skipn n sorted); apply in_or_app; now left).
      apply (Permutation_in _ Hperm) in Hin. clear Hrow. rename Hin into Hrow.
      unfold rows, conversation_rows in Hrow. apply filter_In in Hrow.
      destruct Hrow as [Hrow _]. apply join_sender_row in Hrow.
      destruct Hrow as [_ [Hu Hk]]. rewrite <- Hk. now apply session_get_In.
    + rewrite length_rev, length_firstn, (Permutation_length Hperm).
      now rewrite <- Hrows, length_map.
    + apply (StronglySorted_rev _ _ Htaken).
    + intros a b Ha Hb. apply Hcut; [now apply in_rev | assumption].
  - intros conversation Hget Hmem. unfold get_conversation_messages. now rewrite Hget, Hmem.
  - intros Hget. unfold get_conversation_messages. now rewrite Hget.
Qed.

Lemma get_conversation_messages_recent_witness :
  let conversation := Conversation.mk 1 1 2 ACTIVE 10 (Some 13) in
  session_get Conversation.id (conversations st_shuffled) 1 = Some conversation
  /\ is_member 1 conversation = true
  /\ NoDup (map User.id (users st_shuffled))
  /\ senders_exist st_shuffled
  /\ 0 <= 2
  /\ get_conversation_messages st_shuffled 1 1 2
     = [ DirectMessageResponse.mk 2 "Alice Smith" "Hi Bob!" 12 false;
         DirectMessageResponse.mk 3 "Bob Johnson" "Would love to discuss more!" 13 false ]
  /\ get_conversation_messages st_chat 1 1 2 = get_conversation_messages st_shuffled 1 1 2
  /\ exists taken dropped : list (DirectMessage.t * User.t),
       get_conversation_messages st_shuffled 1 1 2 = map message_response taken
       /\ Permutation (filter (in_conversation 1) (direct_messages st_shuffled))
                      (map fst (taken ++ dropped))
       /\ (forall row, In row taken ->
             session_get User.id (users st_shuffled) (DirectMessage.sender_id (fst row))
             = Some (snd row))
       /\ length taken
          = Nat.min (Z.to_nat 2)
              (length (filter (in_conversation 1) (direct_messages st_shuffled)))
       /\ oldest_first taken
       /\ (forall a b, In a taken -> In b dropped -> row_created_at b <= row_created_at a).
Proof.
  intros conversation.
  assert (Hget : session_get Conversation.id (conversations st_shuffled) 1 = Some conversation)
    by reflexivity.
  assert (Hmem : is_member 1 conversation = true) by reflexivity.
  assert (Hnd : NoDup (map User.id (users st_shuffled))).
  { constructor; [|constructor; [intros [] | constructor]].
    intros [H | []]. discriminate H. }
  assert (Hfk : senders_exist st_shuffled).
  { intros m [<- | [<- | [<- | []]]]; simpl; auto. }
  assert (Hlim : 0 <= 2) by lia.
  split; [exact Hget|]. split; [exact Hmem|]. split; [exact Hnd|].
  split; [exact Hfk|]. split; [exact Hlim|].
  split; [reflexivity|]. split; [reflexivity|].
  exact (proj1 (get_conversation_messages_recent st_shuffled 1 1 2)
           conversation Hget Hmem Hnd Hfk Hlim).
Defined.

(** ** The conversation of an accepted request *)

Lemma NoDup_snoc {A : Type} (l : list A) (x : A) :
  NoDup l -> ~ In x l -> NoDup (l ++ [x]).
Proof.
  intros Hnd Hx. apply (Permutation_NoDup (Permutation_cons_append l x)).
  now constructor.
Qed.

Lemma ordered_pair (a b : Z) :
  (if a >? b then (b, a) else (a, b)) = (Z.min a b, Z.max a b).
Proof.
  rewrite Z.gtb_ltb. destruct (b <? a) eqn:E.
  - apply Z.ltb_lt in E. now rewrite Z.min_r, Z.max_l by lia.
  - apply Z.ltb_ge in E. now rewrite Z.min_l, Z.max_r by lia.
Qed.

Lemma conversation_of_true (a b : Z) (c : Conversation.t) :
  conversation_of a b c = true <-> pair_of c = (a, b).
Proof.
  unfold conversation_of, pair_of. rewrite andb_true_iff, !Z.eqb_eq.
  split; [intros [-> ->]; reflexivity | intros H; injection H; auto].
Qed.

Lemma between_canonical (a b : Z) (c : Conversation.t) :
  canonical c -> between a b c = conversation_of (Z.min a b) (Z.max a b) c.
Proof.
  unfold canonical, between, conversation_of. intros Hc.
  apply eq_true_iff_eq.
  rewrite orb_true_iff, !andb_true_iff, !Z.eqb_eq. lia.
Qed.

Lemma filter_between (a b : Z) (table : list Conversation.t) :
  Forall canonical table ->
  filter (between a b) table = filter (conversation_of (Z.min a b) (Z.max a b)) table.
Proof.
  intros Hc. apply filter_ext_in. intros c Hin.
  apply between_canonical. now apply (proj1 (Forall_forall _ _) Hc).
Qed.

Lemma existsb_filter {A : Type} (p : A -> bool) (l : list A) :
  existsb p l = match filter p l with [] => false | _ :: _ => true end.
Proof.
  induction l as [|x t IH]; simpl; [reflexivity|].
  destruct (p x); simpl; [reflexivity | exact IH].
Qed.

(** [_create_conversation] looks the pair up in its stored order, reuses the
    row when there is one and appends one otherwise; either way the table
    stays well formed and holds exactly one row between the two users. *)
Lemma create_conversation_ok (st : Store) (a b now : Z) :
  conversations_ok (conversations st) ->
  exists c,
    _create_conversation st a b now
    = (set_conversations st
         (if existsb (between a b) (conversations st)
          then conversations st else conversations st ++ [c]), c)
    /\ Conversation.user1_id c = Z.min a b
    /\ Conversation.user2_id c = Z.max a b
    /\ filter (between a b)
         (if existsb (between a b) (conversations st)
          then conversations st else conversations st ++ [c]) = [c]
    /\ conversations_ok
         (if existsb (between a b) (conversations st)
          then conversations st else conversations st ++ [c]).
Proof.
  intros [Hpk [Hcan Hpair]]. unfold _create_conversation. rewrite ordered_pair.
  assert (Hex : existsb (between a b) (conversations st)
                = match filter (conversation_of (Z.min a b) (Z.max a b)) (conversations st) with
                  | [] => false
                  | _ :: _ => true
                  end).
  { rewrite <- (filter_between a b _ Hcan). apply existsb_filter. }
  destruct (first (filter (conversation_of (Z.min a b) (Z.max a b)) (conversations st)))
    as [existing|] eqn:E.
  - destruct (first_filter_Some _ _ _ E) as [Hin Hp].
    assert (Hone : filter (conversation_of (Z.min a b) (Z.max a b)) (conversations st)
                   = [existing]).
    { apply (filter_unique pair_of); auto.
      intros x _ Hx. apply conversation_of_true in Hx, Hp. congruence. }
    rewrite Hex, Hone. exists existing.
    apply conversation_of_true in Hp. injection Hp as H1 H2.
    split; [|split; [|split; [|split]]]; auto.
    + unfold set_conversations. now rewrite store_eta.
    + now rewrite (filter_between a b _ Hcan).
    + repeat split; assumption.
  - apply first_filter_None in E. rewrite Hex, E.
    eexists. split; [reflexivity|]. simpl.
    split; [reflexivity|]. split; [reflexivity|]. split.
    + rewrite filter_app, (filter_between a b _ Hcan), E. cbn [app filter].
      rewrite between_canonical by (unfold canonical; simpl; lia).
      unfold conversation_of. simpl. now rewrite !Z.eqb_refl.
    + split; [|split].
      * rewrite map_app. apply NoDup_snoc; [assumption|]. simpl. apply next_id_fresh.
      * apply Forall_app. split; [assumption|].
        constructor; [|constructor]. unfold canonical. simpl. lia.
      * rewrite map_app. apply NoDup_snoc; [assumption|].
        unfold pair_of at 1. simpl. intros H. apply in_map_iff in H.
        destruct H as [x [Hx Hin]]. apply conversation_of_true in Hx.
        assert (Hf : In x (filter (conversation_of (Z.min a b) (Z.max a b)) (conversations st)))
          by (apply filter_In; now split).
        now rewrite E in Hf.
Qed.

Lemma other_user_of_pair (a b : Z) (c : Conversation.t) :
  Conversation.user1_id c = Z.min a b ->
  Conversation.user2_id c = Z.max a b ->
  other_user_id a c = b /\ other_user_id b c = a
  /\ participant a c = true /\ participant b c = true.
Proof.
  intros H1 H2. unfold other_user_id, participant. rewrite H1, H2.
  repeat split.
  - destruct (Z.min a b =? a) eqn:E; [apply Z.eqb_eq in E | apply Z.eqb_neq in E]; lia.
  - destruct (Z.min a b =? b) eqn:E; [apply Z.eqb_eq in E | apply Z.eqb_neq in E]; lia.
  - apply orb_true_iff. rewrite !Z.eqb_eq. lia.
  - apply orb_true_iff. rewrite !Z.eqb_eq. lia.
Qed.

Lemma listed_once (st : Store) (user_id : Z) (c : Conversation.t) (other : User.t) :
  NoDup (map Conversation.id (conversations st)) ->
  In c (conversations st) ->
  participant user_id c = true ->
  session_get User.id (users st) (other_user_id user_id c) = Some other ->
  count_occ Z.eq_dec (map ConversationResponse.id (get_user_conversations st user_id))
            (Conversation.id c) = 1%nat
  /\ exists r, In r (get_user_conversations st user_id)
               /\ ConversationResponse.id r = Conversation.id c
               /\ ConversationResponse.other_user_display_name r = User.display_name other.
Proof.
  intros Hnd Hin Hp Hother. unfold get_user_conversations.
  assert (Hin' : In c (filter (participant user_id) (conversations st)))
    by (apply filter_In; now split).
  split.
  - rewrite (summary_count st user_id _ c); [now rewrite Hother | | assumption].
    now apply NoDup_filter_map.
  - eexists. split; [|split].
    + apply in_flat_map. exists c. split; [exact Hin'|].
      unfold conversation_summary. rewrite Hother. now left.
    + reflexivity.
    + reflexivity.
Qed.

(** C2: when the recipient accepts a request, the conversation table being
    well formed, the table then holds exactly one conversation between sender
    and recipient, stored with the lower user id first; when a conversation
    between the two was there already the table is left as it was, the row
    being reused, and otherwise the one new row is appended.  The
    conversation list of the sender shows that conversation, by its id,
    exactly once and under the recipient's display name, given the
    recipient's user record; likewise the list of the recipient, given the
    sender's user record: both lists show the same id. *)
Theorem accept_opens_one_conversation (st : Store) (request_id recipient_id now : Z)
    (request : ContactRequest.t) :
  conversations_ok (conversations st) ->
  session_get ContactRequest.id (contact_requests st) request_id = Some request ->
  ContactRequest.recipient_id request = recipient_id ->
  let sender_id := ContactRequest.sender_id request in
  let st' := fst (respond_to_contact_request st request_id recipient_id true now) in
  exists c,
    filter (between sender_id recipient_id) (conversations st') = [c]
    /\ Conversation.user1_id c = Z.min sender_id recipient_id
    /\ Conversation.user2_id c = Z.max sender_id recipient_id
    /\ conversations st'
       = (if existsb (between sender_id recipient_id) (conversations st)
          then conversations st else conversations st ++ [c])
    /\ conversations_ok (conversations st')
    /\ (forall recipient,
          session_get User.id (users st) recipient_id = Some recipient ->
          count_occ Z.eq_dec (map ConversationResponse.id (get_user_conversations st' sender_id))
                    (Conversation.id c) = 1%nat
          /\ exists r, In r (get_user_conversations st' sender_id)
                       /\ ConversationResponse.id r = Conversation.id c
                       /\ ConversationResponse.other_user_display_name r
                          = User.display_name recipient)
    /\ (forall sender,
          session_get User.id (users st) sender_id = Some sender ->
          count_occ Z.eq_dec (map ConversationResponse.id (get_user_conversations st' recipient_id))
                    (Conversation.id c) = 1%nat
          /\ exists r, In r (get_user_conversations st' recipient_id)
                       /\ ConversationResponse.id r = Conversation.id c
                       /\ ConversationResponse.other_user_display_name r
                          = User.display_name sender).
Proof.
  intros Hok Hget Hrcp sender_id st'.
  subst st'. unfold respond_to_contact_request. rewrite Hget, Hrcp, Z.eqb_refl. simpl.
  match goal with
  | |- context [_create_conversation ?s _ _ _] => set (st1 := s)
  end.
  fold sender_id.
  destruct (create_conversation_ok st1 sender_id recipient_id now Hok)
    as [c [Hcreate [H1 [H2 [Hone Hok']]]]].
  rewrite Hcreate. simpl.
  exists c.
  assert (Hin : In c (if existsb (between sender_id recipient_id) (conversations st)
                      then conversations st else conversations st ++ [c])).
  { assert (H : In c [c]) by (now left). rewrite <- Hone in H.
    apply filter_In in H. tauto. }
  destruct (other_user_of_pair sender_id recipient_id c H1 H2) as [Ho1 [Ho2 [Hp1 Hp2]]].
  split; [exact Hone|]. split; [exact H1|]. split; [exact H2|].
  split; [reflexivity|]. split; [exact Hok'|]. split.
  - intros recipient Hrecipient.
    apply listed_once; simpl; try assumption; [apply Hok' | now rewrite Ho1].
  - intros sender Hsender.
    apply listed_once; simpl; try assumption; [apply Hok' | now rewrite Ho2].
Qed.

Lemma accept_opens_one_conversation_witness :
  let request := ContactRequest.mk 1 2 1 1 "Hello!" PENDING 6 None in
  conversations_ok (conversations st_requested)
  /\ session_get ContactRequest.id (contact_requests st_requested) 1 = Some request
  /\ ContactRequest.recipient_id request = 1
  /\ session_get User.id (users st_requested) 1 = Some alice
  /\ session_get User.id (users st_requested) 2 = Some bob
  /\ conversations st_accepted = [Conversation.mk 1 1 2 ACTIVE 10 None]
  /\ get_user_conversations st_accepted 1 = [ConversationResponse.mk 1 "Bob Johnson" None 0]
  /\ get_user_conversations st_accepted 2 = [ConversationResponse.mk 1 "Alice Smith" None 0]
  /\ exists c,
       filter (between 2 1) (conversations st_accepted) = [c]
       /\ Conversation.user1_id c = Z.min 2 1
       /\ Conversation.user2_id c = Z.max 2 1
       /\ conversations st_accepted
          = (if existsb (between 2 1) (conversations st_requested)
             then conversations st_requested else conversations st_requested ++ [c])
       /\ conversations_ok (conversations st_accepted)
       /\ (forall recipient,
             session_get User.id (users st_requested) 1 = Some recipient ->
             count_occ Z.eq_dec (map ConversationResponse.id (get_user_conversations st_accepted 2))
                       (Conversation.id c) = 1%nat
             /\ exists r, In r (get_user_conversations st_accepted 2)
                          /\ ConversationResponse.id r = Conversation.id c
                          /\ ConversationResponse.other_user_display_name r
                             = User.display_name recipient)
       /\ (forall sender,
             session_get User.id (users st_requested) 2 = Some sender ->
             count_occ Z.eq_dec (map ConversationResponse.id (get_user_conversations st_accepted 1))
                       (Conversation.id c) = 1%nat
             /\ exists r, In r (get_user_conversations st_accepted 1)
                          /\ ConversationResponse.id r = Conversation.id c
                          /\ ConversationResponse.other_user_display_name r
                             = User.display_name sender).
Proof.
  intros request.
  assert (Hok : conversations_ok (conversations st_requested)).
  { repeat split; constructor. }
  assert (Hget : session_get ContactRequest.id (contact_requests st_requested) 1 = Some request)
    by reflexivity.
  assert (Hrcp : ContactRequest.recipient_id request = 1) by reflexivity.
  split; [exact Hok|]. split; [exact Hget|]. split; [exact Hrcp|].
  split; [reflexivity|]. split; [reflexivity|].
  split; [reflexivity|]. split; [reflexivity|]. split; [reflexivity|].
  exact (accept_opens_one_conversation st_requested 1 1 10 request Hok Hget Hrcp).
Defined.

(** The second accepted request finds the conversation of the first one:
    both requests are accepted and the table still holds the one row. *)
Example second_accept_reuses_conversation :
  map ContactRequest.status (contact_requests st_second_accepted) = [ACCEPTED; ACCEPTED]
  /\ map (fun r => (ContactRequest.sender_id r, ContactRequest.recipient_id r))
         (contact_requests st_second_accepted) = [(2, 1); (1, 2)]
  /\ conversations st_second_accepted = conversations st_accepted
  /\ conversations st_accepted = [Conversation.mk 1 1 2 ACTIVE 10 None].
Proof. repeat split. Qed.

(** Alice can neither like her own entry nor ask herself for contact. *)
Example no_contact_with_oneself :
  toggle_like st_fresh 1 1 5 = (st_fresh, false)
  /\ send_contact_request st_fresh 1 (ContactRequestCreate.mk 1 1 "Me again") 6
     = (st_fresh, None).
Proof. split; reflexivity. Qed.

(** ** Invariants of the runs of the engine *)

Lemma session_update_key {A : Type} (key : A -> Z) (row : A) (table : list A) :
  map key (session_update key row table) = map key table.
Proof.
  unfold session_update. rewrite map_map. apply map_ext.
  intros r. destruct (key r =? key row) eqn:E; [|reflexivity].
  apply Z.eqb_eq in E. now symmetry.
Qed.

Lemma session_get_update {A : Type} (key : A -> Z) (row : A) (table : list A) (k : Z) :
  session_get key (session_update key row table) k
  = match session_get key table k with
    | Some r => Some (if key r =? key row then row else r)
    | None => None
    end.
Proof.
  unfold session_get, session_update.
  induction table as [|x t IH]; simpl; [reflexivity|].
  assert (Hk : key (if key x =? key row then row else x) = key x).
  { destruct (key x =? key row) eqn:E; [|reflexivity]. apply Z.eqb_eq in E. now symmetry. }
  rewrite Hk. destruct (key x =? k); [reflexivity | exact IH].
Qed.

Lemma session_update_In {A : Type} (key : A -> Z) (row r : A) (table : list A) :
  In r (session_update key row table) -> r = row \/ In r table.
Proof.
  unfold session_update. intros H. apply in_map_iff in H.
  destruct H as [x [Hx Hin]]. destruct (key x =? key row); subst; auto.
Qed.

Lemma fold_session_update_key {A B : Type} (key : A -> Z) (f : B -> A) (ms : list B)
    (table : list A) :
  map key (fold_left (fun tb m => session_update key (f m) tb) ms table) = map key table.
Proof.
  revert table. induction ms as [|m ms IH]; intros table; simpl; [reflexivity|].
  now rewrite IH, session_update_key.
Qed.

Lemma create_entry_inv (st : Store) (user_id image_id : Z) (entry_data : DailyEntryCreate.t)
    (entry_date now : Z) :
  engine_inv st -> engine_inv (fst (create_entry st user_id image_id entry_data entry_date now)).
Proof.
  intros Hinv. unfold create_entry. destruct (first _); [exact Hinv|].
  destruct Hinv as [Hc [Hm [Hl Hr]]]. repeat split; try assumption; try apply Hc.
  intros l Hin. destruct (Hl l Hin) as [entry [Hget Ha]].
  exists entry. split; [|assumption]. simpl. now apply session_get_app.
Qed.

Lemma update_entry_inv (st : Store) (entry_id user_id : Z) (update_data : DailyEntryUpdate.t)
    (now : Z) :
  engine_inv st -> engine_inv (fst (update_entry st entry_id user_id update_data now)).
Proof.
  intros Hinv. unfold update_entry.
  destruct (session_get DailyEntry.id (daily_entries st) entry_id) as [entry|] eqn:Hget;
    [|exact Hinv].
  destruct (negb (DailyEntry.author_id entry =? user_id)); [exact Hinv|].
  destruct Hinv as [Hc [Hm [Hl Hr]]]. repeat split; try assumption; try apply Hc.
  intros l Hin. destruct (Hl l Hin) as [e [Hgete Ha]].
  simpl. rewrite session_get_update, Hgete. simpl.
  destruct (DailyEntry.id e =? DailyEntry.id entry) eqn:E.
  - eexists. split; [reflexivity|]. simpl.
    apply Z.eqb_eq in E.
    destruct (session_get_Some _ _ _ _ Hgete) as [_ Hk1].
    destruct (session_get_Some _ _ _ _ Hget) as [_ Hk2].
    assert (Hsame : Some e = Some entry) by (rewrite <- Hgete, <- Hget; f_equal; congruence).
    injection Hsame as <-. exact Ha.
  - now exists e.
Qed.

Lemma toggle_like_inv (st : Store) (user_id entry_id now : Z) :
  engine_inv st -> engine_inv (fst (toggle_like st user_id entry_id now)).
Proof.
  intros Hinv. unfold toggle_like.
  destruct (session_get DailyEntry.id (daily_entries st) entry_id) as [entry|] eqn:Hget;
    [|exact Hinv].
  destruct (negb (DailyEntry.is_shared entry) || (DailyEntry.author_id entry =? user_id))
    eqn:Hguard; [exact Hinv|].
  apply orb_false_iff in Hguard. destruct Hguard as [_ Ha]. apply Z.eqb_neq in Ha.
  destruct Hinv as [Hc [Hm [Hl Hr]]].
  destruct (first _) as [existing|]; repeat split; try assumption; try apply Hc.
  - intros l Hin. simpl in Hin. apply filter_In in Hin. now apply Hl.
  - intros l Hin. simpl in Hin. apply in_app_or in Hin.
    destruct Hin as [Hin | [<- | []]]; [now apply Hl|].
    exists entry. simpl. now split.
Qed.

Lemma send_contact_request_inv (st : Store) (sender_id : Z)
    (request_data : ContactRequestCreate.t) (now : Z) :
  engine_inv st -> engine_inv (fst (send_contact_request st sender_id request_data now)).
Proof.
  intros Hinv. unfold send_contact_request.
  destruct (session_get DailyEntry.id (daily_entries st) _) as [entry|] eqn:Hget;
    [|exact Hinv].
  destruct (negb (DailyEntry.is_shared entry) || _) eqn:Hguard; [exact Hinv|].
  destruct (user_has_liked_entry st sender_id _) eqn:Hliked; [|exact Hinv]. simpl.
  destruct (first (filter (request_of _ _ _) _)); [exact Hinv|].
  apply orb_false_iff in Hguard. destruct Hguard as [_ Ha].
  apply negb_false_iff, Z.eqb_eq in Ha.
  destruct Hinv as [Hc [Hm [Hl Hr]]]. repeat split; try assumption; try apply Hc.
  intros r Hin. simpl in Hin. apply in_app_or in Hin.
  destruct Hin as [Hin | [<- | []]]; [now apply Hr|]. simpl.
  unfold user_has_liked_entry in Hliked.
  destruct (first (filter (like_of _ _) _)) as [l|] eqn:E; [|discriminate].
  apply first_filter_Some in E. destruct E as [Hin Hlike].
  unfold like_of in Hlike. apply andb_true_iff in Hlike.
  destruct Hlike as [Hu He]. apply Z.eqb_eq in Hu, He.
  destruct (Hl l Hin) as [e [Hgete Hne]].
  rewrite He, Hget in Hgete. injection Hgete as <-. congruence.
Qed.

Lemma respond_to_contact_request_inv (st : Store) (request_id recipient_id : Z)
    (accept : bool) (now : Z) :
  engine_inv st ->
  engine_inv (fst (respond_to_contact_request st request_id recipient_id accept now)).
Proof.
  intros Hinv. unfold respond_to_contact_request.
  destruct (session_get ContactRequest.id (contact_requests st) request_id)
    as [request|] eqn:Hget; [|exact Hinv].
  destruct (negb (ContactRequest.recipient_id request =? recipient_id)); [exact Hinv|].
  destruct Hinv as [Hc [Hm [Hl Hr]]]. simpl.
  match goal with
  | |- context [_create_conversation ?s _ _ _] => set (st1 := s)
  end.
  assert (Hinv1 : engine_inv st1).
  { repeat split; try assumption; try apply Hc.
    intros r Hin. simpl in Hin. apply session_update_In in Hin.
    destruct Hin as [-> | Hin]; [simpl | now apply Hr].
    apply Hr. now apply (session_get_Some _ _ _ _ Hget). }
  destruct accept; [|exact Hinv1].
  destruct Hinv1 as [Hc1 [Hm1 [Hl1 Hr1]]].
  destruct (create_conversation_ok st1 (ContactRequest.sender_id request) recipient_id now Hc1)
    as [c [Hcreate [_ [_ [_ Hok]]]]].
  rewrite Hcreate. simpl. repeat split; try assumption; apply Hok.
Qed.

Lemma send_message_inv (st : Store) (sender_id : Z) (message_data : DirectMessageCreate.t)
    (now : Z) :
  engine_inv st -> engine_inv (fst (send_message st sender_id message_data now)).
Proof.
  intros Hinv. unfold send_message.
  destruct (session_get Conversation.id (conversations st) _) as [conversation|] eqn:Hget;
    [|exact Hinv].
  destruct (negb (is_member sender_id conversation)); [exact Hinv|].
  destruct Hinv as [[Hpk [Hcan Hpair]] [Hm [Hl Hr]]]. simpl.
  destruct (session_get_Some _ _ _ _ Hget) as [Hin _].
  split; [|split; [|split]]; try assumption.
  - split; [|split].
    + simpl. now rewrite session_update_key.
    + simpl. apply Forall_forall. intros c Hc. apply session_update_In in Hc.
      rewrite Forall_forall in Hcan.
      destruct Hc as [-> | Hc]; [|now apply Hcan].
      unfold canonical. simpl. now apply Hcan.
    + simpl. unfold session_update. rewrite map_map.
      erewrite map_ext_in; [exact Hpair|].
      intros c Hc. simpl. destruct (Conversation.id c =? Conversation.id conversation) eqn:E;
        [|reflexivity].
      apply Z.eqb_eq in E. now rewrite (NoDup_key_eq Conversation.id _ c conversation Hpk Hc Hin E).
  - simpl. rewrite map_app. apply NoDup_snoc; [assumption | apply next_id_fresh].
Qed.

Lemma mark_messages_as_read_inv (st : Store) (conversation_id user_id : Z) :
  engine_inv st -> engine_inv (fst (mark_messages_as_read st conversation_id user_id)).
Proof.
  intros Hinv. unfold mark_messages_as_read.
  destruct (session_get Conversation.id (conversations st) conversation_id)
    as [conversation|]; [|exact Hinv].
  destruct (negb (is_member user_id conversation)); [exact Hinv|].
  destruct Hinv as [Hc [Hm [Hl Hr]]]. simpl.
  split; [|split; [|split]]; try assumption.
  simpl. now rewrite (fold_session_update_key DirectMessage.id read).
Qed.

Lemma step_inv (st st' : Store) : step st st' -> engine_inv st -> engine_inv st'.
Proof.
  intros Hstep Hinv. destruct Hstep.
  - now apply create_entry_inv.
  - now apply update_entry_inv.
  - now apply toggle_like_inv.
  - now apply send_contact_request_inv.
  - now apply respond_to_contact_request_inv.
  - now apply send_message_inv.
  - now apply mark_messages_as_read_inv.
Qed.

(** Every reachable store is well formed: primary keys of conversations and
    messages are distinct, each pair of users has at most one conversation,
    stored lower id first, and nobody likes an own entry. *)
Lemma reachable_inv (st : Store) : reachable st -> engine_inv st.
Proof.
  induction 1 as [st [Hl [Hr [Hc Hm]]] | st st' _ IH Hstep].
  - unfold engine_inv, conversations_ok, likes_of_others, no_self_request.
    rewrite Hl, Hr, Hc, Hm. simpl.
    repeat split; try constructor; intros ? [].
  - now apply (step_inv st st').
Qed.

(** C10: in every store that a run of the engine reaches from a store with
    empty engine tables, by [toggle_like], [send_contact_request] and the
    other writers of the two services, no contact request has its sender as
    its recipient. *)
Theorem no_request_to_oneself (st : Store) (r : ContactRequest.t) :
  reachable st ->
  In r (contact_requests st) ->
  ContactRequest.sender_id r <> ContactRequest.recipient_id r.
Proof.
  intros Hreach Hin. apply reachable_inv in Hreach.
  destruct Hreach as [_ [_ [_ Hr]]]. now apply Hr.
Qed.

Lemma no_request_to_oneself_witness :
  let r := ContactRequest.mk 1 2 1 1 "Hello!" PENDING 6 None in
  reachable st_requested
  /\ In r (contact_requests st_requested)
  /\ ContactRequest.sender_id r <> ContactRequest.recipient_id r.
Proof.
  intros r.
  assert (Hreach : reachable st_requested).
  { apply (reachable_step st_liked); [apply (reachable_step st_fresh)|].
    - apply reachable_initial. repeat split.
    - exact (step_toggle_like st_fresh 2 1 5).
    - exact (step_send_contact_request st_liked 2 (ContactRequestCreate.mk 1 1 "Hello!") 6). }
  assert (Hin : In r (contact_requests st_requested)) by (now left).
  split; [exact Hreach|]. split; [exact Hin|].
  exact (no_request_to_oneself st_requested r Hreach Hin).
Defined.

(** * Further properties of the services *)

(** ** Tables with unique keys *)

Lemma NoDup_map_eq {A K : Type} (key : A -> K) (table : list A) (a b : A) :
  NoDup (map key table) -> In a table -> In b table -> key a = key b -> a = b.
Proof.
  induction table as [|x t IH]; simpl; [contradiction|].
  intros Hnd Ha Hb Hk. inversion Hnd as [|? ? Hnot Hnd']; subst.
  destruct Ha as [-> | Ha], Hb as [-> | Hb]; auto.
  - exfalso. apply Hnot. rewrite Hk. now apply in_map.
  - exfalso. apply Hnot. rewrite <- Hk. now apply in_map.
Qed.

Lemma NoDup_map_filter {A K : Type} (key : A -> K) (p : A -> bool) (table : list A) :
  NoDup (map key table) -> NoDup (map key (filter p table)).
Proof.
  induction table as [|x t IH]; simpl; [auto|].
  intros Hnd. inversion Hnd as [|? ? Hnot Hnd']; subst.
  destruct (p x); simpl; [|auto].
  constructor; [|auto].
  intros H. apply Hnot. apply in_map_iff in H. destruct H as [y [Hy Hin]].
  apply filter_In in Hin. rewrite <- Hy. apply in_map. tauto.
Qed.

Lemma NoDup_map_snoc {A K : Type} (key : A -> K) (table : list A) (x : A) :
  NoDup (map key table) -> ~ In (key x) (map key table) ->
  NoDup (map key (table ++ [x])).
Proof. intros Hnd Hx. rewrite map_app. now apply NoDup_snoc. Qed.

Lemma filter_empty_not_in {A K : Type} (key : A -> K) (p : A -> bool) (table : list A) (k : K) :
  filter p table = [] ->
  (forall x, In x table -> key x = k -> p x = true) ->
  ~ In k (map key table).
Proof.
  intros Hempty Hp Hin. apply in_map_iff in Hin. destruct Hin as [x [Hk Hx]].
  assert (H : In x (filter p table)) by (apply filter_In; split; auto).
  now rewrite Hempty in H.
Qed.

(** Deleting a row by its key leaves the queries that do not select it. *)
Lemma session_delete_other {A : Type} (key : A -> Z) (p : A -> bool) (table : list A) (x : A) :
  NoDup (map key table) -> In x table -> p x = false ->
  filter p (session_delete key x table) = filter p table.
Proof.
  intros Hnd Hx Hp. unfold session_delete.
  induction table as [|y t IH]; simpl; [reflexivity|].
  assert (Hy : key y = key x -> y = x)
    by (intros E; apply (NoDup_key_eq key (y :: t)); auto; now left).
  inversion Hnd as [|? ? Hnot Hnd']; subst.
  assert (Htail : filter p (filter (fun r => negb (key r =? key x)) t) = filter p t).
  { destruct Hx as [-> | Hx]; [|now apply IH].
    f_equal. apply forallb_filter_id. apply forallb_forall. intros z Hz.
    apply negb_true_iff, Z.eqb_neq. intros E. apply Hnot. rewrite <- E. now apply in_map. }
  destruct (key y =? key x) eqn:E; simpl.
  - apply Z.eqb_eq in E. rewrite (Hy E), Hp. exact Htail.
  - now rewrite Htail.
Qed.

(** It takes exactly one row out of a query that selects it. *)
Lemma session_delete_selected {A : Type} (key : A -> Z) (p : A -> bool) (table : list A)
    (x : A) :
  NoDup (map key table) -> In x table -> p x = true ->
  length (filter p table) = S (length (filter p (session_delete key x table))).
Proof.
  intros Hnd Hx Hp. unfold session_delete.
  induction table as [|y t IH]; simpl; [contradiction|].
  inversion Hnd as [|? ? Hnot Hnd']; subst.
  destruct Hx as [-> | Hx].
  - rewrite Z.eqb_refl, Hp. simpl. do 2 f_equal.
    symmetry. f_equal. apply forallb_filter_id. apply forallb_forall. intros z Hz.
    apply negb_true_iff, Z.eqb_neq. intros E. apply Hnot. rewrite <- E. now apply in_map.
  - assert (E : (key y =? key x) = false).
    { apply Z.eqb_neq. intros E. apply Hnot. rewrite E. now apply in_map. }
    rewrite E. simpl. destruct (p y); simpl; [f_equal|]; now apply IH.
Qed.

(** ** Likes *)

Lemma like_of_pair (user_id entry_id : Z) (l : ReflectionLike.t) :
  like_of user_id entry_id l = true <-> like_pair l = (user_id, entry_id).
Proof.
  unfold like_of, like_pair. rewrite andb_true_iff, !Z.eqb_eq.
  split; [intros [-> ->]; reflexivity | intros H; injection H; auto].
Qed.

Lemma has_liked_iff (st : Store) (user_id entry_id : Z) :
  user_has_liked_entry st user_id entry_id = true <->
  In (user_id, entry_id) (map like_pair (reflection_likes st)).
Proof.
  unfold user_has_liked_entry, first. split.
  - destruct (filter _ _) as [|l t] eqn:E; [discriminate|]. intros _.
    assert (H : In l (filter (like_of user_id entry_id) (reflection_likes st)))
      by (rewrite E; now left).
    apply filter_In in H. destruct H as [Hin Hl]. apply like_of_pair in Hl.
    rewrite <- Hl. now apply in_map.
  - intros H. apply in_map_iff in H. destruct H as [l [Hl Hin]].
    apply like_of_pair in Hl.
    assert (H : In l (filter (like_of user_id entry_id) (reflection_likes st)))
      by (apply filter_In; now split).
    destruct (filter _ _); [contradiction | reflexivity].
Qed.

(** X1: [toggle_like] on a shared entry of somebody else, in a table where
    keys are distinct and nobody likes an entry twice, flips exactly the
    like of that user for that entry: the answer and the new value of
    [user_has_liked_entry] are the negation of the old value, the like count
    of the entry goes up or down by one, and the likes of every other user
    or entry, and the counts of the other entries, stay. *)
Theorem toggle_like_flips (st : Store) (user_id entry_id now : Z) (entry : DailyEntry.t) :
  session_get DailyEntry.id (daily_entries st) entry_id = Some entry ->
  DailyEntry.is_shared entry = true ->
  DailyEntry.author_id entry <> user_id ->
  likes_unique st ->
  let st' := fst (toggle_like st user_id entry_id now) in
  let liked := snd (toggle_like st user_id entry_id now) in
  liked = negb (user_has_liked_entry st user_id entry_id)
  /\ user_has_liked_entry st' user_id entry_id = liked
  /\ get_entry_likes_count st' entry_id
     = (if liked then S (get_entry_likes_count st entry_id)
        else pred (get_entry_likes_count st entry_id))
  /\ (forall u e, (u, e) <> (user_id, entry_id) ->
        user_has_liked_entry st' u e = user_has_liked_entry st u e)
  /\ (forall e, e <> entry_id -> get_entry_likes_count st' e = get_entry_likes_count st e)
  /\ likes_unique st'.
Proof.
  intros Hget Hshared Hauthor [Hids Hpairs]. apply Z.eqb_neq in Hauthor.
  unfold toggle_like. rewrite Hget, Hshared, Hauthor. simpl.
  unfold user_has_liked_entry at 1 3.
  destruct (first (filter (like_of user_id entry_id) (reflection_likes st)))
    as [existing|] eqn:E.
  - destruct (first_filter_Some _ _ _ E) as [Hin Hlike]. simpl.
    unfold user_has_liked_entry, get_entry_likes_count, likes_unique. simpl.
    assert (Hentry : (ReflectionLike.daily_entry_id existing =? entry_id) = true)
      by (unfold like_of in Hlike; apply andb_true_iff in Hlike; tauto).
    split; [reflexivity|]. split; [|split; [|split; [|split]]].
    + assert (Hnone : filter (like_of user_id entry_id)
                        (session_delete ReflectionLike.id existing (reflection_likes st)) = []).
      { destruct (filter (like_of user_id entry_id)
                    (session_delete ReflectionLike.id existing (reflection_likes st)))
          as [|x t] eqn:Ex; [reflexivity|]. exfalso.
        assert (Hx : In x (filter (like_of user_id entry_id)
                             (session_delete ReflectionLike.id existing (reflection_likes st))))
          by (rewrite Ex; now left).
        apply filter_In in Hx. destruct Hx as [Hx Hlx].
        apply filter_In in Hx. destruct Hx as [Hx Hne].
        apply like_of_pair in Hlx, Hlike.
        rewrite (NoDup_map_eq like_pair _ x existing Hpairs Hx Hin) in Hne by congruence.
        rewrite Z.eqb_refl in Hne. discriminate. }
      now rewrite Hnone.
    + now rewrite (session_delete_selected ReflectionLike.id _ _ existing Hids Hin Hentry).
    + intros u e Hne. rewrite session_delete_other; auto.
      destruct (like_of u e existing) eqn:El; [|reflexivity].
      apply like_of_pair in El, Hlike. congruence.
    + intros e Hne. rewrite session_delete_other; auto.
      apply Z.eqb_eq in Hentry. apply Z.eqb_neq. congruence.
    + split; apply NoDup_map_filter; assumption.
  - apply first_filter_None in E. simpl.
    unfold user_has_liked_entry, get_entry_likes_count, likes_unique. simpl.
    split; [reflexivity|]. split; [|split; [|split; [|split]]].
    + rewrite filter_app, E. simpl. now rewrite like_of_new.
    + rewrite filter_app, length_app. simpl. rewrite Z.eqb_refl. simpl. lia.
    + intros u e Hne. rewrite filter_app. simpl.
      destruct (like_of u e _) eqn:El; [|now rewrite app_nil_r].
      apply like_of_pair in El. unfold like_pair in El. simpl in El. congruence.
    + intros e Hne. rewrite filter_app. simpl.
      destruct (entry_id =? e) eqn:Ee; [apply Z.eqb_eq in Ee; congruence|].
      now rewrite app_nil_r.
    + split; apply NoDup_map_snoc; try assumption.
      * apply next_id_fresh.
      * apply (filter_empty_not_in like_pair _ _ _ E).
        intros x _ Hx. now apply like_of_pair.
Qed.

Lemma toggle_like_flips_witness :
  session_get DailyEntry.id (daily_entries st_liked) 1 = Some forest_entry
  /\ DailyEntry.is_shared forest_entry = true
  /\ DailyEntry.author_id forest_entry <> 2
  /\ likes_unique st_liked
  /\ snd (toggle_like st_liked 2 1 6) = negb (user_has_liked_entry st_liked 2 1)
  /\ get_entry_likes_count (fst (toggle_like st_liked 2 1 6)) 1 = 0%nat.
Proof.
  assert (Hget : session_get DailyEntry.id (daily_entries st_liked) 1 = Some forest_entry)
    by reflexivity.
  assert (Hs : DailyEntry.is_shared forest_entry = true) by reflexivity.
  assert (Ha : DailyEntry.author_id forest_entry <> 2) by (simpl; lia).
  assert (Hu : likes_unique st_liked).
  { split; (constructor; [intros [] | constructor]). }
  split; [exact Hget|]. split; [exact Hs|]. split; [exact Ha|]. split; [exact Hu|].
  pose proof (toggle_like_flips st_liked 2 1 6 forest_entry Hget Hs Ha Hu) as H.
  split; [exact (proj1 H) | exact (proj1 (proj2 (proj2 H)))].
Defined.

(** ** Which tables a call leaves alone *)

Lemma create_entry_frame (st : Store) (user_id image_id : Z) (entry_data : DailyEntryCreate.t)
    (entry_date now : Z) :
  let st' := fst (create_entry st user_id image_id entry_data entry_date now) in
  users st' = users st /\ reflection_likes st' = reflection_likes st
  /\ contact_requests st' = contact_requests st /\ conversations st' = conversations st
  /\ direct_messages st' = direct_messages st.
Proof. unfold create_entry. destruct (first _); simpl; auto. Qed.

Lemma update_entry_frame (st : Store) (entry_id user_id : Z) (update_data : DailyEntryUpdate.t)
    (now : Z) :
  let st' := fst (update_entry st entry_id user_id update_data now) in
  users st' = users st /\ reflection_likes st' = reflection_likes st
  /\ contact_requests st' = contact_requests st /\ conversations st' = conversations st
  /\ direct_messages st' = direct_messages st.
Proof.
  unfold update_entry. destruct (session_get _ _ _); simpl; auto.
  destruct (negb _); simpl; auto.
Qed.

Lemma toggle_like_frame (st : Store) (user_id entry_id now : Z) :
  let st' := fst (toggle_like st user_id entry_id now) in
  users st' = users st /\ daily_entries st' = daily_entries st
  /\ contact_requests st' = contact_requests st /\ conversations st' = conversations st
  /\ direct_messages st' = direct_messages st.
Proof.
  unfold toggle_like. destruct (session_get _ _ _); simpl; auto.
  destruct (negb _ || _); simpl; auto. destruct (first _); simpl; auto.
Qed.

Lemma send_contact_request_frame (st : Store) (sender_id : Z)
    (request_data : ContactRequestCreate.t) (now : Z) :
  let st' := fst (send_contact_request st sender_id request_data now) in
  users st' = users st /\ daily_entries st' = daily_entries st
  /\ reflection_likes st' = reflection_likes st /\ conversations st' = conversations st
  /\ direct_messages st' = direct_messages st.
Proof.
  unfold send_contact_request. destruct (session_get _ _ _); simpl; auto.
  destruct (negb _ || _); simpl; auto. destruct (negb _); simpl; auto.
  destruct (first _); simpl; auto.
Qed.

Lemma create_conversation_frame (st : Store) (a b now : Z) :
  let st' := fst (_create_conversation st a b now) in
  users st' = users st /\ daily_entries st' = daily_entries st
  /\ reflection_likes st' = reflection_likes st /\ contact_requests st' = contact_requests st
  /\ direct_messages st' = direct_messages st.
Proof.
  unfold _create_conversation. destruct (a >? b); destruct (first _); simpl; auto.
Qed.

Lemma respond_to_contact_request_frame (st : Store) (request_id recipient_id : Z)
    (accept : bool) (now : Z) :
  let st' := fst (respond_to_contact_request st request_id recipient_id accept now) in
  users st' = users st /\ daily_entries st' = daily_entries st
  /\ reflection_likes st' = reflection_likes st /\ direct_messages st' = direct_messages st.
Proof.
  unfold respond_to_contact_request. destruct (session_get _ _ _); simpl; auto.
  destruct (negb _); simpl; auto. destruct accept; simpl; auto.
  match goal with
  | |- context [_create_conversation ?s ?a ?b ?t] =>
      destruct (create_conversation_frame s a b t) as [H1 [H2 [H3 [_ H5]]]]
  end.
  rewrite H1, H2, H3, H5. auto.
Qed.

Lemma send_message_frame (st : Store) (sender_id : Z) (message_data : DirectMessageCreate.t)
    (now : Z) :
  let st' := fst (send_message st sender_id message_data now) in
  users st' = users st /\ daily_entries st' = daily_entries st
  /\ reflection_likes st' = reflection_likes st /\ contact_requests st' = contact_requests st.
Proof.
  unfold send_message. destruct (session_get _ _ _); simpl; auto.
  destruct (negb _); simpl; auto.
Qed.

Lemma mark_messages_as_read_frame (st : Store) (conversation_id user_id : Z) :
  let st' := fst (mark_messages_as_read st conversation_id user_id) in
  users st' = users st /\ daily_entries st' = daily_entries st
  /\ reflection_likes st' = reflection_likes st /\ contact_requests st' = contact_requests st
  /\ conversations st' = conversations st.
Proof.
  unfold mark_messages_as_read. destruct (session_get _ _ _); simpl; auto.
  destruct (negb _); simpl; auto.
Qed.

(** ** Invariants of the runs, continued *)

Lemma toggle_like_likes_unique (st : Store) (user_id entry_id now : Z) :
  likes_unique st -> likes_unique (fst (toggle_like st user_id entry_id now)).
Proof.
  intros [Hids Hpairs]. unfold toggle_like.
  destruct (session_get DailyEntry.id (daily_entries st) entry_id); [|now split].
  destruct (negb _ || _); [now split|].
  destruct (first (filter (like_of user_id entry_id) (reflection_likes st))) eqn:E;
    unfold likes_unique; simpl.
  - split; apply NoDup_map_filter; assumption.
  - apply first_filter_None in E.
    split; apply NoDup_map_snoc; try assumption.
    + apply next_id_fresh.
    + apply (filter_empty_not_in like_pair _ _ _ E).
      intros x _ Hx. now apply like_of_pair.
Qed.

Lemma step_likes_unique (st st' : Store) :
  step st st' -> likes_unique st -> likes_unique st'.
Proof.
  intros Hstep Hinv. unfold likes_unique in *. destruct Hstep.
  - destruct (create_entry_frame st user_id image_id entry_data entry_date now)
      as [_ [-> _]]. exact Hinv.
  - destruct (update_entry_frame st entry_id user_id update_data now) as [_ [-> _]].
    exact Hinv.
  - now apply toggle_like_likes_unique.
  - destruct (send_contact_request_frame st sender_id request_data now)
      as [_ [_ [-> _]]]. exact Hinv.
  - destruct (respond_to_contact_request_frame st request_id recipient_id accept now)
      as [_ [_ [-> _]]]. exact Hinv.
  - destruct (send_message_frame st sender_id message_data now) as [_ [_ [-> _]]].
    exact Hinv.
  - destruct (mark_messages_as_read_frame st conversation_id user_id)
      as [_ [_ [-> _]]]. exact Hinv.
Qed.

(** A step keeps every entry under its key, with its author. *)
Lemma step_entry_author (st st' : Store) (k : Z) (e : DailyEntry.t) :
  step st st' ->
  session_get DailyEntry.id (daily_entries st) k = Some e ->
  exists e', session_get DailyEntry.id (daily_entries st') k = Some e'
             /\ DailyEntry.author_id e' = DailyEntry.author_id e.
Proof.
  intros Hstep Hget. destruct Hstep.
  - unfold create_entry. destruct (first _); simpl; [now exists e|].
    exists e. split; [now apply session_get_app | reflexivity].
  - unfold update_entry.
    destruct (session_get DailyEntry.id (daily_entries st) entry_id) as [entry|] eqn:Hentry;
      [|now exists e].
    destruct (negb _); simpl; [now exists e|].
    rewrite session_get_update, Hget. simpl.
    destruct (DailyEntry.id e =? DailyEntry.id entry) eqn:E; [|now exists e].
    eexists. split; [reflexivity|]. simpl.
    apply Z.eqb_eq in E.
    destruct (session_get_Some _ _ _ _ Hget) as [_ Hk1].
    destruct (session_get_Some _ _ _ _ Hentry) as [_ Hk2].
    assert (Hsame : Some e = Some entry) by (rewrite <- Hget, <- Hentry; f_equal; congruence).
    now injection Hsame as <-.
  - destruct (toggle_like_frame st user_id entry_id now) as [_ [-> _]]. now exists e.
  - destruct (send_contact_request_frame st sender_id request_data now) as [_ [-> _]].
    now exists e.
  - destruct (respond_to_contact_request_frame st request_id recipient_id accept now)
      as [_ [-> _]]. now exists e.
  - destruct (send_message_frame st sender_id message_data now) as [_ [-> _]]. now exists e.
  - destruct (mark_messages_as_read_frame st conversation_id user_id) as [_ [-> _]].
    now exists e.
Qed.

Lemma request_of_triple (sender_id recipient_id entry_id : Z) (r : ContactRequest.t) :
  request_of sender_id recipient_id entry_id r = true
  <-> request_triple r = (sender_id, recipient_id, entry_id).
Proof.
  unfold request_of, request_triple. rewrite !andb_true_iff, !Z.eqb_eq.
  split; [intros [[-> ->] ->]; reflexivity | intros H; injection H; auto].
Qed.

(** Updating a row by a row that agrees with the stored one on [f] keeps [f]
    all over the table. *)
Lemma session_update_map {A K : Type} (key : A -> Z) (f : A -> K) (row old : A)
    (table : list A) :
  NoDup (map key table) -> In old table -> key row = key old -> f row = f old ->
  map f (session_update key row table) = map f table.
Proof.
  intros Hnd Hin Hk Hf. unfold session_update. rewrite map_map.
  apply map_ext_in. intros r Hr.
  destruct (key r =? key row) eqn:E; [|reflexivity].
  apply Z.eqb_eq in E.
  assert (r = old) by (apply (NoDup_key_eq key table); auto; congruence).
  now subst r.
Qed.

Lemma session_update_stored {A : Type} (key : A -> Z) (row old : A) (table : list A) :
  In old table -> key row = key old -> In row (session_update key row table).
Proof.
  intros Hin Hk. unfold session_update. apply in_map_iff. exists old.
  split; [|assumption]. now rewrite Hk, Z.eqb_refl.
Qed.

Lemma send_contact_request_requests_ok (st : Store) (sender_id : Z)
    (request_data : ContactRequestCreate.t) (now : Z) :
  requests_ok st -> requests_ok (fst (send_contact_request st sender_id request_data now)).
Proof.
  intros Hinv. unfold send_contact_request.
  destruct (session_get DailyEntry.id (daily_entries st) _) as [entry|] eqn:Hget;
    [|exact Hinv].
  destruct (negb (DailyEntry.is_shared entry) || _) eqn:Hguard; [exact Hinv|].
  destruct (negb (user_has_liked_entry _ _ _)); [exact Hinv|].
  destruct (first (filter (request_of _ _ _) _)) eqn:E; [exact Hinv|].
  apply first_filter_None in E.
  apply orb_false_iff in Hguard. destruct Hguard as [_ Ha].
  apply negb_false_iff, Z.eqb_eq in Ha.
  destruct Hinv as [Hids [Htriples Hauthor]]. unfold requests_ok. simpl.
  split; [|split].
  - apply NoDup_map_snoc; [assumption | apply next_id_fresh].
  - apply NoDup_map_snoc; [assumption|].
    apply (filter_empty_not_in request_triple _ _ _ E).
    intros x _ Hx. now apply request_of_triple.
  - intros r Hin. apply in_app_or in Hin.
    destruct Hin as [Hin | [<- | []]]; [now apply Hauthor|].
    exists entry. simpl. now split.
Qed.

Lemma respond_requests (st : Store) (request_id recipient_id : Z) (accept : bool) (now : Z) :
  contact_requests (fst (respond_to_contact_request st request_id recipient_id accept now))
  = match session_get ContactRequest.id (contact_requests st) request_id with
    | None => contact_requests st
    | Some request =>
        if negb (ContactRequest.recipient_id request =? recipient_id) then contact_requests st
        else session_update ContactRequest.id
               (ContactRequest.mk (ContactRequest.id request) (ContactRequest.sender_id request)
                  (ContactRequest.recipient_id request) (ContactRequest.daily_entry_id request)
                  (ContactRequest.message request) (if accept then ACCEPTED else DECLINED)
                  (ContactRequest.created_at request) (Some now))
               (contact_requests st)
    end.
Proof.
  unfold respond_to_contact_request.
  destruct (session_get _ _ _) as [request|]; [|reflexivity].
  destruct (negb _); [reflexivity|]. simpl.
  destruct accept; [|reflexivity].
  match goal with
  | |- context [_create_conversation ?s ?a ?b ?t] =>
      destruct (create_conversation_frame s a b t) as [_ [_ [_ [H _]]]]
  end.
  now rewrite H.
Qed.

Lemma respond_requests_ok (st : Store) (request_id recipient_id : Z) (accept : bool) (now : Z) :
  requests_ok st ->
  requests_ok (fst (respond_to_contact_request st request_id recipient_id accept now)).
Proof.
  intros [Hids [Htriples Hauthor]]. unfold requests_ok.
  destruct (respond_to_contact_request_frame st request_id recipient_id accept now)
    as [_ [-> _]].
  rewrite respond_requests.
  destruct (session_get ContactRequest.id (contact_requests st) request_id)
    as [request|] eqn:Hget; [|now repeat split].
  destruct (negb _); [now repeat split|].
  destruct (session_get_Some _ _ _ _ Hget) as [Hin _].
  split; [|split].
  - now rewrite session_update_key.
  - now rewrite (session_update_map ContactRequest.id request_triple _ request).
  - intros r Hr. apply session_update_In in Hr.
    destruct Hr as [-> | Hr]; [simpl | now apply Hauthor]. now apply Hauthor.
Qed.

Lemma step_requests_ok (st st' : Store) :
  step st st' -> requests_ok st -> requests_ok st'.
Proof.
  intros Hstep Hinv.
  assert (Hentries : contact_requests st' = contact_requests st -> requests_ok st').
  { intros Heq. destruct Hinv as [Hids [Htriples Hauthor]]. unfold requests_ok.
    rewrite Heq. split; [assumption|]. split; [assumption|].
    intros r Hr. destruct (Hauthor r Hr) as [entry [Hget Ha]].
    destruct (step_entry_author st st' _ entry Hstep Hget) as [e' [Hget' Ha']].
    exists e'. split; [assumption | congruence]. }
  destruct Hstep.
  - apply Hentries.
    now destruct (create_entry_frame st user_id image_id entry_data entry_date now)
      as [_ [_ [-> _]]].
  - apply Hentries.
    now destruct (update_entry_frame st entry_id user_id update_data now) as [_ [_ [-> _]]].
  - apply Hentries.
    now destruct (toggle_like_frame st user_id entry_id now) as [_ [_ [-> _]]].
  - now apply send_contact_request_requests_ok.
  - now apply respond_requests_ok.
  - apply Hentries.
    now destruct (send_message_frame st sender_id message_data now) as [_ [_ [_ ->]]].
  - apply Hentries.
    now destruct (mark_messages_as_read_frame st conversation_id user_id)
      as [_ [_ [_ [-> _]]]].
Qed.

(** A step keeps every conversation under its key, with its participants. *)
Lemma step_conversation (st st' : Store) (k : Z) (c : Conversation.t) :
  step st st' ->
  session_get Conversation.id (conversations st) k = Some c ->
  exists c', session_get Conversation.id (conversations st') k = Some c'
             /\ same_conversation c c'.
Proof.
  intros Hstep Hget.
  assert (Hrefl : same_conversation c c) by (repeat split).
  destruct Hstep.
  - destruct (create_entry_frame st user_id image_id entry_data entry_date now)
      as [_ [_ [_ [-> _]]]]. now exists c.
  - destruct (update_entry_frame st entry_id user_id update_data now)
      as [_ [_ [_ [-> _]]]]. now exists c.
  - destruct (toggle_like_frame st user_id entry_id now) as [_ [_ [_ [-> _]]]]. now exists c.
  - destruct (send_contact_request_frame st sender_id request_data now)
      as [_ [_ [_ [-> _]]]]. now exists c.
  - unfold respond_to_contact_request.
    destruct (session_get ContactRequest.id _ _); [|now exists c].
    destruct (negb _); simpl; [now exists c|].
    destruct accept; [|now exists c].
    unfold _create_conversation. destruct (_ >? _); destruct (first _); simpl;
      exists c; (split; [|assumption]); try assumption; now apply session_get_app.
  - unfold send_message.
    destruct (session_get Conversation.id (conversations st)
                (DirectMessageCreate.conversation_id message_data))
      as [conversation|] eqn:Hconv; [|now exists c].
    destruct (negb _); simpl; [now exists c|].
    rewrite session_get_update, Hget. simpl.
    destruct (Conversation.id c =? Conversation.id conversation) eqn:E; [|now exists c].
    eexists. split; [reflexivity|].
    apply Z.eqb_eq in E.
    destruct (session_get_Some _ _ _ _ Hget) as [_ Hk1].
    destruct (session_get_Some _ _ _ _ Hconv) as [_ Hk2].
    assert (Hsame : Some c = Some conversation)
      by (rewrite <- Hget, <- Hconv; f_equal; congruence).
    injection Hsame as <-. repeat split.
  - destruct (mark_messages_as_read_frame st conversation_id user_id)
      as [_ [_ [_ [_ ->]]]]. now exists c.
Qed.

Lemma same_conversation_member (c c' : Conversation.t) (user_id : Z) :
  same_conversation c c' -> is_member user_id c' = is_member user_id c.
Proof. intros [_ [H1 [H2 _]]]. unfold is_member. now rewrite H1, H2. Qed.

Lemma fold_row_origin {A : Type} (key : A -> Z) (f : A -> A) (ms : list A) (r : A) :
  let r' := fold_left (fun r m => if key r =? key (f m) then f m else r) ms r in
  r' = r \/ exists m, In m ms /\ r' = f m.
Proof.
  revert r. induction ms as [|m ms IH]; intros r; simpl; [now left|].
  destruct (key r =? key (f m)).
  - destruct (IH (f m)) as [-> | [m' [Hin ->]]].
    + right. exists m. split; [now left | reflexivity].
    + right. exists m'. split; [now right | reflexivity].
  - destruct (IH r) as [-> | [m' [Hin ->]]]; [now left|].
    right. exists m'. split; [now right | reflexivity].
Qed.

Lemma step_senders_are_members (st st' : Store) :
  step st st' -> senders_are_members st -> senders_are_members st'.
Proof.
  intros Hstep Hinv.
  assert (Hold : forall m m', In m (direct_messages st) ->
            DirectMessage.conversation_id m' = DirectMessage.conversation_id m ->
            DirectMessage.sender_id m' = DirectMessage.sender_id m ->
            exists conversation,
              session_get Conversation.id (conversations st') (DirectMessage.conversation_id m')
              = Some conversation
              /\ is_member (DirectMessage.sender_id m') conversation = true).
  { intros m m' Hin Hc Hs. destruct (Hinv m Hin) as [c [Hget Hmem]].
    destruct (step_conversation st st' _ c Hstep Hget) as [c' [Hget' Hsame]].
    exists c'. rewrite Hc, Hs. split; [assumption|].
    now rewrite (same_conversation_member c c'). }
  assert (Hkeep : direct_messages st' = direct_messages st -> senders_are_members st').
  { intros Heq m Hin. rewrite Heq in Hin. now apply (Hold m m). }
  pose proof Hstep as Hstep'. destruct Hstep.
  - apply Hkeep.
    now destruct (create_entry_frame st user_id image_id entry_data entry_date now)
      as [_ [_ [_ [_ ->]]]].
  - apply Hkeep.
    now destruct (update_entry_frame st entry_id user_id update_data now)
      as [_ [_ [_ [_ ->]]]].
  - apply Hkeep.
    now destruct (toggle_like_frame st user_id entry_id now) as [_ [_ [_ [_ ->]]]].
  - apply Hkeep.
    now destruct (send_contact_request_frame st sender_id request_data now)
      as [_ [_ [_ [_ ->]]]].
  - apply Hkeep.
    now destruct (respond_to_contact_request_frame st request_id recipient_id accept now)
      as [_ [_ [_ ->]]].
  - intros m Hin. revert Hstep' Hold Hkeep Hin. unfold send_message.
    destruct (session_get Conversation.id (conversations st)
                (DirectMessageCreate.conversation_id message_data))
      as [conversation|] eqn:Hconv; [|intros _ _ Hkeep Hin; now apply (Hkeep eq_refl)].
    destruct (negb (is_member sender_id conversation)) eqn:Hmem;
      [intros _ _ Hkeep Hin; now apply (Hkeep eq_refl)|].
    intros Hstep' Hold _ Hin. simpl in *.
    apply in_app_or in Hin. destruct Hin as [Hin | [<- | []]]; [now apply (Hold m m)|].
    simpl. destruct (step_conversation _ _ _ conversation Hstep' Hconv) as [c' [Hget' Hsame]].
    exists c'. split; [exact Hget'|].
    rewrite (same_conversation_member conversation c' _ Hsame).
    now apply negb_false_iff.
  - intros m Hin. revert Hold Hkeep Hin. clear Hstep'. unfold mark_messages_as_read.
    destruct (session_get Conversation.id (conversations st) conversation_id)
      as [conversation|]; [|intros _ Hkeep Hin; now apply (Hkeep eq_refl)].
    destruct (negb _); [intros _ Hkeep Hin; now apply (Hkeep eq_refl)|].
    intros Hold _ Hin. simpl in *.
    rewrite fold_session_update in Hin. apply in_map_iff in Hin.
    destruct Hin as [r [Hr Hin]].
    destruct (fold_row_origin DirectMessage.id read
                (filter (unread_by conversation_id user_id) (direct_messages st)) r)
      as [E | [m0 [Hm0 E]]]; rewrite E in Hr; subst m.
    + now apply (Hold r r).
    + apply filter_In in Hm0. destruct Hm0 as [Hm0 _]. now apply (Hold m0 (read m0)).
Qed.

(** A step keeps every request, with its sender and recipient, and an
    answered request stays answered. *)
Lemma step_request_kept (st st' : Store) (r : ContactRequest.t) :
  step st st' ->
  NoDup (map ContactRequest.id (contact_requests st)) ->
  In r (contact_requests st) ->
  exists r', In r' (contact_requests st')
             /\ ContactRequest.id r' = ContactRequest.id r
             /\ ContactRequest.sender_id r' = ContactRequest.sender_id r
             /\ ContactRequest.recipient_id r' = ContactRequest.recipient_id r
             /\ (ContactRequest.status r <> PENDING -> ContactRequest.status r' <> PENDING).
Proof.
  intros Hstep Hnd Hin.
  assert (Hkeep : contact_requests st' = contact_requests st ->
            exists r', In r' (contact_requests st')
             /\ ContactRequest.id r' = ContactRequest.id r
             /\ ContactRequest.sender_id r' = ContactRequest.sender_id r
             /\ ContactRequest.recipient_id r' = ContactRequest.recipient_id r
             /\ (ContactRequest.status r <> PENDING -> ContactRequest.status r' <> PENDING)).
  { intros ->. exists r. auto. }
  destruct Hstep.
  - apply Hkeep.
    now destruct (create_entry_frame st user_id image_id entry_data entry_date now)
      as [_ [_ [-> _]]].
  - apply Hkeep.
    now destruct (update_entry_frame st entry_id user_id update_data now) as [_ [_ [-> _]]].
  - apply Hkeep.
    now destruct (toggle_like_frame st user_id entry_id now) as [_ [_ [-> _]]].
  - clear Hkeep. exists r. split; [|auto]. unfold send_contact_request.
    destruct (session_get _ _ _); [|assumption].
    destruct (negb _ || _); [assumption|].
    destruct (negb (user_has_liked_entry _ _ _)); [assumption|].
    destruct (first _); simpl; [assumption|]. apply in_or_app. now left.
  - clear Hkeep. rewrite respond_requests.
    destruct (session_get ContactRequest.id (contact_requests st) request_id)
      as [request|] eqn:Hget; [|exists r; auto].
    destruct (negb _); [exists r; auto|].
    destruct (session_get_Some _ _ _ _ Hget) as [Hrequest _].
    destruct (ContactRequest.id r =? ContactRequest.id request) eqn:E.
    + apply Z.eqb_eq in E.
      assert (r = request) by (apply (NoDup_key_eq ContactRequest.id _ _ _ Hnd); auto).
      subst r. eexists. split; [apply (session_update_stored _ _ request); auto|].
      simpl. repeat split. intros _. destruct accept; discriminate.
    + exists r. split; [|auto]. unfold session_update. apply in_map_iff.
      exists r. simpl. now rewrite E.
  - apply Hkeep.
    now destruct (send_message_frame st sender_id message_data now) as [_ [_ [_ ->]]].
  - apply Hkeep.
    now destruct (mark_messages_as_read_frame st conversation_id user_id)
      as [_ [_ [_ [-> _]]]].
Qed.

Lemma between_same (a b : Z) (c c' : Conversation.t) :
  Conversation.user1_id c' = Conversation.user1_id c ->
  Conversation.user2_id c' = Conversation.user2_id c ->
  between a b c' = between a b c.
Proof. intros H1 H2. unfold between, conversation_of. now rewrite H1, H2. Qed.

(** Where the conversations after a step come from: a conversation that was
    there, with the same participants, or the one that a request, accepted
    in this step, has opened between its sender and its recipient. *)
Lemma step_conversation_origin (st st' : Store) (c' : Conversation.t) :
  step st st' ->
  conversations_ok (conversations st) ->
  In c' (conversations st') ->
  (exists c, In c (conversations st) /\ same_conversation c c')
  \/ (exists request r',
        In request (contact_requests st)
        /\ In r' (contact_requests st')
        /\ ContactRequest.id r' = ContactRequest.id request
        /\ ContactRequest.sender_id r' = ContactRequest.sender_id request
        /\ ContactRequest.recipient_id r' = ContactRequest.recipient_id request
        /\ ContactRequest.status r' = ACCEPTED
        /\ Conversation.user1_id c'
           = Z.min (ContactRequest.sender_id request) (ContactRequest.recipient_id request)
        /\ Conversation.user2_id c'
           = Z.max (ContactRequest.sender_id request) (ContactRequest.recipient_id request)).
Proof.
  intros Hstep Hok Hin.
  assert (Hkeep : conversations st' = conversations st ->
            exists c, In c (conversations st) /\ same_conversation c c').
  { intros Heq. rewrite Heq in Hin. exists c'. repeat split; assumption. }
  destruct Hstep.
  - left. apply Hkeep.
    now destruct (create_entry_frame st user_id image_id entry_data entry_date now)
      as [_ [_ [_ [-> _]]]].
  - left. apply Hkeep.
    now destruct (update_entry_frame st entry_id user_id update_data now)
      as [_ [_ [_ [-> _]]]].
  - left. apply Hkeep.
    now destruct (toggle_like_frame st user_id entry_id now) as [_ [_ [_ [-> _]]]].
  - left. apply Hkeep.
    now destruct (send_contact_request_frame st sender_id request_data now)
      as [_ [_ [_ [-> _]]]].
  - revert Hin Hkeep. unfold respond_to_contact_request.
    destruct (session_get ContactRequest.id (contact_requests st) request_id)
      as [request|] eqn:Hget; [|intros _ Hkeep; left; now apply Hkeep].
    destruct (ContactRequest.recipient_id request =? recipient_id) eqn:Hrcp;
      [|intros _ Hkeep; left; now apply Hkeep].
    simpl. destruct accept; [|intros _ Hkeep; left; now apply Hkeep].
    match goal with
    | |- context [_create_conversation ?s _ _ _] => set (st1 := s)
    end.
    destruct (create_conversation_ok st1 (ContactRequest.sender_id request) recipient_id
                now Hok) as [c [Hcreate [H1 [H2 _]]]].
    rewrite Hcreate. simpl.
    destruct (existsb _ _); [intros _ Hkeep; left; now apply Hkeep|].
    intros Hin _. apply in_app_or in Hin.
    destruct Hin as [Hin | [<- | []]].
    + left. exists c'. repeat split; assumption.
    + right.
      destruct (session_get_Some _ _ _ _ Hget) as [Hrequest Hid].
      apply Z.eqb_eq in Hrcp. subst recipient_id.
      eexists request, _. split; [assumption|].
      split; [apply (session_update_stored ContactRequest.id _ request); auto|].
      simpl. repeat split; assumption.
  - left. revert Hin Hkeep. unfold send_message.
    destruct (session_get Conversation.id (conversations st)
                (DirectMessageCreate.conversation_id message_data))
      as [conversation|] eqn:Hconv; [|intros _ Hkeep; now apply Hkeep].
    destruct (negb _); [intros _ Hkeep; now apply Hkeep|].
    simpl. intros Hin _. apply session_update_In in Hin.
    destruct Hin as [-> | Hin].
    + exists conversation. split; [now apply (session_get_Some _ _ _ _ Hconv)|].
      repeat split.
    + exists c'. repeat split; assumption.
  - left. apply Hkeep.
    now destruct (mark_messages_as_read_frame st conversation_id user_id)
      as [_ [_ [_ [_ ->]]]].
Qed.

Lemma step_conversations_answered (st st' : Store) :
  step st st' -> engine_inv st -> requests_ok st ->
  conversations_answered st -> conversations_answered st'.
Proof.
  intros Hstep [Hok [_ [_ Hself]]] [Hids _] Hinv c' Hin.
  destruct (step_conversation_origin st st' c' Hstep Hok Hin)
    as [[c [Hc [_ [H1 [H2 _]]]]] | [request [r' [Hreq [Hr' [_ [Hs [Hr [Hst [H1 H2]]]]]]]]]].
  - destruct (Hinv c Hc) as [Hlt [r [Hr [Hstatus Hbetween]]]].
    split; [lia|].
    destruct (step_request_kept st st' r Hstep Hids Hr) as [r' [Hr' [_ [Hs [Hrc Hst]]]]].
    exists r'. split; [assumption|]. split; [now apply Hst|].
    now rewrite Hs, Hrc, (between_same _ _ c c').
  - specialize (Hself request Hreq). split; [lia|].
    exists r'. split; [assumption|]. split; [now rewrite Hst|].
    rewrite Hs, Hr.
    assert (Hcan : canonical c') by (unfold canonical; lia).
    rewrite (between_canonical _ _ c' Hcan). unfold conversation_of.
    now rewrite H1, H2, !Z.eqb_refl.
Qed.

Lemma step_social_inv (st st' : Store) : step st st' -> social_inv st -> social_inv st'.
Proof.
  intros Hstep [He [Hl [Hr [Hm Hc]]]]. repeat apply conj.
  - apply (step_inv st st' Hstep He).
  - apply (step_inv st st' Hstep He).
  - apply (step_inv st st' Hstep He).
  - apply (step_inv st st' Hstep He).
  - apply (step_inv st st' Hstep He).
  - apply (step_inv st st' Hstep He).
  - apply (step_likes_unique st st' Hstep Hl).
  - apply (step_likes_unique st st' Hstep Hl).
  - apply (step_requests_ok st st' Hstep Hr).
  - apply (step_requests_ok st st' Hstep Hr).
  - apply (step_requests_ok st st' Hstep Hr).
  - apply (step_senders_are_members st st' Hstep Hm).
  - now apply (step_conversations_answered st st').
Qed.

Lemma reachable_social_inv (st : Store) : reachable st -> social_inv st.
Proof.
  induction 1 as [st Hinit | st st' Hreach IH Hstep].
  - split; [now apply reachable_inv, reachable_initial|].
    destruct Hinit as [Hl [Hr [Hc Hm]]].
    unfold likes_unique, requests_ok, senders_are_members, conversations_answered.
    rewrite Hl, Hr, Hc, Hm. simpl.
    split; [split; apply NoDup_nil|].
    split; [split; [apply NoDup_nil | split; [apply NoDup_nil | intros ? []]]|].
    split; intros ? [].
  - now apply (step_social_inv st st').
Qed.

Lemma reachable_st_chat : reachable st_chat.
Proof.
  apply (reachable_step
           (fst (send_message st_hello 1 (DirectMessageCreate.mk 1 "Hi Bob!") 12)));
    [|exact (step_send_message _ 2 (DirectMessageCreate.mk 1 "Would love to discuss more!") 13)].
  apply (reachable_step st_hello);
    [|exact (step_send_message st_hello 1 (DirectMessageCreate.mk 1 "Hi Bob!") 12)].
  apply (reachable_step st_accepted);
    [|exact (step_send_message st_accepted 2 (DirectMessageCreate.mk 1 "Hello Alice!") 11)].
  apply (reachable_step st_requested);
    [|exact (step_respond_to_contact_request st_requested 1 1 true 10)].
  apply (reachable_step st_liked);
    [|exact (step_send_contact_request st_liked 2 (ContactRequestCreate.mk 1 1 "Hello!") 6)].
  apply (reachable_step st_fresh); [|exact (step_toggle_like st_fresh 2 1 5)].
  apply reachable_initial. repeat split.
Qed.

(** X2: in every reachable store the like rows have distinct keys and no
    user likes the same entry twice. *)
Theorem reachable_likes_unique (st : Store) :
  reachable st ->
  NoDup (map ReflectionLike.id (reflection_likes st))
  /\ NoDup (map like_pair (reflection_likes st)).
Proof. intros H. apply reachable_social_inv in H. apply H. Qed.

Lemma reachable_likes_unique_witness :
  reachable st_chat
  /\ NoDup (map ReflectionLike.id (reflection_likes st_chat))
  /\ NoDup (map like_pair (reflection_likes st_chat)).
Proof.
  split; [exact reachable_st_chat | exact (reachable_likes_unique st_chat reachable_st_chat)].
Defined.

(** X3: in every reachable store the contact requests have distinct keys,
    there is at most one request per sender, recipient and entry, and the
    recipient of every request is the author of the entry it refers to. *)
Theorem reachable_requests_ok (st : Store) :
  reachable st ->
  NoDup (map ContactRequest.id (contact_requests st))
  /\ NoDup (map request_triple (contact_requests st))
  /\ forall r, In r (contact_requests st) ->
       exists entry,
         get_entry_by_id st (ContactRequest.daily_entry_id r) = Some entry
         /\ DailyEntry.author_id entry = ContactRequest.recipient_id r.
Proof. intros H. apply reachable_social_inv in H. apply H. Qed.

Lemma reachable_requests_ok_witness :
  reachable st_chat
  /\ NoDup (map ContactRequest.id (contact_requests st_chat))
  /\ NoDup (map request_triple (contact_requests st_chat))
  /\ forall r, In r (contact_requests st_chat) ->
       exists entry,
         get_entry_by_id st_chat (ContactRequest.daily_entry_id r) = Some entry
         /\ DailyEntry.author_id entry = ContactRequest.recipient_id r.
Proof.
  split; [exact reachable_st_chat | exact (reachable_requests_ok st_chat reachable_st_chat)].
Defined.

(** X4: in every reachable store each message belongs to an existing
    conversation and was sent by one of its two participants. *)
Theorem reachable_senders_are_members (st : Store) (m : DirectMessage.t) :
  reachable st ->
  In m (direct_messages st) ->
  exists conversation,
    session_get Conversation.id (conversations st) (DirectMessage.conversation_id m)
    = Some conversation
    /\ (DirectMessage.sender_id m = Conversation.user1_id conversation
        \/ DirectMessage.sender_id m = Conversation.user2_id conversation).
Proof.
  intros H Hin. apply reachable_social_inv in H.
  destruct H as [_ [_ [_ [Hm _]]]]. destruct (Hm m Hin) as [c [Hget Hmem]].
  exists c. split; [assumption|].
  unfold is_member in Hmem. simpl in Hmem.
  rewrite orb_false_r in Hmem. apply orb_true_iff in Hmem.
  rewrite !Z.eqb_eq in Hmem. exact Hmem.
Qed.

Lemma reachable_senders_are_members_witness :
  let m := DirectMessage.mk 2 1 1 "Hi Bob!" 12 false in
  reachable st_chat
  /\ In m (direct_messages st_chat)
  /\ exists conversation,
       session_get Conversation.id (conversations st_chat) (DirectMessage.conversation_id m)
       = Some conversation
       /\ (DirectMessage.sender_id m = Conversation.user1_id conversation
           \/ DirectMessage.sender_id m = Conversation.user2_id conversation).
Proof.
  intros m.
  assert (Hin : In m (direct_messages st_chat)) by (right; now left).
  split; [exact reachable_st_chat|]. split; [exact Hin|].
  exact (reachable_senders_are_members st_chat m reachable_st_chat Hin).
Defined.

(** X5: in every reachable store a conversation is between two different
    users, the lower id first, and a contact request between these two has
    been answered (it is no longer pending). *)
Theorem reachable_conversations_answered (st : Store) (c : Conversation.t) :
  reachable st ->
  In c (conversations st) ->
  Conversation.user1_id c < Conversation.user2_id c
  /\ exists r, In r (contact_requests st)
               /\ ContactRequest.status r <> PENDING
               /\ between (ContactRequest.sender_id r) (ContactRequest.recipient_id r) c
                  = true.
Proof.
  intros H Hin. apply reachable_social_inv in H.
  destruct H as [_ [_ [_ [_ Hc]]]]. now apply Hc.
Qed.

Lemma reachable_conversations_answered_witness :
  let c := Conversation.mk 1 1 2 ACTIVE 10 (Some 13) in
  reachable st_chat
  /\ In c (conversations st_chat)
  /\ Conversation.user1_id c < Conversation.user2_id c
  /\ exists r, In r (contact_requests st_chat)
               /\ ContactRequest.status r <> PENDING
               /\ between (ContactRequest.sender_id r) (ContactRequest.recipient_id r) c
                  = true.
Proof.
  intros c.
  assert (Hin : In c (conversations st_chat)) by (now left).
  split; [exact reachable_st_chat|]. split; [exact Hin|].
  exact (reachable_conversations_answered st_chat c reachable_st_chat Hin).
Defined.

(** ** What a run never loses *)

Lemma run_engine_inv (st st' : Store) : run st st' -> engine_inv st -> engine_inv st'.
Proof. induction 1; intros Hinv; [assumption | eapply step_inv; eauto]. Qed.

Lemma run_requests_ok (st st' : Store) : run st st' -> requests_ok st -> requests_ok st'.
Proof. induction 1; intros Hinv; [assumption | eapply step_requests_ok; eauto]. Qed.

Lemma same_message_refl (m : DirectMessage.t) : same_message m m.
Proof. repeat split; auto. Qed.

Lemma same_message_trans (a b c : DirectMessage.t) :
  same_message a b -> same_message b c -> same_message a c.
Proof.
  intros [A1 [A2 [A3 [A4 [A5 A6]]]]] [B1 [B2 [B3 [B4 [B5 B6]]]]].
  repeat split; try congruence. auto.
Qed.

Lemma step_message_kept (st st' : Store) (m : DirectMessage.t) :
  step st st' ->
  NoDup (map DirectMessage.id (direct_messages st)) ->
  In m (direct_messages st) ->
  exists m', In m' (direct_messages st') /\ same_message m m'.
Proof.
  intros Hstep Hnd Hin.
  assert (Hkeep : direct_messages st' = direct_messages st ->
            exists m', In m' (direct_messages st') /\ same_message m m').
  { intros ->. exists m. split; [assumption | apply same_message_refl]. }
  destruct Hstep.
  - apply Hkeep.
    now destruct (create_entry_frame st user_id image_id entry_data entry_date now)
      as [_ [_ [_ [_ ->]]]].
  - apply Hkeep.
    now destruct (update_entry_frame st entry_id user_id update_data now)
      as [_ [_ [_ [_ ->]]]].
  - apply Hkeep.
    now destruct (toggle_like_frame st user_id entry_id now) as [_ [_ [_ [_ ->]]]].
  - apply Hkeep.
    now destruct (send_contact_request_frame st sender_id request_data now)
      as [_ [_ [_ [_ ->]]]].
  - apply Hkeep.
    now destruct (respond_to_contact_request_frame st request_id recipient_id accept now)
      as [_ [_ [_ ->]]].
  - clear Hkeep. exists m. split; [|apply same_message_refl]. unfold send_message.
    destruct (session_get _ _ _); [|assumption].
    destruct (negb _); simpl; [assumption|]. apply in_or_app. now left.
  - clear Hkeep. unfold mark_messages_as_read.
    destruct (session_get _ _ _); [|exists m; split; [assumption | apply same_message_refl]].
    destruct (negb _); [exists m; split; [assumption | apply same_message_refl]|].
    simpl. rewrite (update_selected DirectMessage.id read) by auto.
    eexists. split; [apply in_map; exact Hin|].
    destruct (unread_by conversation_id user_id m); [|apply same_message_refl].
    repeat split; auto.
Qed.

(** X6: along every run of the engine from a well-formed store a message is
    never deleted or edited: it is still stored under its key, in its
    conversation, with its sender, text and time, and once read it stays
    read. *)
Theorem run_keeps_messages (st st' : Store) (m : DirectMessage.t) :
  run st st' ->
  engine_inv st ->
  In m (direct_messages st) ->
  exists m', In m' (direct_messages st') /\ same_message m m'.
Proof.
  intros Hrun Hinv Hin. induction Hrun as [|st1 st2 Hrun IH Hstep].
  - exists m. split; [assumption | apply same_message_refl].
  - destruct IH as [m1 [Hin1 Hsame1]].
    pose proof (run_engine_inv st st1 Hrun Hinv) as [_ [Hnd _]].
    destruct (step_message_kept st1 st2 m1 Hstep Hnd Hin1) as [m2 [Hin2 Hsame2]].
    exists m2. split; [assumption | now apply (same_message_trans m m1 m2)].
Qed.

Lemma run_hello_chat : run st_hello (fst (mark_messages_as_read st_chat 1 1)).
Proof.
  apply (run_more _ st_chat); [|exact (step_mark_messages_as_read st_chat 1 1)].
  apply (run_more _ (fst (send_message st_hello 1 (DirectMessageCreate.mk 1 "Hi Bob!") 12)));
    [|exact (step_send_message _ 2 (DirectMessageCreate.mk 1 "Would love to discuss more!") 13)].
  apply (run_more _ st_hello);
    [apply run_here | exact (step_send_message st_hello 1 (DirectMessageCreate.mk 1 "Hi Bob!") 12)].
Qed.

Lemma reachable_st_hello : reachable st_hello.
Proof.
  apply (reachable_step st_accepted);
    [|exact (step_send_message st_accepted 2 (DirectMessageCreate.mk 1 "Hello Alice!") 11)].
  apply (reachable_step st_requested);
    [|exact (step_respond_to_contact_request st_requested 1 1 true 10)].
  apply (reachable_step st_liked);
    [|exact (step_send_contact_request st_liked 2 (ContactRequestCreate.mk 1 1 "Hello!") 6)].
  apply (reachable_step st_fresh); [|exact (step_toggle_like st_fresh 2 1 5)].
  apply reachable_initial. repeat split.
Qed.

Lemma run_keeps_messages_witness :
  let m := DirectMessage.mk 1 1 2 "Hello Alice!" 11 false in
  run st_hello (fst (mark_messages_as_read st_chat 1 1))
  /\ engine_inv st_hello
  /\ In m (direct_messages st_hello)
  /\ exists m', In m' (direct_messages (fst (mark_messages_as_read st_chat 1 1)))
                /\ same_message m m'.
Proof.
  intros m.
  assert (Hinv : engine_inv st_hello) by (apply reachable_inv, reachable_st_hello).
  assert (Hin : In m (direct_messages st_hello)) by (now left).
  split; [exact run_hello_chat|]. split; [exact Hinv|]. split; [exact Hin|].
  exact (run_keeps_messages st_hello _ m run_hello_chat Hinv Hin).
Defined.

Lemma same_conversation_trans (a b c : Conversation.t) :
  same_conversation a b -> same_conversation b c -> same_conversation a c.
Proof.
  intros [A1 [A2 [A3 A4]]] [B1 [B2 [B3 B4]]]. repeat split; congruence.
Qed.

(** X7: along every run of the engine from a well-formed store a
    conversation is never deleted and keeps its key, its two participants
    and its creation time. *)
Theorem run_keeps_conversations (st st' : Store) (c : Conversation.t) :
  run st st' ->
  engine_inv st ->
  In c (conversations st) ->
  exists c', In c' (conversations st') /\ same_conversation c c'.
Proof.
  intros Hrun Hinv Hin. induction Hrun as [|st1 st2 Hrun IH Hstep].
  - exists c. repeat split; assumption.
  - destruct IH as [c1 [Hin1 Hsame1]].
    pose proof (run_engine_inv st st1 Hrun Hinv) as [[Hnd _] _].
    pose proof (session_get_In Conversation.id _ c1 Hnd Hin1) as Hget.
    destruct (step_conversation st1 st2 _ c1 Hstep Hget) as [c2 [Hget2 Hsame2]].
    exists c2. split; [now apply (session_get_Some _ _ _ _ Hget2)|].
    now apply (same_conversation_trans c c1 c2).
Qed.

Lemma run_keeps_conversations_witness :
  let c := Conversation.mk 1 1 2 ACTIVE 10 (Some 11) in
  run st_hello (fst (mark_messages_as_read st_chat 1 1))
  /\ engine_inv st_hello
  /\ In c (conversations st_hello)
  /\ exists c', In c' (conversations (fst (mark_messages_as_read st_chat 1 1)))
                /\ same_conversation c c'.
Proof.
  intros c.
  assert (Hinv : engine_inv st_hello) by (apply reachable_inv, reachable_st_hello).
  assert (Hin : In c (conversations st_hello)) by (now left).
  split; [exact run_hello_chat|]. split; [exact Hinv|]. split; [exact Hin|].
  exact (run_keeps_conversations st_hello _ c run_hello_chat Hinv Hin).
Defined.

(** X8: along every run of the engine from a store with distinct request
    keys a contact request is never deleted, keeps its key, sender and
    recipient, and once answered never becomes pending again. *)
Theorem run_keeps_requests (st st' : Store) (r : ContactRequest.t) :
  run st st' ->
  requests_ok st ->
  In r (contact_requests st) ->
  exists r', In r' (contact_requests st')
             /\ ContactRequest.id r' = ContactRequest.id r
             /\ ContactRequest.sender_id r' = ContactRequest.sender_id r
             /\ ContactRequest.recipient_id r' = ContactRequest.recipient_id r
             /\ (ContactRequest.status r <> PENDING -> ContactRequest.status r' <> PENDING).
Proof.
  intros Hrun Hinv Hin. induction Hrun as [|st1 st2 Hrun IH Hstep].
  - exists r. auto.
  - destruct IH as [r1 [Hin1 [Hid1 [Hs1 [Hr1 Hst1]]]]].
    pose proof (run_requests_ok st st1 Hrun Hinv) as [Hnd _].
    destruct (step_request_kept st1 st2 r1 Hstep Hnd Hin1)
      as [r2 [Hin2 [Hid2 [Hs2 [Hr2 Hst2]]]]].
    exists r2. repeat split; try congruence; auto.
Qed.

Lemma run_keeps_requests_witness :
  let r := ContactRequest.mk 1 2 1 1 "Hello!" ACCEPTED 6 (Some 10) in
  run st_hello (fst (mark_messages_as_read st_chat 1 1))
  /\ requests_ok st_hello
  /\ In r (contact_requests st_hello)
  /\ exists r', In r' (contact_requests (fst (mark_messages_as_read st_chat 1 1)))
                /\ ContactRequest.id r' = ContactRequest.id r
                /\ ContactRequest.sender_id r' = ContactRequest.sender_id r
                /\ ContactRequest.recipient_id r' = ContactRequest.recipient_id r
                /\ (ContactRequest.status r <> PENDING -> ContactRequest.status r' <> PENDING).
Proof.
  intros r.
  assert (Hinv : requests_ok st_hello) by (apply reachable_social_inv, reachable_st_hello).
  assert (Hin : In r (contact_requests st_hello)) by (now left).
  split; [exact run_hello_chat|]. split; [exact Hinv|]. split; [exact Hin|].
  exact (run_keeps_requests st_hello _ r run_hello_chat Hinv Hin).
Defined.

(** ** Pending requests *)

Lemma is_pending_true (s : MessageStatus) : is_pending s = true <-> s = PENDING.
Proof. destruct s; simpl; split; intros; congruence. Qed.

Lemma pending_for_true (user_id : Z) (r : ContactRequest.t) :
  pending_for user_id r = true
  <-> ContactRequest.recipient_id r = user_id /\ ContactRequest.status r = PENDING.
Proof.
  unfold pending_for. now rewrite andb_true_iff, Z.eqb_eq, is_pending_true.
Qed.

Lemma get_pending_In (st : Store) (user_id : Z) (r : ContactRequest.t) :
  In r (get_pending_contact_requests st user_id)
  <-> In r (contact_requests st) /\ pending_for user_id r = true.
Proof.
  unfold get_pending_contact_requests. rewrite <- filter_In.
  split; apply Permutation_in;
    [|apply Permutation_sym]; apply order_by_desc_perm.
Qed.

(** X9: [get_pending_contact_requests] answers with the requests that are
    addressed to the user and still pending, all of them and no other, each
    as often as it is stored, the most recently created first. *)
Theorem get_pending_contact_requests_newest_first (st : Store) (user_id : Z) :
  Permutation (get_pending_contact_requests st user_id)
              (filter (pending_for user_id) (contact_requests st))
  /\ StronglySorted
       (fun a b => ContactRequest.created_at b <= ContactRequest.created_at a)
       (get_pending_contact_requests st user_id)
  /\ forall r, In r (get_pending_contact_requests st user_id)
               <-> In r (contact_requests st)
                   /\ ContactRequest.recipient_id r = user_id
                   /\ ContactRequest.status r = PENDING.
Proof.
  split; [apply order_by_desc_perm|]. split; [apply order_by_desc_sorted|].
  intros r. now rewrite get_pending_In, pending_for_true.
Qed.

(** X10: when the recipient responds to a request, accepting or declining,
    the request leaves the pending list of every user and nothing else
    changes in these lists: a request is pending afterwards exactly when it
    was pending before and has another key. *)
Theorem respond_clears_pending (st : Store) (request_id recipient_id : Z) (accept : bool)
    (now : Z) (request : ContactRequest.t) :
  session_get ContactRequest.id (contact_requests st) request_id = Some request ->
  ContactRequest.recipient_id request = recipient_id ->
  let st' := fst (respond_to_contact_request st request_id recipient_id accept now) in
  forall user_id r,
    In r (get_pending_contact_requests st' user_id)
    <-> In r (get_pending_contact_requests st user_id) /\ ContactRequest.id r <> request_id.
Proof.
  intros Hget Hrcp st' user_id r. subst st'.
  rewrite !get_pending_In, respond_requests, Hget, Hrcp, Z.eqb_refl. simpl.
  destruct (session_get_Some _ _ _ _ Hget) as [_ Hid].
  unfold session_update. rewrite in_map_iff. simpl. rewrite Hid. split.
  - intros [[x [Hx Hin]] Hp].
    destruct (ContactRequest.id x =? request_id) eqn:E.
    + subst r. unfold pending_for in Hp. simpl in Hp.
      destruct accept; simpl in Hp; rewrite andb_false_r in Hp; discriminate.
    + subst x. apply Z.eqb_neq in E. auto.
  - intros [[Hin Hp] Hne]. split; [|assumption].
    exists r. split; [|assumption]. apply Z.eqb_neq in Hne. now rewrite Hne.
Qed.

Lemma respond_clears_pending_witness :
  let request := ContactRequest.mk 1 2 1 1 "Hello!" PENDING 6 None in
  session_get ContactRequest.id (contact_requests st_requested) 1 = Some request
  /\ ContactRequest.recipient_id request = 1
  /\ get_pending_contact_requests st_requested 1 = [request]
  /\ get_pending_contact_requests st_accepted 1 = []
  /\ forall user_id r,
       In r (get_pending_contact_requests st_accepted user_id)
       <-> In r (get_pending_contact_requests st_requested user_id)
           /\ ContactRequest.id r <> 1.
Proof.
  intros request.
  assert (Hget : session_get ContactRequest.id (contact_requests st_requested) 1 = Some request)
    by reflexivity.
  assert (Hrcp : ContactRequest.recipient_id request = 1) by reflexivity.
  split; [exact Hget|]. split; [exact Hrcp|]. split; [reflexivity|]. split; [reflexivity|].
  exact (respond_clears_pending st_requested 1 1 true 10 request Hget Hrcp).
Defined.

(** X11: a request that [send_contact_request] answers with is stored, is
    from the sender to the recipient about the entry, and is in the pending
    list of the recipient as long as it is pending; when no request for the
    three was stored before, it is a new pending request with the message
    and the time of the call. *)
Theorem send_contact_request_stored (st st1 : Store) (sender_id : Z)
    (request_data : ContactRequestCreate.t) (now : Z) (r : ContactRequest.t) :
  send_contact_request st sender_id request_data now = (st1, Some r) ->
  let recipient_id := ContactRequestCreate.recipient_id request_data in
  let entry_id := ContactRequestCreate.daily_entry_id request_data in
  In r (contact_requests st1)
  /\ request_triple r = (sender_id, recipient_id, entry_id)
  /\ (ContactRequest.status r = PENDING ->
      In r (get_pending_contact_requests st1 recipient_id))
  /\ (filter (request_of sender_id recipient_id entry_id) (contact_requests st) = [] ->
      r = ContactRequest.mk (next_id ContactRequest.id (contact_requests st))
            sender_id recipient_id entry_id (ContactRequestCreate.message request_data)
            PENDING now None
      /\ contact_requests st1 = contact_requests st ++ [r]).
Proof.
  intros Hsend recipient_id entry_id.
  assert (Hmain : In r (contact_requests st1)
                  /\ request_triple r = (sender_id, recipient_id, entry_id)
                  /\ (filter (request_of sender_id recipient_id entry_id) (contact_requests st)
                      = [] ->
                      r = ContactRequest.mk (next_id ContactRequest.id (contact_requests st))
                            sender_id recipient_id entry_id
                            (ContactRequestCreate.message request_data) PENDING now None
                      /\ contact_requests st1 = contact_requests st ++ [r])).
  { revert Hsend. unfold send_contact_request. fold recipient_id entry_id.
    destruct (session_get DailyEntry.id (daily_entries st) entry_id); [|discriminate].
    destruct (negb _ || _); [discriminate|].
    destruct (negb (user_has_liked_entry _ _ _)); [discriminate|].
    destruct (first (filter (request_of sender_id recipient_id entry_id) (contact_requests st)))
      as [existing|] eqn:E; intros H; injection H as <- <-.
    - destruct (first_filter_Some _ _ _ E) as [Hin Hp].
      split; [assumption|]. split; [now apply request_of_triple|].
      intros Hnone. unfold first in E. rewrite Hnone in E. discriminate.
    - simpl. split; [apply in_or_app; right; now left|]. split; [reflexivity|].
      intros _. now split. }
  destruct Hmain as [Hin [Htriple Hnew]].
  split; [assumption|]. split; [assumption|]. split; [|assumption].
  intros Hstatus. apply get_pending_In. split; [assumption|].
  apply pending_for_true. split; [|assumption].
  unfold request_triple in Htriple. now injection Htriple.
Qed.

Lemma send_contact_request_stored_witness :
  let r := ContactRequest.mk 1 2 1 1 "Hello!" PENDING 6 None in
  send_contact_request st_liked 2 (ContactRequestCreate.mk 1 1 "Hello!") 6
    = (st_requested, Some r)
  /\ In r (contact_requests st_requested)
  /\ (ContactRequest.status r = PENDING -> In r (get_pending_contact_requests st_requested 1)).
Proof.
  intros r.
  assert (Hsend : send_contact_request st_liked 2 (ContactRequestCreate.mk 1 1 "Hello!") 6
                  = (st_requested, Some r)) by reflexivity.
  pose proof (send_contact_request_stored st_liked st_requested 2
                (ContactRequestCreate.mk 1 1 "Hello!") 6 r Hsend) as H.
  split; [exact Hsend|]. split; [exact (proj1 H) | exact (proj1 (proj2 (proj2 H)))].
Defined.

(** ** Sending and reading *)

Lemma send_message_effects (st : Store) (sender_id : Z)
    (message_data : DirectMessageCreate.t) (now : Z) (conversation : Conversation.t) :
  let conversation_id := DirectMessageCreate.conversation_id message_data in
  session_get Conversation.id (conversations st) conversation_id = Some conversation ->
  is_member sender_id conversation = true ->
  let message := DirectMessage.mk (next_id DirectMessage.id (direct_messages st))
                   conversation_id sender_id
                   (DirectMessageCreate.message_text message_data) now false in
  let st' := fst (send_message st sender_id message_data now) in
  snd (send_message st sender_id message_data now) = Some message
  /\ direct_messages st' = direct_messages st ++ [message]
  /\ (exists conversation',
        session_get Conversation.id (conversations st') conversation_id = Some conversation'
        /\ same_conversation conversation conversation'
        /\ Conversation.last_message_at conversation' = Some now).
Proof.
  intros conversation_id Hget Hmem message st'. subst st'.
  unfold send_message. fold conversation_id. rewrite Hget, Hmem. simpl. fold message.
  split; [reflexivity|]. split; [reflexivity|].
  rewrite session_get_update, Hget. simpl.
  destruct (session_get_Some _ _ _ _ Hget) as [_ Hid].
  rewrite Z.eqb_refl. eexists. split; [reflexivity|]. repeat split.
Qed.



Lemma order_by_desc_newest {A : Type} (key : A -> Z) (l : list A) (x : A) :
  (forall y, In y l -> key y < key x) ->
  order_by_desc key (l ++ [x]) = x :: order_by_desc key l.
Proof.
  unfold order_by_desc. induction l as [|y l IH]; intros Hlt; simpl; [reflexivity|].
  rewrite IH by (intros; apply Hlt; now right). simpl.
  assert (E : (key y <? key x) = true) by (apply Z.ltb_lt, Hlt; now left).
  now rewrite E.
Qed.

Lemma limit_cons {A : Type} (n : Z) (x : A) (l : list A) :
  1 <= n -> limit n (x :: l) = x :: limit (n - 1) l.
Proof.
  intros Hn. unfold limit.
  replace (Z.to_nat n) with (S (Z.to_nat (n - 1))) by lia. reflexivity.
Qed.

Lemma join_sender_app (st : Store) (l1 l2 : list DirectMessage.t) :
  join_sender st (l1 ++ l2) = join_sender st l1 ++ join_sender st l2.
Proof. unfold join_sender. apply flat_map_app. Qed.

(** X13: when a participant sends a message at a time later than every
    message of the conversation, and the sender has one user record, a
    participant who then reads the conversation with a limit of at least 1
    gets what reading with one less would have given before, followed by the
    new message, unread, under the sender's display name. *)
Theorem send_then_read (st : Store) (sender_id reader_id : Z)
    (message_data : DirectMessageCreate.t) (now lim : Z)
    (conversation : Conversation.t) (sender : User.t) :
  let conversation_id := DirectMessageCreate.conversation_id message_data in
  session_get Conversation.id (conversations st) conversation_id = Some conversation ->
  is_member sender_id conversation = true ->
  is_member reader_id conversation = true ->
  NoDup (map User.id (users st)) ->
  In sender (users st) ->
  User.id sender = sender_id ->
  (forall m, In m (direct_messages st) ->
     DirectMessage.conversation_id m = conversation_id ->
     DirectMessage.created_at m < now) ->
  1 <= lim ->
  let st' := fst (send_message st sender_id message_data now) in
  get_conversation_messages st' conversation_id reader_id lim
  = get_conversation_messages st conversation_id reader_id (lim - 1)
    ++ [DirectMessageResponse.mk (next_id DirectMessage.id (direct_messages st))
          (User.display_name sender) (DirectMessageCreate.message_text message_data)
          now false].
Proof.
  intros conversation_id Hget Hsender Hreader Hnd Hin Hid Hlate Hlim st'.
  destruct (send_message_effects st sender_id message_data now conversation Hget Hsender)
    as [_ [Hmsgs [conversation' [Hget' [Hsame _]]]]].
  fold conversation_id st' in Hmsgs, Hget'.
  destruct (send_message_frame st sender_id message_data now) as [Husers _].
  fold st' in Husers.
  unfold get_conversation_messages.
  rewrite Hget', Hget, (same_conversation_member _ _ _ Hsame), Hreader. simpl.
  assert (Hrows : conversation_rows st' conversation_id
                  = conversation_rows st conversation_id
                    ++ [(DirectMessage.mk (next_id DirectMessage.id (direct_messages st))
                           conversation_id sender_id
                           (DirectMessageCreate.message_text message_data) now false,
                         sender)]).
  { unfold conversation_rows. rewrite Hmsgs, join_sender_app, filter_app.
    f_equal; [unfold join_sender; now rewrite Husers|].
    unfold join_sender. simpl. rewrite Husers, app_nil_r.
    rewrite (filter_unique User.id _ (users st) sender Hnd Hin).
    - simpl. now rewrite Z.eqb_refl.
    - now apply Z.eqb_eq.
    - intros x _ Hx. apply Z.eqb_eq in Hx. simpl in Hx. congruence. }
  rewrite Hrows, order_by_desc_newest.
  - rewrite limit_cons by assumption. simpl. reflexivity.
  - intros row Hrow. unfold conversation_rows in Hrow. apply filter_In in Hrow.
    destruct Hrow as [Hrow Hc]. apply join_sender_row in Hrow.
    destruct Hrow as [Hm _]. apply Z.eqb_eq in Hc.
    unfold row_created_at. simpl. now apply Hlate.
Qed.

Lemma send_then_read_witness :
  let conversation := Conversation.mk 1 1 2 ACTIVE 10 (Some 11) in
  session_get Conversation.id (conversations st_hello) 1 = Some conversation
  /\ is_member 1 conversation = true
  /\ is_member 2 conversation = true
  /\ NoDup (map User.id (users st_hello))
  /\ In alice (users st_hello)
  /\ User.id alice = 1
  /\ (forall m, In m (direct_messages st_hello) ->
        DirectMessage.conversation_id m = 1 -> DirectMessage.created_at m < 12)
  /\ 1 <= 50
  /\ get_conversation_messages
       (fst (send_message st_hello 1 (DirectMessageCreate.mk 1 "Hi Bob!") 12)) 1 2 50
     = get_conversation_messages st_hello 1 2 (50 - 1)
       ++ [DirectMessageResponse.mk 2 "Alice Smith" "Hi Bob!" 12 false].
Proof.
  intros conversation.
  assert (Hget : session_get Conversation.id (conversations st_hello) 1 = Some conversation)
    by reflexivity.
  assert (H1 : is_member 1 conversation = true) by reflexivity.
  assert (H2 : is_member 2 conversation = true) by reflexivity.
  assert (Hnd : NoDup (map User.id (users st_hello))).
  { constructor; [|constructor; [intros [] | constructor]].
    intros [H | []]. discriminate H. }
  assert (Hin : In alice (users st_hello)) by (now left).
  assert (Hid : User.id alice = 1) by reflexivity.
  assert (Hlate : forall m, In m (direct_messages st_hello) ->
            DirectMessage.conversation_id m = 1 -> DirectMessage.created_at m < 12).
  { intros m [<- | []] _. simpl. lia. }
  assert (Hlim : 1 <= 50) by lia.
  split; [exact Hget|]. split; [exact H1|]. split; [exact H2|]. split; [exact Hnd|].
  split; [exact Hin|]. split; [exact Hid|]. split; [exact Hlate|]. split; [exact Hlim|].
  exact (send_then_read st_hello 1 2 (DirectMessageCreate.mk 1 "Hi Bob!") 12 50
           conversation alice Hget H1 H2 Hnd Hin Hid Hlate Hlim).
Defined.

Lemma filter_map_length {A : Type} (p : A -> bool) (f : A -> A) (l : list A) :
  (forall x, In x l -> p (f x) = p x) ->
  length (filter p (map f l)) = length (filter p l).
Proof.
  induction l as [|x l IH]; intros H; simpl; [reflexivity|].
  rewrite (H x (or_introl eq_refl)).
  destruct (p x); simpl; rewrite IH; auto; intros; apply H; now right.
Qed.

Lemma is_member_iff (user_id : Z) (conversation : Conversation.t) :
  is_member user_id conversation = true
  <-> user_id = Conversation.user1_id conversation
      \/ user_id = Conversation.user2_id conversation.
Proof.
  unfold is_member. simpl. now rewrite orb_false_r, orb_true_iff, !Z.eqb_eq.
Qed.

(** X14: when one participant marks a conversation as read, in a store
    where messages have distinct keys and come from participants, the
    unread count of the other participant for this conversation stays as it
    is, and so do all unread counts of the other conversations. *)
Theorem mark_messages_as_read_for_one_side (st : Store) (conversation_id user_id other_id : Z)
    (conversation : Conversation.t) :
  session_get Conversation.id (conversations st) conversation_id = Some conversation ->
  is_member user_id conversation = true ->
  is_member other_id conversation = true ->
  other_id <> user_id ->
  NoDup (map DirectMessage.id (direct_messages st)) ->
  senders_are_members st ->
  let st' := fst (mark_messages_as_read st conversation_id user_id) in
  length (filter (unread_by conversation_id other_id) (direct_messages st'))
  = length (filter (unread_by conversation_id other_id) (direct_messages st))
  /\ (forall c u, c <> conversation_id ->
        length (filter (unread_by c u) (direct_messages st'))
        = length (filter (unread_by c u) (direct_messages st))).
Proof.
  intros Hget Hu Ho Hne Hnd Hmembers st'. subst st'.
  unfold mark_messages_as_read. rewrite Hget, Hu. simpl.
  rewrite (update_selected DirectMessage.id read) by auto.
  fold (mark_row conversation_id user_id).
  split.
  - apply filter_map_length. intros m Hm. unfold mark_row.
    destruct (unread_by conversation_id user_id m) eqn:E; [|reflexivity].
    unfold unread_by in E. apply andb_true_iff in E. destruct E as [E _].
    apply andb_true_iff in E. destruct E as [Ec Es].
    apply Z.eqb_eq in Ec. apply negb_true_iff, Z.eqb_neq in Es.
    destruct (Hmembers m Hm) as [c [Hc Hmem]]. rewrite Ec, Hget in Hc.
    injection Hc as <-. apply is_member_iff in Hmem, Hu, Ho.
    assert (Hs : DirectMessage.sender_id m = other_id) by lia.
    unfold unread_by. simpl. now rewrite Hs, Z.eqb_refl, !andb_false_r.
  - intros c u Hc. apply filter_map_length. intros m Hm. unfold mark_row.
    destruct (unread_by conversation_id user_id m) eqn:E; [|reflexivity].
    unfold unread_by in E. apply andb_true_iff in E. destruct E as [E _].
    apply andb_true_iff in E. destruct E as [Ec _]. apply Z.eqb_eq in Ec.
    unfold unread_by. simpl.
    assert (En : (DirectMessage.conversation_id m =? c) = false)
      by (apply Z.eqb_neq; congruence).
    now rewrite En.
Qed.

Lemma mark_messages_as_read_for_one_side_witness :
  let conversation := Conversation.mk 1 1 2 ACTIVE 10 (Some 13) in
  session_get Conversation.id (conversations st_chat) 1 = Some conversation
  /\ is_member 2 conversation = true
  /\ is_member 1 conversation = true
  /\ 1 <> 2
  /\ NoDup (map DirectMessage.id (direct_messages st_chat))
  /\ senders_are_members st_chat
  /\ length (filter (unread_by 1 1)
               (direct_messages (fst (mark_messages_as_read st_chat 1 2))))
     = length (filter (unread_by 1 1) (direct_messages st_chat))
  /\ length (filter (unread_by 1 1) (direct_messages st_chat)) = 2%nat
  /\ length (filter (unread_by 1 2)
               (direct_messages (fst (mark_messages_as_read st_chat 1 2)))) = 0%nat.
Proof.
  intros conversation.
  assert (Hget : session_get Conversation.id (conversations st_chat) 1 = Some conversation)
    by reflexivity.
  assert (H2 : is_member 2 conversation = true) by reflexivity.
  assert (H1 : is_member 1 conversation = true) by reflexivity.
  assert (Hne : 1 <> 2) by lia.
  assert (Hnd : NoDup (map DirectMessage.id (direct_messages st_chat)))
    by (apply reachable_inv, reachable_st_chat).
  assert (Hm : senders_are_members st_chat)
    by (apply reachable_social_inv, reachable_st_chat).
  split; [exact Hget|]. split; [exact H2|]. split; [exact H1|]. split; [exact Hne|].
  split; [exact Hnd|]. split; [exact Hm|].
  split; [|split; reflexivity].
  exact (proj1 (mark_messages_as_read_for_one_side st_chat 1 2 1 conversation
                  Hget H2 H1 Hne Hnd Hm)).
Defined.

(** ** Entries *)

Lemma session_get_app_miss {A : Type} (key : A -> Z) (table extra : list A) (k : Z) :
  session_get key table k = None ->
  session_get key (table ++ extra) k = session_get key extra k.
Proof.
  unfold session_get. induction table as [|x t IH]; simpl; [reflexivity|].
  destruct (key x =? k); [discriminate | exact IH].
Qed.

Lemma session_get_fresh {A : Type} (key : A -> Z) (table : list A) (row : A) :
  key row = next_id key table ->
  session_get key (table ++ [row]) (key row) = Some row.
Proof.
  intros Hk. rewrite session_get_app_miss.
  - unfold session_get. simpl. now rewrite Z.eqb_refl.
  - destruct (session_get key table (key row)) as [x|] eqn:E; [|reflexivity].
    apply session_get_Some in E. destruct E as [Hin E].
    apply (next_id_above key) in Hin. lia.
Qed.

Lemma entry_on_slot (user_id entry_date : Z) (e : DailyEntry.t) :
  entry_on user_id entry_date e = true <-> entry_slot e = (user_id, entry_date).
Proof.
  unfold entry_on, entry_slot. rewrite andb_true_iff, !Z.eqb_eq.
  split; [intros [-> ->]; reflexivity | intros H; injection H; auto].
Qed.



Lemma step_entries_unique (st st' : Store) :
  step st st' -> entries_unique st -> entries_unique st'.
Proof.
  intros Hstep Hinv. unfold entries_unique in *. destruct Hstep.
  - unfold create_entry. fold (entry_on user_id entry_date).
    destruct (first (filter (entry_on user_id entry_date) (daily_entries st))) eqn:E;
      [exact Hinv|].
    apply first_filter_None in E. destruct Hinv as [Hids Hslots]. simpl.
    split; apply NoDup_map_snoc; try assumption.
    + apply next_id_fresh.
    + apply (filter_empty_not_in entry_slot _ _ _ E).
      intros x _ Hx. now apply entry_on_slot.
  - unfold update_entry.
    destruct (session_get DailyEntry.id (daily_entries st) entry_id) as [entry|] eqn:Hget;
      [|exact Hinv].
    destruct (negb _); [exact Hinv|]. simpl.
    destruct Hinv as [Hids Hslots].
    destruct (session_get_Some _ _ _ _ Hget) as [Hin _].
    split; [now rewrite session_update_key|].
    now rewrite (session_update_map DailyEntry.id entry_slot _ entry).
  - now destruct (toggle_like_frame st user_id entry_id now) as [_ [-> _]].
  - now destruct (send_contact_request_frame st sender_id request_data now) as [_ [-> _]].
  - now destruct (respond_to_contact_request_frame st request_id recipient_id accept now)
      as [_ [-> _]].
  - now destruct (send_message_frame st sender_id message_data now) as [_ [-> _]].
  - now destruct (mark_messages_as_read_frame st conversation_id user_id) as [_ [-> _]].
Qed.

(** X16: along every run of the services, from a store where the entries
    have distinct keys and every author has at most one entry per date, this
    stays so. *)
Theorem run_entries_unique (st st' : Store) :
  run st st' ->
  entries_unique st ->
  NoDup (map DailyEntry.id (daily_entries st'))
  /\ NoDup (map entry_slot (daily_entries st')).
Proof.
  induction 1 as [|st1 st2 Hrun IH Hstep]; intros Hinv; [exact Hinv|].
  exact (step_entries_unique st1 st2 Hstep (IH Hinv)).
Qed.

Lemma run_entries_unique_witness :
  let st' := fst (create_entry st_accepted 2 1 (DailyEntryCreate.mk "A quiet morning." true)
                    1 20) in
  run st_accepted st'
  /\ entries_unique st_accepted
  /\ NoDup (map DailyEntry.id (daily_entries st'))
  /\ NoDup (map entry_slot (daily_entries st')).
Proof.
  intros st'.
  assert (Hrun : run st_accepted st').
  { apply (run_more _ st_accepted); [apply run_here|].
    exact (step_create_entry st_accepted 2 1 (DailyEntryCreate.mk "A quiet morning." true)
             1 20). }
  assert (Hinv : entries_unique st_accepted).
  { split; (constructor; [intros [] | constructor]). }
  split; [exact Hrun|]. split; [exact Hinv|].
  exact (run_entries_unique st_accepted st' Hrun Hinv).
Defined.

(** X17: [update_entry] by the author answers with the entry under the same
    key, author, image, date and creation time, with the text and the
    sharing flag replaced where the request gives them and [updated_at] set
    to the time of the call; this is what [get_entry_by_id] then finds under
    the key, while every other key finds what it found before.  By anybody
    else, it is refused and the store stays. *)
Theorem update_entry_then_get (st : Store) (entry_id user_id : Z)
    (update_data : DailyEntryUpdate.t) (now : Z) (entry : DailyEntry.t) :
  get_entry_by_id st entry_id = Some entry ->
  (DailyEntry.author_id entry <> user_id ->
   update_entry st entry_id user_id update_data now = (st, None))
  /\ (DailyEntry.author_id entry = user_id ->
      let entry' :=
        DailyEntry.mk entry_id user_id (DailyEntry.wikipedia_image_id entry)
          (DailyEntry.entry_date entry)
          (match DailyEntryUpdate.reflection_text update_data with
           | Some text => text
           | None => DailyEntry.reflection_text entry
           end)
          (match DailyEntryUpdate.is_shared update_data with
           | Some shared => shared
           | None => DailyEntry.is_shared entry
           end)
          (DailyEntry.created_at entry) now in
      let st' := fst (update_entry st entry_id user_id update_data now) in
      snd (update_entry st entry_id user_id update_data now) = Some entry'
      /\ get_entry_by_id st' entry_id = Some entry'
      /\ (forall k, k <> entry_id -> get_entry_by_id st' k = get_entry_by_id st k)
      /\ length (daily_entries st') = length (daily_entries st)).
Proof.
  unfold get_entry_by_id. intros Hget.
  destruct (session_get_Some _ _ _ _ Hget) as [_ Hid].
  unfold update_entry. rewrite Hget. split.
  - intros Hne. apply Z.eqb_neq in Hne. now rewrite Hne.
  - intros Hauthor. rewrite Hauthor, Z.eqb_refl, Hid. simpl.
    split; [reflexivity|]. split; [|split].
    + rewrite session_get_update, Hget. simpl. now rewrite Hid, Z.eqb_refl.
    + intros k Hk. rewrite session_get_update.
      destruct (session_get DailyEntry.id (daily_entries st) k) as [e|] eqn:E; [|reflexivity].
      destruct (session_get_Some _ _ _ _ E) as [_ He]. simpl.
      assert (En : (DailyEntry.id e =? entry_id) = false) by (apply Z.eqb_neq; congruence).
      now rewrite En.
    + unfold session_update. apply length_map.
Qed.

Lemma update_entry_then_get_witness :
  get_entry_by_id st_accepted 1 = Some forest_entry
  /\ update_entry st_accepted 1 2 (DailyEntryUpdate.mk (Some "Mine now"%string) None) 30
     = (st_accepted, None)
  /\ snd (update_entry st_accepted 1 1 (DailyEntryUpdate.mk None (Some false)) 30)
     = Some (DailyEntry.mk 1 1 1 0 "Nature brings me peace and clarity." false 0 30).
Proof.
  assert (Hget : get_entry_by_id st_accepted 1 = Some forest_entry) by reflexivity.
  split; [exact Hget|]. split.
  - apply (proj1 (update_entry_then_get st_accepted 1 2
                    (DailyEntryUpdate.mk (Some "Mine now"%string) None) 30 forest_entry Hget)).
    simpl. lia.
  - apply (proj2 (update_entry_then_get st_accepted 1 1
                    (DailyEntryUpdate.mk None (Some false)) 30 forest_entry Hget)).
    reflexivity.
Defined.

(** X18: once its author has taken an entry back from sharing, every
    [toggle_like] on it is refused, also the one of a user who liked it and
    would now unlike it, and every contact request about it is refused; the
    likes it has stay as they are. *)
Theorem unshared_entry_is_frozen (st st' : Store) (entry_id user_id : Z)
    (text : option string) (now : Z) (entry' : DailyEntry.t) :
  update_entry st entry_id user_id (DailyEntryUpdate.mk text (Some false)) now
    = (st', Some entry') ->
  (forall u t, toggle_like st' u entry_id t = (st', false))
  /\ (forall sender_id recipient_id message t,
        send_contact_request st' sender_id
          (ContactRequestCreate.mk recipient_id entry_id message) t = (st', None))
  /\ reflection_likes st' = reflection_likes st
  /\ get_entry_likes_count st' entry_id = get_entry_likes_count st entry_id.
Proof.
  intros Hupdate.
  assert (Hget : session_get DailyEntry.id (daily_entries st') entry_id = Some entry'
                 /\ DailyEntry.is_shared entry' = false
                 /\ reflection_likes st' = reflection_likes st).
  { revert Hupdate. unfold update_entry.
    destruct (session_get DailyEntry.id (daily_entries st) entry_id) as [entry|] eqn:Hget;
      [|discriminate].
    destruct (negb _); [discriminate|]. simpl. intros H. injection H as <- <-. simpl.
    destruct (session_get_Some _ _ _ _ Hget) as [_ Hid].
    rewrite session_get_update, Hget. simpl. now rewrite Z.eqb_refl. }
  destruct Hget as [Hget [Hshared Hlikes]].
  split; [|split; [|split]].
  - intros u t. apply toggle_like_refused. now rewrite Hget, Hshared.
  - intros sender_id recipient_id message t. unfold send_contact_request. simpl.
    now rewrite Hget, Hshared.
  - exact Hlikes.
  - unfold get_entry_likes_count. now rewrite Hlikes.
Qed.

Lemma unshared_entry_is_frozen_witness :
  let entry' := DailyEntry.mk 1 1 1 0 "Nature brings me peace and clarity." false 0 30 in
  let st' := fst (update_entry st_liked 1 1 (DailyEntryUpdate.mk None (Some false)) 30) in
  update_entry st_liked 1 1 (DailyEntryUpdate.mk None (Some false)) 30 = (st', Some entry')
  /\ user_has_liked_entry st' 2 1 = true
  /\ (forall u t, toggle_like st' u 1 t = (st', false)).
Proof.
  intros entry' st'.
  assert (H : update_entry st_liked 1 1 (DailyEntryUpdate.mk None (Some false)) 30
              = (st', Some entry')) by reflexivity.
  split; [exact H|]. split; [reflexivity|].
  exact (proj1 (unshared_entry_is_frozen st_liked st' 1 1 None 30 entry' H)).
Defined.

(** ** The feeds *)

Lemma StronglySorted_map {A B : Type} (R : B -> B -> Prop) (f : A -> B) (l : list A) :
  StronglySorted (fun a b => R (f a) (f b)) l -> StronglySorted R (map f l).
Proof.
  induction 1 as [|x l Hs IH Hall]; simpl; constructor; [assumption|].
  apply Forall_forall. intros y Hy. apply in_map_iff in Hy. destruct Hy as [z [<- Hz]].
  now apply (proj1 (Forall_forall _ _) Hall).
Qed.

Lemma StronglySorted_page {A : Type} (R : A -> A -> Prop) (n k : nat) (l : list A) :
  StronglySorted R l -> StronglySorted R (firstn n (skipn k l)).
Proof.
  intros Hs. rewrite <- (firstn_skipn k l) in Hs.
  apply StronglySorted_app_inv in Hs. destruct Hs as [_ [Hs _]].
  rewrite <- (firstn_skipn n (skipn k l)) in Hs.
  now apply StronglySorted_app_inv in Hs.
Qed.

Lemma join_entries_row (st : Store) (images : list WikipediaImage.t)
    (row : DailyEntry.t * User.t * WikipediaImage.t) :
  In row (join_entries st images) -> joined_right st images row.
Proof.
  unfold join_entries. intros H. apply in_flat_map in H. destruct H as [e [He H]].
  apply in_flat_map in H. destruct H as [u [Hu H]].
  apply in_map_iff in H. destruct H as [i [<- Hi]].
  apply filter_In in Hu, Hi. destruct Hu as [Hu Eu], Hi as [Hi Ei].
  apply Z.eqb_eq in Eu, Ei. simpl. auto.
Qed.

(** With the keys of the schema the join keeps every entry, once. *)
Lemma join_entries_all (st : Store) (images : list WikipediaImage.t)
    (p : DailyEntry.t -> bool) :
  entries_joinable st images ->
  map joined_entry (filter (fun row => p (joined_entry row)) (join_entries st images))
  = filter p (daily_entries st).
Proof.
  intros [Husers [Himages Hfk]]. unfold join_entries.
  induction (daily_entries st) as [|e t IH]; [reflexivity|].
  cbn [flat_map]. rewrite filter_app, map_app, IH by (intros; apply Hfk; now right).
  destruct (Hfk e (or_introl eq_refl)) as [Hu Hi].
  apply in_map_iff in Hu, Hi. destruct Hu as [u [Eu Hu]], Hi as [i [Ei Hi]].
  rewrite (filter_unique User.id _ (users st) u Husers Hu);
    [|now apply Z.eqb_eq | intros x _ Hx; apply Z.eqb_eq in Hx; congruence].
  cbn [flat_map]. rewrite app_nil_r.
  rewrite (filter_unique WikipediaImage.id _ images i Himages Hi);
    [|now apply Z.eqb_eq | intros x _ Hx; apply Z.eqb_eq in Hx; congruence].
  simpl. unfold joined_entry. simpl. now destruct (p e).
Qed.

Lemma feed_rows (st : Store) (images : list WikipediaImage.t) (p : DailyEntry.t -> bool)
    (key : DailyEntry.t -> Z) :
  let rows := order_by_desc (fun row => key (joined_entry row))
                (filter (fun row => p (joined_entry row)) (join_entries st images)) in
  StronglySorted (fun a b => key (joined_entry b) <= key (joined_entry a)) rows
  /\ (forall row, In row rows -> joined_right st images row /\ p (joined_entry row) = true)
  /\ (entries_joinable st images ->
      Permutation (map joined_entry rows) (filter p (daily_entries st))).
Proof.
  intros rows. split; [apply order_by_desc_sorted|]. split.
  - intros row Hrow. apply (Permutation_in _ (order_by_desc_perm _ _)) in Hrow.
    apply filter_In in Hrow. destruct Hrow as [Hrow Hp].
    split; [now apply join_entries_row | assumption].
  - intros Hkeys. rewrite <- (join_entries_all st images p Hkeys).
    apply Permutation_map, order_by_desc_perm.
Qed.

(** X19: [get_shared_entries] answers with a page of the shared entries,
    the most recently created first: the rows it pages through are joined
    with the author and the image of each entry, hold shared entries only
    and, with the keys of the schema, every shared entry once; the answer
    has at most [limit] items, after the first [offset], and each item shows
    the like count of its entry. *)
Theorem get_shared_entries_page (st : Store) (images : list WikipediaImage.t)
    (lim offset : Z) :
  0 <= lim -> 0 <= offset ->
  exists rows,
    get_shared_entries st images lim offset
    = map (entry_response st) (firstn (Z.to_nat lim) (skipn (Z.to_nat offset) rows))
    /\ StronglySorted
         (fun a b => DailyEntry.created_at (joined_entry b)
                     <= DailyEntry.created_at (joined_entry a)) rows
    /\ (forall row, In row rows ->
          joined_right st images row /\ DailyEntry.is_shared (joined_entry row) = true)
    /\ (entries_joinable st images ->
        Permutation (map joined_entry rows) (filter DailyEntry.is_shared (daily_entries st)))
    /\ (length (get_shared_entries st images lim offset) <= Z.to_nat lim)%nat
    /\ Forall (fun r => DailyEntryResponse.is_shared r = true
                        /\ DailyEntryResponse.likes_count r
                           = get_entry_likes_count st (DailyEntryResponse.id r))
              (get_shared_entries st images lim offset)
    /\ StronglySorted
         (fun a b => DailyEntryResponse.created_at b <= DailyEntryResponse.created_at a)
         (get_shared_entries st images lim offset).
Proof.
  intros _ _.
  destruct (feed_rows st images DailyEntry.is_shared DailyEntry.created_at)
    as [Hsorted [Hrows Hperm]].
  eexists. split; [reflexivity|].
  split; [exact Hsorted|]. split; [exact Hrows|]. split; [exact Hperm|].
  unfold get_shared_entries, limit. split; [|split].
  - rewrite length_map. apply firstn_le_length.
  - apply Forall_forall. intros r Hr. apply in_map_iff in Hr.
    destruct Hr as [row [<- Hrow]].
    assert (Hin : In row (order_by_desc
                            (fun row => DailyEntry.created_at (joined_entry row))
                            (filter (fun row => DailyEntry.is_shared (joined_entry row))
                                    (join_entries st images)))).
    { match type of Hrow with
      | In _ (firstn ?n (skipn ?k ?l)) =>
          rewrite <- (firstn_skipn k l); apply in_or_app; right;
          rewrite <- (firstn_skipn n (skipn k l)); apply in_or_app; now left
      end. }
    destruct (Hrows row Hin) as [_ Hshared].
    destruct row as [[e u] i]. simpl. split; [exact Hshared | reflexivity].
  - apply StronglySorted_map.
    apply StronglySorted_page.
    eapply StronglySorted_ind with (P := StronglySorted _); [constructor | | exact Hsorted].
    intros row l Hs IH Hall. constructor; [exact IH|].
    apply Forall_forall. intros y Hy. pose proof (proj1 (Forall_forall _ _) Hall y Hy) as H.
    destruct row as [[e u] i], y as [[e' u'] i']. exact H.
Qed.

Lemma get_shared_entries_page_witness :
  0 <= 20 /\ 0 <= 0
  /\ get_shared_entries st_second_accepted [forest_image] 20 0
     = [ DailyEntryResponse.mk 2 1 "A quiet morning." true "Bob Johnson" "Beautiful Forest"
           "https://example.com/forest.jpg" 1 20;
         DailyEntryResponse.mk 1 0 "Nature brings me peace and clarity." true "Alice Smith"
           "Beautiful Forest" "https://example.com/forest.jpg" 1 0 ]
  /\ (length (get_shared_entries st_second_accepted [forest_image] 20 0) <= Z.to_nat 20)%nat.
Proof.
  assert (H1 : 0 <= 20) by lia. assert (H2 : 0 <= 0) by lia.
  split; [exact H1|]. split; [exact H2|]. split; [reflexivity|].
  destruct (get_shared_entries_page st_second_accepted [forest_image] 20 0 H1 H2)
    as [rows [_ [_ [_ [_ [Hlen _]]]]]].
  exact Hlen.
Defined.

(** X20: [get_user_entries_history] answers with the entries of the user,
    shared or not, the latest date first: the rows it takes the first
    [limit] of are joined with the author and the image of each entry, hold
    entries of the user only and, with the keys of the schema, every entry
    of the user once; each item shows the like count of its entry. *)
Theorem get_user_entries_history_page (st : Store) (images : list WikipediaImage.t)
    (user_id lim : Z) :
  0 <= lim ->
  exists rows,
    get_user_entries_history st images user_id lim
    = map (entry_response st) (firstn (Z.to_nat lim) rows)
    /\ StronglySorted
         (fun a b => DailyEntry.entry_date (joined_entry b)
                     <= DailyEntry.entry_date (joined_entry a)) rows
    /\ (forall row, In row rows ->
          joined_right st images row /\ DailyEntry.author_id (joined_entry row) = user_id)
    /\ (entries_joinable st images ->
        Permutation (map joined_entry rows)
          (filter (fun e => DailyEntry.author_id e =? user_id) (daily_entries st)))
    /\ (length (get_user_entries_history st images user_id lim) <= Z.to_nat lim)%nat
    /\ Forall (fun r => DailyEntryResponse.likes_count r
                        = get_entry_likes_count st (DailyEntryResponse.id r))
              (get_user_entries_history st images user_id lim).
Proof.
  intros _.
  destruct (feed_rows st images (fun e => DailyEntry.author_id e =? user_id)
              DailyEntry.entry_date) as [Hsorted [Hrows Hperm]].
  eexists. split; [reflexivity|].
  split; [exact Hsorted|]. split; [|split; [exact Hperm|]].
  - intros row Hrow. destruct (Hrows row Hrow) as [Hj Hp].
    split; [assumption | now apply Z.eqb_eq].
  - unfold get_user_entries_history, limit. split.
    + rewrite length_map. apply firstn_le_length.
    + apply Forall_forall. intros r Hr. apply in_map_iff in Hr.
      destruct Hr as [[[e u] i] [<- _]]. reflexivity.
Qed.

Lemma get_user_entries_history_page_witness :
  0 <= 50
  /\ get_user_entries_history st_second_accepted [forest_image] 2 50
     = [ DailyEntryResponse.mk 2 1 "A quiet morning." true "Bob Johnson" "Beautiful Forest"
           "https://example.com/forest.jpg" 1 20 ]
  /\ (length (get_user_entries_history st_second_accepted [forest_image] 2 50)
      <= Z.to_nat 50)%nat.
Proof.
  assert (H1 : 0 <= 50) by lia.
  split; [exact H1|]. split; [reflexivity|].
  destruct (get_user_entries_history_page st_second_accepted [forest_image] 2 50 H1)
    as [rows [_ [_ [_ [_ [Hlen _]]]]]].
  exact Hlen.
Defined.

(** ** The daily images *)

(** X21: [store_daily_image] answers with an image of the date of the
    request, the stored one when there is one; afterwards
    [get_or_fetch_daily_image] finds that image for the date, storing again
    for the date answers with the same image and changes nothing, the other
    dates find what they found before, and distinct keys and distinct dates
    stay distinct. *)
Theorem store_daily_image_once (images : list WikipediaImage.t)
    (image_data : WikipediaImageCreate.t) (now : Z) :
  let images1 := fst (store_daily_image images image_data now) in
  let target_date := WikipediaImageCreate.date image_data in
  exists image,
    snd (store_daily_image images image_data now) = Some image
    /\ WikipediaImage.image_date image = target_date
    /\ get_or_fetch_daily_image images1 target_date = Some image
    /\ (forall image_data' now',
          WikipediaImageCreate.date image_data' = target_date ->
          store_daily_image images1 image_data' now' = (images1, Some image))
    /\ (forall d, d <> target_date ->
          get_or_fetch_daily_image images1 d = get_or_fetch_daily_image images d)
    /\ (get_or_fetch_daily_image images target_date = None ->
        images1 = images ++ [image]
        /\ image = WikipediaImage.mk (next_id WikipediaImage.id images) target_date
                     (WikipediaImageCreate.title image_data)
                     (WikipediaImageCreate.description image_data)
                     (WikipediaImageCreate.image_url image_data)
                     (WikipediaImageCreate.wikipedia_url image_data) now)
    /\ (NoDup (map WikipediaImage.id images) ->
        NoDup (map WikipediaImage.image_date images) ->
        NoDup (map WikipediaImage.id images1)
        /\ NoDup (map WikipediaImage.image_date images1)).
Proof.
  intros images1 target_date. subst images1.
  unfold store_daily_image, get_or_fetch_daily_image. fold target_date.
  destruct (first (filter (image_on target_date) images)) as [existing|] eqn:E; simpl.
  - destruct (first_filter_Some _ _ _ E) as [Hin Hd]. apply Z.eqb_eq in Hd.
    exists existing. split; [reflexivity|]. split; [assumption|]. split; [assumption|].
    split; [intros d' now' ->; now rewrite E|].
    split; [reflexivity|]. split; [discriminate | auto].
  - apply first_filter_None in E.
    eexists. split; [reflexivity|]. split; [reflexivity|].
    assert (Hfound : first (filter (image_on target_date)
                       (images ++ [WikipediaImage.mk (next_id WikipediaImage.id images)
                          target_date (WikipediaImageCreate.title image_data)
                          (WikipediaImageCreate.description image_data)
                          (WikipediaImageCreate.image_url image_data)
                          (WikipediaImageCreate.wikipedia_url image_data) now]))
                     = Some (WikipediaImage.mk (next_id WikipediaImage.id images)
                          target_date (WikipediaImageCreate.title image_data)
                          (WikipediaImageCreate.description image_data)
                          (WikipediaImageCreate.image_url image_data)
                          (WikipediaImageCreate.wikipedia_url image_data) now)).
    { rewrite filter_app, E. simpl. unfold image_on at 1. simpl. now rewrite Z.eqb_refl. }
    split; [exact Hfound|].
    split; [intros d' now' ->; now rewrite Hfound|].
    split; [|split; [now split|]].
    + intros d Hd. rewrite filter_app. simpl. unfold image_on at 2. simpl.
      apply not_eq_sym, Z.eqb_neq in Hd. rewrite Hd. now rewrite app_nil_r.
    + intros Hids Hdates. split; apply NoDup_map_snoc; try assumption.
      * apply next_id_fresh.
      * apply (filter_empty_not_in WikipediaImage.image_date _ _ _ E).
        intros x _ Hx. now apply Z.eqb_eq.
Qed.

(** ** Accounts *)

Lemma split_colon_free (s : string) : colon_free s = true -> split colon s = [s].
Proof.
  induction s as [|c s IH]; simpl; [reflexivity|].
  intros H. apply andb_true_iff in H. destruct H as [Hc Hs].
  apply negb_true_iff in Hc. now rewrite Hc, (IH Hs).
Qed.

Lemma split_joined (a b : string) :
  colon_free a = true -> colon_free b = true ->
  split colon (String.append a (String colon b)) = [a; b].
Proof.
  intros Ha Hb. induction a as [|c a IH]; simpl.
  - try rewrite Ascii.eqb_refl. now rewrite (split_colon_free b Hb).
  - simpl in Ha. apply andb_true_iff in Ha. destruct Ha as [Hc Ha].
    apply negb_true_iff in Hc. now rewrite Hc, (IH Ha).
Qed.

Section Accounts.

Variable pbkdf2_hex : string -> string -> string.

Lemma verify_hashed (salt password password' : string) :
  colon_free salt = true ->
  colon_free (pbkdf2_hex password salt) = true ->
  verify_password pbkdf2_hex password' (hash_password pbkdf2_hex salt password)
  = String.eqb (pbkdf2_hex password salt) (pbkdf2_hex password' salt).
Proof.
  intros Hs Hd. unfold verify_password, hash_password. now rewrite (split_joined _ _ Hs Hd).
Qed.

(** X22: a password verifies against the hash that [hash_password] made of
    it, when the salt and the digest hold no colon, as hexadecimal strings
    do; another password verifies exactly when its digest under the salt is
    the same; and a stored hash without a colon verifies no password. *)
Theorem verify_password_of_hash (salt password : string) :
  colon_free salt = true ->
  colon_free (pbkdf2_hex password salt) = true ->
  verify_password pbkdf2_hex password (hash_password pbkdf2_hex salt password) = true
  /\ (forall password',
        verify_password pbkdf2_hex password' (hash_password pbkdf2_hex salt password) = true
        <-> pbkdf2_hex password' salt = pbkdf2_hex password salt)
  /\ (forall password' stored,
        colon_free stored = true -> verify_password pbkdf2_hex password' stored = false).
Proof.
  intros Hs Hd. split; [|split].
  - rewrite verify_hashed by assumption. apply String.eqb_refl.
  - intros password'. rewrite verify_hashed by assumption.
    rewrite String.eqb_eq. split; congruence.
  - intros password' stored Hfree. unfold verify_password.
    now rewrite (split_colon_free stored Hfree).
Qed.

End Accounts.

Lemma verify_password_of_hash_witness :
  colon_free "a1b2c3" = true
  /\ colon_free (toy_digest "password123" "a1b2c3") = true
  /\ hash_password toy_digest "a1b2c3" "password123" = "a1b2c3:5e884898da28"%string
  /\ verify_password toy_digest "password123" (hash_password toy_digest "a1b2c3" "password123")
     = true.
Proof.
  assert (H1 : colon_free "a1b2c3" = true) by reflexivity.
  assert (H2 : colon_free (toy_digest "password123" "a1b2c3") = true) by reflexivity.
  split; [exact H1|]. split; [exact H2|]. split; [reflexivity|].
  exact (proj1 (verify_password_of_hash toy_digest "a1b2c3" "password123" H1 H2)).
Defined.

Section Registration.

Variable pbkdf2_hex : string -> string -> string.

Lemma taken_false (user_data : UserCreate.t) (table : list User.t) :
  filter (taken user_data) table = [] ->
  ~ In (UserCreate.username user_data) (map User.username table)
  /\ ~ In (UserCreate.email user_data) (map User.email table).
Proof.
  intros E. split.
  - apply (filter_empty_not_in User.username _ _ _ E).
    intros x _ Hx. unfold taken. rewrite Hx, String.eqb_refl. reflexivity.
  - apply (filter_empty_not_in User.email _ _ _ E).
    intros x _ Hx. unfold taken. rewrite Hx, String.eqb_refl. apply orb_true_r.
Qed.

Lemma create_user_stored (st st1 : Store) (user_data : UserCreate.t) (salt : string)
    (now : Z) (user : User.t) :
  create_user pbkdf2_hex st user_data salt now = (st1, Some user) ->
  user = User.mk (next_id User.id (users st)) (UserCreate.username user_data)
           (UserCreate.email user_data)
           (hash_password pbkdf2_hex salt (UserCreate.password user_data))
           (UserCreate.display_name user_data) true now None
  /\ users st1 = users st ++ [user]
  /\ get_user_by_id st1 (User.id user) = Some user
  /\ get_user_by_username st1 (UserCreate.username user_data) = Some user
  /\ (forall k u, get_user_by_id st k = Some u -> get_user_by_id st1 k = Some u).
Proof.
  unfold create_user.
  destruct (first (filter (taken user_data) (users st))) as [existing|] eqn:E;
    [discriminate|].
  apply first_filter_None in E. destruct (taken_false _ _ E) as [Hname _].
  intros H. injection H as <- <-.
  unfold get_user_by_id, get_user_by_username. simpl.
  split; [reflexivity|]. split; [reflexivity|]. split; [|split].
  - now apply (session_get_fresh User.id).
  - rewrite filter_app. simpl. unfold named at 2. simpl. rewrite String.eqb_refl.
    assert (Hnone : filter (named (UserCreate.username user_data)) (users st) = []).
    { destruct (filter (named (UserCreate.username user_data)) (users st))
        as [|x t] eqn:Ex; [reflexivity|]. exfalso.
      assert (Hx : In x (filter (named (UserCreate.username user_data)) (users st)))
        by (rewrite Ex; now left).
      apply filter_In in Hx. destruct Hx as [Hx Hn]. apply String.eqb_eq in Hn.
      apply Hname. rewrite <- Hn. now apply in_map. }
    now rewrite Hnone.
  - intros k u. apply session_get_app.
Qed.

(** X23: [create_user] refuses a request whose username or whose email a
    stored user has, and leaves the store; otherwise it stores the new
    user, active and never logged in, at the end of the table, and this is
    the user that [get_user_by_id] and [get_user_by_username] then find;
    the users that were there are still found under their keys; and keys,
    usernames and emails that were distinct stay distinct. *)
Theorem create_user_registers (st : Store) (user_data : UserCreate.t) (salt : string)
    (now : Z) :
  let st1 := fst (create_user pbkdf2_hex st user_data salt now) in
  (forall u, In u (users st) ->
     User.username u = UserCreate.username user_data
     \/ User.email u = UserCreate.email user_data ->
     create_user pbkdf2_hex st user_data salt now = (st, None))
  /\ ((forall u, In u (users st) ->
         User.username u <> UserCreate.username user_data
         /\ User.email u <> UserCreate.email user_data) ->
      exists user, snd (create_user pbkdf2_hex st user_data salt now) = Some user)
  /\ (forall user,
        snd (create_user pbkdf2_hex st user_data salt now) = Some user ->
        user = User.mk (next_id User.id (users st)) (UserCreate.username user_data)
                 (UserCreate.email user_data)
                 (hash_password pbkdf2_hex salt (UserCreate.password user_data))
                 (UserCreate.display_name user_data) true now None
        /\ users st1 = users st ++ [user]
        /\ get_user_by_id st1 (User.id user) = Some user
        /\ get_user_by_username st1 (UserCreate.username user_data) = Some user
        /\ (forall k u, get_user_by_id st k = Some u -> get_user_by_id st1 k = Some u))
  /\ (users_unique st -> users_unique st1).
Proof.
  intros st1. split; [|split; [|split]].
  - intros u Hin Hu. unfold create_user.
    destruct (first (filter (taken user_data) (users st))) as [existing|] eqn:E;
      [reflexivity|].
    apply first_filter_None in E. destruct (taken_false _ _ E) as [Hname Hemail].
    destruct Hu as [Hu | Hu]; exfalso.
    + apply Hname. rewrite <- Hu. now apply in_map.
    + apply Hemail. rewrite <- Hu. now apply in_map.
  - intros Hfree. unfold create_user.
    destruct (first (filter (taken user_data) (users st))) as [existing|] eqn:E.
    + exfalso. destruct (first_filter_Some _ _ _ E) as [Hin Ht].
      destruct (Hfree existing Hin) as [Hn He]. unfold taken in Ht.
      apply orb_true_iff in Ht. rewrite !String.eqb_eq in Ht. tauto.
    + simpl. eexists. reflexivity.
  - intros user Huser. apply (create_user_stored st st1 user_data salt now user).
    subst st1. rewrite <- Huser. now destruct (create_user pbkdf2_hex st user_data salt now).
  - subst st1. unfold create_user.
    destruct (first (filter (taken user_data) (users st))) as [existing|] eqn:E; [auto|].
    apply first_filter_None in E. destruct (taken_false _ _ E) as [Hname Hemail].
    intros [Hids [Hnames Hemails]]. unfold users_unique. simpl.
    repeat split; apply NoDup_map_snoc; try assumption. apply next_id_fresh.
Qed.

(** X24: a user who has registered can log in: after [create_user] has
    answered with a user, [authenticate_user] with the username and the
    password of the registration, the salt and the digest holding no colon,
    answers with that user, [last_login] set to the time of the login, and
    stores it under the same key; with a password whose digest under the
    salt differs, it answers with nothing and leaves the store. *)
Theorem register_then_login (st st1 : Store) (user_data : UserCreate.t) (salt : string)
    (now now' : Z) (user : User.t) :
  create_user pbkdf2_hex st user_data salt now = (st1, Some user) ->
  colon_free salt = true ->
  colon_free (pbkdf2_hex (UserCreate.password user_data) salt) = true ->
  let login := UserLogin.mk (UserCreate.username user_data) (UserCreate.password user_data) in
  let user' := User.mk (User.id user) (User.username user) (User.email user)
                 (User.password_hash user) (User.display_name user) (User.is_active user)
                 (User.created_at user) (Some now') in
  snd (authenticate_user pbkdf2_hex st1 login now') = Some user'
  /\ get_user_by_id (fst (authenticate_user pbkdf2_hex st1 login now')) (User.id user)
     = Some user'
  /\ (forall password',
        pbkdf2_hex password' salt <> pbkdf2_hex (UserCreate.password user_data) salt ->
        authenticate_user pbkdf2_hex st1
          (UserLogin.mk (UserCreate.username user_data) password') now' = (st1, None)).
Proof.
  intros Hcreate Hsalt Hdigest login user'.
  destruct (create_user_stored st st1 user_data salt now user Hcreate)
    as [Huser [_ [Hbyid [Hbyname _]]]].
  unfold get_user_by_username in Hbyname. unfold get_user_by_id in Hbyid.
  assert (Hhash : User.password_hash user
                  = hash_password pbkdf2_hex salt (UserCreate.password user_data))
    by (rewrite Huser; reflexivity).
  assert (Hverify : forall password',
            verify_password pbkdf2_hex password' (User.password_hash user)
            = String.eqb (pbkdf2_hex (UserCreate.password user_data) salt)
                (pbkdf2_hex password' salt))
    by (intros; rewrite Hhash; now apply verify_hashed).
  unfold authenticate_user. simpl. rewrite Hbyname.
  split; [|split].
  - rewrite Hverify, String.eqb_refl. reflexivity.
  - rewrite Hverify, String.eqb_refl. simpl.
    unfold get_user_by_id. simpl. rewrite session_get_update, Hbyid. simpl.
    now rewrite Z.eqb_refl.
  - intros password' Hne. rewrite Hverify.
    assert (E : String.eqb (pbkdf2_hex (UserCreate.password user_data) salt)
                  (pbkdf2_hex password' salt) = false)
      by (apply String.eqb_neq; congruence).
    now rewrite E.
Qed.

(** X25: [authenticate_user] answers with nothing for a username that no
    user has, and the store stays; whatever it answers, with distinct user
    keys it leaves key, username, email, password hash and display name of
    every user, and every table but [users], as they are. *)
Theorem authenticate_user_keeps_accounts (st : Store) (login_data : UserLogin.t) (now : Z) :
  let st' := fst (authenticate_user pbkdf2_hex st login_data now) in
  (get_user_by_username st (UserLogin.username login_data) = None ->
   authenticate_user pbkdf2_hex st login_data now = (st, None))
  /\ (snd (authenticate_user pbkdf2_hex st login_data now) = None -> st' = st)
  /\ (NoDup (map User.id (users st)) -> map account (users st') = map account (users st))
  /\ daily_entries st' = daily_entries st
  /\ reflection_likes st' = reflection_likes st
  /\ contact_requests st' = contact_requests st
  /\ conversations st' = conversations st
  /\ direct_messages st' = direct_messages st.
Proof.
  intros st'. subst st'. unfold authenticate_user, get_user_by_username.
  destruct (first (filter (named (UserLogin.username login_data)) (users st)))
    as [user|] eqn:E.
  - split; [discriminate|].
    destruct (negb (verify_password pbkdf2_hex (UserLogin.password login_data)
                      (User.password_hash user))); simpl.
    + repeat split; reflexivity.
    + split; [discriminate|]. split; [|repeat split; reflexivity].
      intros Hnd. destruct (first_filter_Some _ _ _ E) as [Hin _].
      now apply (session_update_map User.id account _ user).
  - simpl. repeat split; reflexivity.
Qed.

End Registration.

Lemma register_then_login_witness :
  let st1 := fst (create_user toy_digest st_alice_only bob_account "a1b2c3" 3) in
  let user := User.mk 2 "bob" "bob@example.com" "a1b2c3:5e884898da28" "Bob Johnson" true 3 None in
  create_user toy_digest st_alice_only bob_account "a1b2c3" 3 = (st1, Some user)
  /\ colon_free "a1b2c3" = true
  /\ colon_free (toy_digest (UserCreate.password bob_account) "a1b2c3") = true
  /\ snd (authenticate_user toy_digest st1 (UserLogin.mk "bob" "password123") 4)
     = Some (User.mk 2 "bob" "bob@example.com" "a1b2c3:5e884898da28" "Bob Johnson" true 3
               (Some 4))
  /\ authenticate_user toy_digest st1 (UserLogin.mk "bob" "letmein") 4 = (st1, None).
Proof.
  intros st1 user.
  assert (H : create_user toy_digest st_alice_only bob_account "a1b2c3" 3 = (st1, Some user))
    by reflexivity.
  assert (H1 : colon_free "a1b2c3" = true) by reflexivity.
  assert (H2 : colon_free (toy_digest (UserCreate.password bob_account) "a1b2c3") = true)
    by reflexivity.
  pose proof (register_then_login toy_digest st_alice_only st1 bob_account "a1b2c3" 3 4 user
                H H1 H2) as P.
  split; [exact H|]. split; [exact H1|]. split; [exact H2|].
  split; [exact (proj1 P)|].
  apply (proj2 (proj2 P) "letmein"%string). discriminate.
Defined.

(** ** From the accepted request to the first message *)

(** X26: once the recipient has accepted a request, the conversation
    between sender and recipient takes messages from both of them and from
    nobody else: [send_message] into it answers with the message for the
    sender and for the recipient, and with nothing, leaving the store, for
    every other user. *)
Theorem accept_enables_messaging (st : Store) (request_id recipient_id now : Z)
    (request : ContactRequest.t) :
  conversations_ok (conversations st) ->
  session_get ContactRequest.id (contact_requests st) request_id = Some request ->
  ContactRequest.recipient_id request = recipient_id ->
  let sender_id := ContactRequest.sender_id request in
  let st' := fst (respond_to_contact_request st request_id recipient_id true now) in
  exists c,
    In c (conversations st')
    /\ between sender_id recipient_id c = true
    /\ (forall user_id text t,
          user_id = sender_id \/ user_id = recipient_id ->
          snd (send_message st' user_id (DirectMessageCreate.mk (Conversation.id c) text) t)
          = Some (DirectMessage.mk (next_id DirectMessage.id (direct_messages st'))
                    (Conversation.id c) user_id text t false))
    /\ (forall user_id text t,
          user_id <> sender_id -> user_id <> recipient_id ->
          send_message st' user_id (DirectMessageCreate.mk (Conversation.id c) text) t
          = (st', None)).
Proof.
  intros Hok Hget Hrcp sender_id st'. subst st'.
  unfold respond_to_contact_request. rewrite Hget, Hrcp, Z.eqb_refl. simpl.
  match goal with
  | |- context [_create_conversation ?s _ _ _] => set (st1 := s)
  end.
  fold sender_id.
  destruct (create_conversation_ok st1 sender_id recipient_id now Hok)
    as [c [Hcreate [H1 [H2 [Hone [Hids _]]]]]].
  rewrite Hcreate.
  set (table := if existsb (between sender_id recipient_id) (conversations st1)
                then conversations st1 else conversations st1 ++ [c]) in *.
  cbn [fst set_conversations conversations].
  assert (Hc : In c (filter (between sender_id recipient_id) table))
    by (rewrite Hone; now left).
  apply filter_In in Hc. destruct Hc as [Hin Hbetween].
  pose proof (session_get_In Conversation.id table c Hids Hin) as Hfound.
  exists c. split; [exact Hin|]. split; [exact Hbetween|]. split.
  - intros user_id text t Hu. unfold send_message.
    change (conversations (set_conversations st1 table)) with table.
    cbn [DirectMessageCreate.conversation_id]. rewrite Hfound.
    assert (Hmem : is_member user_id c = true) by (apply is_member_iff; lia).
    now rewrite Hmem.
  - intros user_id text t Hs Hr. unfold send_message.
    change (conversations (set_conversations st1 table)) with table.
    cbn [DirectMessageCreate.conversation_id]. rewrite Hfound.
    assert (Hmem : is_member user_id c = false).
    { destruct (is_member user_id c) eqn:E; [|reflexivity].
      apply is_member_iff in E. lia. }
    now rewrite Hmem.
Qed.

Lemma accept_enables_messaging_witness :
  let request := ContactRequest.mk 1 2 1 1 "Hello!" PENDING 6 None in
  conversations_ok (conversations st_requested)
  /\ session_get ContactRequest.id (contact_requests st_requested) 1 = Some request
  /\ ContactRequest.recipient_id request = 1
  /\ snd (send_message st_accepted 2 (DirectMessageCreate.mk 1 "Hello Alice!") 11)
     = Some (DirectMessage.mk 1 1 2 "Hello Alice!" 11 false)
  /\ exists c,
       In c (conversations st_accepted)
       /\ between 2 1 c = true
       /\ (forall user_id text t,
             user_id = 2 \/ user_id = 1 ->
             snd (send_message st_accepted user_id
                    (DirectMessageCreate.mk (Conversation.id c) text) t)
             = Some (DirectMessage.mk (next_id DirectMessage.id (direct_messages st_accepted))
                       (Conversation.id c) user_id text t false))
       /\ (forall user_id text t,
             user_id <> 2 -> user_id <> 1 ->
             send_message st_accepted user_id
               (DirectMessageCreate.mk (Conversation.id c) text) t
             = (st_accepted, None)).
Proof.
  intros request.
  assert (Hok : conversations_ok (conversations st_requested)).
  { repeat split; constructor. }
  assert (Hget : session_get ContactRequest.id (contact_requests st_requested) 1 = Some request)
    by reflexivity.
  assert (Hrcp : ContactRequest.recipient_id request = 1) by reflexivity.
  split; [exact Hok|]. split; [exact Hget|]. split; [exact Hrcp|]. split; [reflexivity|].
  exact (accept_enables_messaging st_requested 1 1 10 request Hok Hget Hrcp).
Defined.

(** X27: a step of the engine brings no conversation out of nothing: a
    conversation stored after a step was stored before it, with the same
    key and participants, or the step was the acceptance of a stored
    request, the request is stored as accepted afterwards, and the
    conversation is between its sender and its recipient, the lower id
    first.  A declined request opens nothing. *)
Theorem conversations_come_from_acceptance (st st' : Store) (c' : Conversation.t) :
  step st st' ->
  conversations_ok (conversations st) ->
  In c' (conversations st') ->
  ((exists c, In c (conversations st) /\ same_conversation c c')
   \/ (exists request r',
         In request (contact_requests st)
         /\ In r' (contact_requests st')
         /\ ContactRequest.id r' = ContactRequest.id request
         /\ ContactRequest.sender_id r' = ContactRequest.sender_id request
         /\ ContactRequest.recipient_id r' = ContactRequest.recipient_id request
         /\ ContactRequest.status r' = ACCEPTED
         /\ Conversation.user1_id c'
            = Z.min (ContactRequest.sender_id request) (ContactRequest.recipient_id request)
         /\ Conversation.user2_id c'
            = Z.max (ContactRequest.sender_id request) (ContactRequest.recipient_id request)))
  /\ forall request_id recipient_id now,
       conversations (fst (respond_to_contact_request st request_id recipient_id false now))
       = conversations st.
Proof.
  intros Hstep Hok Hin. split; [now apply step_conversation_origin|].
  intros request_id recipient_id now. unfold respond_to_contact_request.
  destruct (session_get _ _ _); [|reflexivity]. now destruct (negb _).
Qed.

Lemma conversations_come_from_acceptance_witness :
  let c' := Conversation.mk 1 1 2 ACTIVE 10 None in
  step st_requested st_accepted
  /\ conversations_ok (conversations st_requested)
  /\ In c' (conversations st_accepted)
  /\ conversations (fst (respond_to_contact_request st_requested 1 1 false 10)) = [].
Proof.
  intros c'.
  assert (Hstep : step st_requested st_accepted)
    by exact (step_respond_to_contact_request st_requested 1 1 true 10).
  assert (Hok : conversations_ok (conversations st_requested)).
  { repeat split; constructor. }
  assert (Hin : In c' (conversations st_accepted)) by (now left).
  split; [exact Hstep|]. split; [exact Hok|]. split; [exact Hin|].
  exact (proj2 (conversations_come_from_acceptance st_requested st_accepted c' Hstep Hok Hin)
           1 1 10).
Defined.
